(** * colifer.reportextenders.done_aggregation: a shallow embedding

    The module merges the notes of a weekly section of a "Done" log into a
    weekly report.  This file embeds its three functions

      - [_extract_week_done_lines]  (the week extractor),
      - [_week_done_lines_to_dict]  (the done-line parser),
      - [_aggregate_report]         (the report aggregator),

    with the two file names [main] computes, and states their properties.

    Modelling conventions.
    - A Python [str] is a [string]; a character is a code point below 256
      (Latin-1), so the character classes below are Python's classes cut
      down to that range.
    - Python objects that are mutated or shared ([DoneAction] instances,
      [dict]s) live in a [Store] and are handled through references; the
      functions that touch them run in the state-and-exception monad [M].
    - A Python exception is an [exn]; a computation that raises keeps the
      store it had reached. *)

From Stdlib Require Import ZArith Lia Ascii DecimalString DecimalNat Sorted.
From stdpp Require Import base list strings gmap.

Local Open Scope nat_scope.

(** ** Python strings *)

Module PyStr.

Definition code (c : ascii) : nat := nat_of_ascii c.

(** [str.isspace] on one character: the Unicode white space below 256. *)
Definition isspace (c : ascii) : bool :=
  let n := code c in
  ((9 <=? n) && (n <=? 13)) || ((28 <=? n) && (n <=? 32))
  || (n =? 133) || (n =? 160).

(** [\d] of the [re] module. *)
Definition isdigit (c : ascii) : bool :=
  let n := code c in (48 <=? n) && (n <=? 57).

(** [\w] of the [re] module: [str.isalnum] or the underscore. *)
Definition isword (c : ascii) : bool :=
  let n := code c in
  isdigit c
  || ((65 <=? n) && (n <=? 90)) || (n =? 95) || ((97 <=? n) && (n <=? 122))
  || (n =? 170) || (n =? 178) || (n =? 179) || (n =? 181) || (n =? 185)
  || (n =? 186) || ((188 <=? n) && (n <=? 190))
  || ((192 <=? n) && (n <=? 214)) || ((216 <=? n) && (n <=? 246))
  || (248 <=? n).

Definition len (s : string) : nat := String.length s.

Definition is_empty (s : string) : bool :=
  match s with EmptyString => true | String _ _ => false end.

(** Longest prefix of characters satisfying [p], and what follows it. *)
Fixpoint take_while (p : ascii -> bool) (s : string) : string :=
  match s with
  | EmptyString => EmptyString
  | String c s' => if p c then String c (take_while p s') else EmptyString
  end.

Fixpoint drop_while (p : ascii -> bool) (s : string) : string :=
  match s with
  | EmptyString => EmptyString
  | String c s' => if p c then drop_while p s' else s
  end.

(** [s.lstrip()], [s.rstrip()], [s.strip()]. *)
Definition lstrip (s : string) : string := drop_while isspace s.

Fixpoint rstrip (s : string) : string :=
  match s with
  | EmptyString => EmptyString
  | String c s' =>
      let r := rstrip s' in
      if is_empty r && isspace c then EmptyString else String c r
  end.

Definition strip (s : string) : string := rstrip (lstrip s).

Fixpoint mem_char (c : ascii) (chars : string) : bool :=
  match chars with
  | EmptyString => false
  | String d chars' => Ascii.eqb c d || mem_char c chars'
  end.

(** [s.lstrip(chars)]. *)
Definition lstrip_chars (chars : string) (s : string) : string :=
  drop_while (fun c => mem_char c chars) s.

(** [s.startswith(p)]. *)
Fixpoint startswith (s p : string) : bool :=
  match p, s with
  | EmptyString, _ => true
  | String _ _, EmptyString => false
  | String a p', String b s' => Ascii.eqb a b && startswith s' p'
  end.

(** [s[n:]] for [0 <= n]. *)
Fixpoint slice_from (n : nat) (s : string) : string :=
  match n, s with
  | O, _ => s
  | S _, EmptyString => EmptyString
  | S n', String _ s' => slice_from n' s'
  end.

(** [needle in s]. *)
Fixpoint contains (needle s : string) : bool :=
  startswith s needle
  || match s with
     | EmptyString => false
     | String _ s' => contains needle s'
     end.

(** [c * n] for a one-character string [c]. *)
Fixpoint repeat_char (c : ascii) (n : nat) : string :=
  match n with
  | O => EmptyString
  | S n' => String c (repeat_char c n')
  end.

(** [sep.join(parts)]. *)
Fixpoint join (sep : string) (parts : list string) : string :=
  match parts with
  | [] => ""
  | [p] => p
  | p :: rest => p +:+ sep +:+ join sep rest
  end.

(** [s.split(sep)] for a non-empty [sep], scanning from the left: [cur]
    collects, reversed, the characters of the part being read, and [skip]
    counts the characters of a separator just found that are still to be
    passed over. *)
Fixpoint split_go (sep : string) (cur : string) (skip : nat) (s : string)
  : list string :=
  match s with
  | EmptyString => [String.rev cur]
  | String c s' =>
      match skip with
      | S k => split_go sep cur k s'
      | O =>
          if startswith s sep
          then String.rev cur :: split_go sep "" (len sep - 1) s'
          else split_go sep (String c cur) 0 s'
      end
  end.

Definition split (sep : string) (s : string) : list string :=
  split_go sep "" 0 s.

(** [str(n)] for a natural number. *)
Definition str_of_nat (n : nat) : string :=
  NilZero.string_of_uint (Nat.to_uint n).

(** [f"{z:02d}"]: at least two characters, zero-filled after the sign. *)
Definition format_02d (z : Z) : string :=
  if (z <? 0)%Z then "-" +:+ str_of_nat (Z.abs_nat z)
  else if (z <? 10)%Z then "0" +:+ str_of_nat (Z.abs_nat z)
  else str_of_nat (Z.abs_nat z).

(** [a < b] and [a == b] on strings: code points, lexicographically. *)
Definition ltb (a b : string) : bool := String.ltb a b.
Definition eqb (a b : string) : bool := String.eqb a b.

End PyStr.

(** ** Exceptions and the built-ins that raise them *)

(** The Python exceptions the three functions can raise.  [InvalidReference]
    is not a Python exception: it is the model's answer to a reference that
    points outside the store, which no Python execution produces. *)
Inductive exn : Set :=
| ValueError
| IndexError
| KeyError
| InvalidReference.

Inductive result (A : Type) : Type :=
| Ok (a : A)
| Raise (e : exn).
Arguments Ok {A} a.
Arguments Raise {A} e.

Module PyInt.
Import PyStr.

(** The white space [int] accepts around a numeral. *)
Definition isspace_int (c : ascii) : bool :=
  let n := code c in
  ((9 <=? n) && (n <=? 13)) || (n =? 32) || (n =? 133) || (n =? 160).

(** CPython's default [sys.int_max_str_digits]. *)
Definition int_max_str_digits : nat := 4300.

Definition digit_value (c : ascii) : Z := Z.of_nat (code c - 48).

(** Reads digits, each optionally preceded by one underscore once the
    first digit is read; returns the value, the number of digits and what
    is left. *)
Fixpoint digits_go (s : string) (acc : Z) (count : nat)
  : Z * nat * string :=
  match s with
  | EmptyString => (acc, count, s)
  | String c s' =>
      if isdigit c
      then digits_go s' (10 * acc + digit_value c)%Z (S count)
      else if Ascii.eqb c "_"
      then match s' with
           | String d _ => if isdigit d then digits_go s' acc count
                           else (acc, count, s)
           | EmptyString => (acc, count, s)
           end
      else (acc, count, s)
  end.

Definition unsigned (s : string) : result Z :=
  match s with
  | String c _ =>
      if isdigit c then
        let '(v, count, rest) := digits_go s 0%Z 0 in
        if is_empty (drop_while isspace_int rest)
           && (count <=? int_max_str_digits)
        then Ok v else Raise ValueError
      else Raise ValueError
  | EmptyString => Raise ValueError
  end.

(** [int(s)] for a string [s]. *)
Definition int (s : string) : result Z :=
  match drop_while isspace_int s with
  | String "+" s' => unsigned s'
  | String "-" s' =>
      match unsigned s' with
      | Ok v => Ok (- v)%Z
      | Raise e => Raise e
      end
  | s' => unsigned s'
  end.

End PyInt.

(** [l.index(x)] and [l[i]] on a list of strings. *)
Fixpoint list_index_from (l : list string) (x : string) (i : nat)
  : result nat :=
  match l with
  | [] => Raise ValueError
  | y :: l' => if PyStr.eqb y x then Ok i else list_index_from l' x (S i)
  end.

Definition list_index (l : list string) (x : string) : result nat :=
  list_index_from l x 0.

Definition list_getitem (l : list string) (i : Z) : result string :=
  let n := Z.of_nat (length l) in
  let j := if (i <? 0)%Z then (i + n)%Z else i in
  if (j <? 0)%Z then Raise IndexError
  else match l !! Z.to_nat j with
       | Some x => Ok x
       | None => Raise IndexError
       end.

(** ** The module's constants *)

Definition TRACKED_TAG : string := " (Tracked)".
Definition CATEGORIES : gset string := {[ "Work"; "Colifer"; "Gaming" ]}.
Definition IGNORED_CATEGORIES : gset string := {[ "Work" ]}.
Definition WEEKDAYS : list string :=
  ["Monday"; "Tuesday"; "Wednesday"; "Thursday"; "Friday"; "Saturday";
   "Sunday"].

(** The two compiled patterns, each as the function [pattern.match]
    computes on it. *)

(** [ENTRY_NAME_REGEX = "- \*\*([^*]+)\*\*.*"]: group 1 of a match at the
    start of [s].  The class [[^*]+] is greedy and no shorter run can be
    followed by a star, so group 1 is the whole run of non-stars. *)
Definition ENTRY_NAME_REGEX_match (s : string) : option string :=
  let not_star := fun c => negb (Ascii.eqb c "*") in
  if PyStr.startswith s "- **" then
    let rest := PyStr.slice_from 4 s in
    let group1 := PyStr.take_while not_star rest in
    if negb (PyStr.is_empty group1)
       && PyStr.startswith (PyStr.drop_while not_star rest) "**"
    then Some group1 else None
  else None.

(** [DAY_DONE_REGEX = "#### (\d+)/(\d+) (\w+)"]: the three groups of a
    match at the start of [s]; every repetition is greedy and is followed by
    a character outside its class, so each group is a maximal run. *)
Definition DAY_DONE_REGEX_match (s : string)
  : option (string * string * string) :=
  if PyStr.startswith s "#### " then
    let s1 := PyStr.slice_from 5 s in
    let group1 := PyStr.take_while PyStr.isdigit s1 in
    match PyStr.drop_while PyStr.isdigit s1 with
    | String "/" s2 =>
        let group2 := PyStr.take_while PyStr.isdigit s2 in
        match PyStr.drop_while PyStr.isdigit s2 with
        | String " " s3 =>
            let group3 := PyStr.take_while PyStr.isword s3 in
            if PyStr.is_empty group1 || PyStr.is_empty group2
               || PyStr.is_empty group3
            then None else Some (group1, group2, group3)
        | _ => None
        end
    | _ => None
    end
  else None.

(** ** The object store *)

(** [class DoneAction(SimpleNamespace)]: five mutable attributes. *)
Record DoneAction : Set := mkDoneAction {
  identation_width : nat;
  name : string;
  category : string;
  weekday_nums : string;
  notes : list string
}.

(** References to [DoneAction] objects and to [dict] objects: positions in
    the store. *)
Definition action_ref : Set := nat.
Definition dict_ref : Set := nat.

(** A [Dict[str, DoneAction]]: keys in insertion order, each bound to a
    reference to its value. *)
Abbreviation pydict := (list (string * action_ref)).

(** The store: the allocated [DoneAction] objects, the allocated [dict]
    objects and the messages the module's logger has emitted. *)
Record Store : Set := mkStore {
  actions : list DoneAction;
  dicts : list pydict;
  warnings : list string
}.

Definition empty_store : Store :=
  {| actions := []; dicts := []; warnings := [] |}.

Module Dict.

Fixpoint lookup (k : string) (d : pydict) : option action_ref :=
  match d with
  | [] => None
  | (k', v) :: d' => if PyStr.eqb k' k then Some v else lookup k d'
  end.

Definition mem (k : string) (d : pydict) : bool :=
  match lookup k d with Some _ => true | None => false end.

(** [d[k] = v]: a present key keeps its place, a new one goes last. *)
Fixpoint set (k : string) (v : action_ref) (d : pydict) : pydict :=
  match d with
  | [] => [(k, v)]
  | (k', v') :: d' =>
      if PyStr.eqb k' k then (k', v) :: d' else (k', v') :: set k v d'
  end.

Fixpoint remove (k : string) (d : pydict) : pydict :=
  match d with
  | [] => []
  | (k', v') :: d' =>
      if PyStr.eqb k' k then d' else (k', v') :: remove k d'
  end.

Definition keys (d : pydict) : list string := d.*1.
Definition values (d : pydict) : list action_ref := d.*2.

End Dict.

(** ** The state-and-exception monad *)

Definition M (A : Type) : Type := Store -> result A * Store.

Definition ret {A} (a : A) : M A := fun σ => (Ok a, σ).

Definition bind {A B} (m : M A) (f : A -> M B) : M B :=
  fun σ =>
    match m σ with
    | (Ok a, σ') => f a σ'
    | (Raise e, σ') => (Raise e, σ')
    end.

Definition raise {A} (e : exn) : M A := fun σ => (Raise e, σ).

(** A pure computation that may raise. *)
Definition lift {A} (r : result A) : M A := fun σ => (r, σ).

Declare Scope py_scope.
Delimit Scope py_scope with py.
Notation "x <- m ;; k" := (bind m (fun x => k))
  (at level 100, m at next level, right associativity,
   format "'[v' x  <-  m  ;;  '/' k ']'") : py_scope.
Notation "m ;;; k" := (bind m (fun _ => k))
  (at level 100, right associativity,
   format "'[v' m  ;;;  '/' k ']'") : py_scope.
Local Open Scope py_scope.

(** [for x in xs: acc = body(x, acc)]. *)
Fixpoint for_each {A S} (xs : list A) (body : A -> S -> M S) (acc : S)
  : M S :=
  match xs with
  | [] => ret acc
  | x :: xs' => acc' <- body x acc ;; for_each xs' body acc'
  end.

(** [[f(x) for x in xs]]. *)
Fixpoint comprehension {A B} (f : A -> M B) (xs : list A) : M (list B) :=
  match xs with
  | [] => ret []
  | x :: xs' => y <- f x ;; ys <- comprehension f xs' ;; ret (y :: ys)
  end.

Module Py.

(** [DoneAction(...)]: a new object. *)
Definition new_action (a : DoneAction) : M action_ref :=
  fun σ =>
    (Ok (length (actions σ)),
     {| actions := actions σ ++ [a]; dicts := dicts σ;
        warnings := warnings σ |}).

(** Reading the attributes of the object behind [r]. *)
Definition load (r : action_ref) : M DoneAction :=
  fun σ =>
    match actions σ !! r with
    | Some a => (Ok a, σ)
    | None => (Raise InvalidReference, σ)
    end.

Definition update (r : action_ref) (f : DoneAction -> DoneAction)
  : M unit :=
  fun σ =>
    match actions σ !! r with
    | Some a =>
        (Ok tt,
         {| actions := <[r := f a]> (actions σ); dicts := dicts σ;
            warnings := warnings σ |})
    | None => (Raise InvalidReference, σ)
    end.

(** [r.weekday_nums = v]. *)
Definition with_weekday_nums (v : string) (a : DoneAction) : DoneAction :=
  {| identation_width := identation_width a; name := name a;
     category := category a; weekday_nums := v; notes := notes a |}.

Definition set_weekday_nums (r : action_ref) (v : string) : M unit :=
  update r (with_weekday_nums v).

(** [r.notes.append(v)]. *)
Definition with_note (v : string) (a : DoneAction) : DoneAction :=
  {| identation_width := identation_width a; name := name a;
     category := category a; weekday_nums := weekday_nums a;
     notes := notes a ++ [v] |}.

Definition notes_append (r : action_ref) (v : string) : M unit :=
  update r (with_note v).

Definition dict_alloc (d : pydict) : M dict_ref :=
  fun σ =>
    (Ok (length (dicts σ)),
     {| actions := actions σ; dicts := dicts σ ++ [d];
        warnings := warnings σ |}).

Definition dict_read (r : dict_ref) : M pydict :=
  fun σ =>
    match dicts σ !! r with
    | Some d => (Ok d, σ)
    | None => (Raise InvalidReference, σ)
    end.

Definition dict_write (r : dict_ref) (d : pydict) : M unit :=
  fun σ =>
    match dicts σ !! r with
    | Some _ =>
        (Ok tt,
         {| actions := actions σ; dicts := <[r := d]> (dicts σ);
            warnings := warnings σ |})
    | None => (Raise InvalidReference, σ)
    end.

(** [{}]. *)
Definition dict_new : M dict_ref := dict_alloc [].

(** [r.copy()]: a new dict with the same keys and the same references. *)
Definition dict_copy (r : dict_ref) : M dict_ref :=
  d <- dict_read r ;; dict_alloc d.

(** [k in r]. *)
Definition dict_contains (r : dict_ref) (k : string) : M bool :=
  d <- dict_read r ;; ret (Dict.mem k d).

(** [r[k]]. *)
Definition dict_getitem (r : dict_ref) (k : string) : M action_ref :=
  d <- dict_read r ;;
  match Dict.lookup k d with
  | Some v => ret v
  | None => raise KeyError
  end.

(** [r[k] = v]. *)
Definition dict_setitem (r : dict_ref) (k : string) (v : action_ref)
  : M unit :=
  d <- dict_read r ;; dict_write r (Dict.set k v d).

(** [del r[k]]. *)
Definition dict_delitem (r : dict_ref) (k : string) : M unit :=
  d <- dict_read r ;;
  if Dict.mem k d then dict_write r (Dict.remove k d) else raise KeyError.

(** [r.values()], as the list a loop over it visits. *)
Definition dict_values (r : dict_ref) : M (list action_ref) :=
  d <- dict_read r ;; ret (Dict.values d).

(** [logger.warning(msg)]. *)
Definition logger_warning (msg : string) : M unit :=
  fun σ =>
    (Ok tt,
     {| actions := actions σ; dicts := dicts σ;
        warnings := warnings σ ++ [msg] |}).

End Py.

(** ** [_extract_week_done_lines] *)

Definition week_separator : string := "### Week ".

Definition target_week_start (week_number : Z) : string :=
  week_separator +:+ PyStr.format_02d week_number.

(** The loop of [_extract_week_done_lines] over the lines still to read,
    with the two variables it updates; [break] ends the recursion. *)
Fixpoint extract_loop (target : string) (done_lines : list string)
    (target_week_started : bool) (week_lines : list string) : list string :=
  match done_lines with
  | [] => week_lines
  | line :: rest =>
      let line_stripped := PyStr.strip line in
      if target_week_started then
        if PyStr.startswith line_stripped week_separator then week_lines
        else
          let week_lines := week_lines ++ [line] in
          let target_week_started :=
            if PyStr.eqb line_stripped target then true
            else target_week_started in
          extract_loop target rest target_week_started week_lines
      else
        let target_week_started :=
          if PyStr.eqb line_stripped target then true
          else target_week_started in
        extract_loop target rest target_week_started week_lines
  end.

Definition _extract_week_done_lines (done_lines : list string)
    (week_number : Z) : list string :=
  extract_loop (target_week_start week_number) done_lines false [].

(** ** [_week_done_lines_to_dict] *)

(** The loop variables of the parser.  [weekday_num] starts as the empty
    string and holds an index into [WEEKDAYS] once a day header is read:
    [None] stands for the empty string. *)
Record ParserVars : Set := mkParserVars {
  active_key : option action_ref;
  last_category : string;
  weekday_num : option nat
}.

(** [str(weekday_num)], also what an f-string prints for it. *)
Definition str_weekday_num (w : option nat) : string :=
  match w with
  | None => ""
  | Some n => PyStr.str_of_nat n
  end.

(** One turn of the parser's loop.  The local variable [identation_width]
    is written [identation_width'] to keep it apart from the attribute. *)
Definition parse_line (week_done_action_dict : dict_ref)
    (week_done_line : string) (vars : ParserVars) : M ParserVars :=
  let week_done_line_stripped :=
    PyStr.strip (PyStr.lstrip_chars "- " week_done_line) in
  if PyStr.is_empty week_done_line_stripped then ret vars
  else
    match DAY_DONE_REGEX_match week_done_line with
    | Some (_, _, weekday) =>
        weekday_num <- lift (list_index WEEKDAYS weekday) ;;
        ret {| active_key := None; last_category := "";
               weekday_num := Some weekday_num |}
    | None =>
        let identation_width' :=
          PyStr.len week_done_line
          - PyStr.len (PyStr.lstrip week_done_line) in
        if bool_decide (week_done_line_stripped ∈ CATEGORIES) then
          ret {| active_key := None;
                 last_category := week_done_line_stripped;
                 weekday_num := weekday_num vars |}
        else
          let last_category :=
            if identation_width' =? 0 then "" else last_category vars in
          if identation_width' =? 0 then
            known <- Py.dict_contains week_done_action_dict
                       week_done_line_stripped ;;
            if negb known then
              active_key <- Py.new_action
                {| identation_width := identation_width';
                   name := week_done_line_stripped;
                   category := last_category;
                   weekday_nums := str_weekday_num (weekday_num vars);
                   notes := [] |} ;;
              a <- Py.load active_key ;;
              Py.dict_setitem week_done_action_dict (name a) active_key ;;;
              ret {| active_key := Some active_key;
                     last_category := last_category;
                     weekday_num := weekday_num vars |}
            else
              active_key <- Py.dict_getitem week_done_action_dict
                              week_done_line_stripped ;;
              a <- Py.load active_key ;;
              (if negb (PyStr.contains (str_weekday_num (weekday_num vars))
                          (weekday_nums a))
               then Py.set_weekday_nums active_key
                      (weekday_nums a +:+ ", "
                       +:+ str_weekday_num (weekday_num vars))
               else ret tt) ;;;
              ret {| active_key := Some active_key;
                     last_category := last_category;
                     weekday_num := weekday_num vars |}
          else
            match active_key vars with
            | Some active_key =>
                a <- Py.load active_key ;;
                let week_done_line_shifted :=
                  PyStr.slice_from (identation_width a) week_done_line in
                target <- Py.dict_getitem week_done_action_dict (name a) ;;
                Py.notes_append target week_done_line_shifted ;;;
                ret {| active_key := Some active_key;
                       last_category := last_category;
                       weekday_num := weekday_num vars |}
            | None =>
                ret {| active_key := None;
                       last_category := last_category;
                       weekday_num := weekday_num vars |}
            end
    end.

Definition _week_done_lines_to_dict (week_done_lines : list string)
  : M dict_ref :=
  week_done_action_dict <- Py.dict_new ;;
  for_each week_done_lines (parse_line week_done_action_dict)
    {| active_key := None; last_category := ""; weekday_num := None |} ;;;
  ret week_done_action_dict.

(** ** [_aggregate_report] *)

(** The variables the injection loop updates. *)
Record InjectVars : Set := mkInjectVars {
  ext_weekly_report : string;
  used_action_names : gset string
}.

Definition duplicate_warning (action_name : string) : string :=
  "Duplicate action (Toggl entry) '" +:+ action_name
  +:+ "' found in report.".

Definition newline : string := String "010" "".

(** [for note in notes: text += f"{base}{note}\n"]. *)
Definition append_notes (base : string) (notes : list string)
    (text : string) : string :=
  fold_left (fun text note => text +:+ (base +:+ note +:+ newline))
            notes text.

(** One turn of the injection loop. *)
Definition inject_line (week_done_actions_dict_copy : dict_ref)
    (report_line : string) (vars : InjectVars) : M InjectVars :=
  let ext_weekly_report :=
    ext_weekly_report vars +:+ (report_line +:+ newline) in
  let used_action_names := used_action_names vars in
  if PyStr.is_empty (PyStr.strip report_line) then
    ret {| ext_weekly_report := ext_weekly_report;
           used_action_names := used_action_names |}
  else
    let action_name_match :=
      ENTRY_NAME_REGEX_match (PyStr.strip report_line) in
    let action_name_identation :=
      PyStr.len report_line - PyStr.len (PyStr.lstrip report_line) in
    match action_name_match with
    | Some action_name =>
        if bool_decide (action_name ∈ used_action_names) then
          Py.logger_warning (duplicate_warning action_name) ;;;
          ret {| ext_weekly_report := ext_weekly_report;
                 used_action_names := used_action_names |}
        else
          present <- Py.dict_contains week_done_actions_dict_copy
                       action_name ;;
          if present then
            let used_action_names := {[ action_name ]} ∪ used_action_names in
            action <- Py.dict_getitem week_done_actions_dict_copy
                        action_name ;;
            a <- Py.load action ;;
            if bool_decide (category a ∉ IGNORED_CATEGORIES) then
              let base_identation :=
                if action_name_identation =? 0 then ""
                else PyStr.repeat_char " " action_name_identation in
              let ext_weekly_report :=
                append_notes base_identation (notes a) ext_weekly_report in
              Py.dict_delitem week_done_actions_dict_copy (name a) ;;;
              ret {| ext_weekly_report := ext_weekly_report;
                     used_action_names := used_action_names |}
            else
              ret {| ext_weekly_report := ext_weekly_report;
                     used_action_names := used_action_names |}
          else
            ret {| ext_weekly_report := ext_weekly_report;
                   used_action_names := used_action_names |}
    | None =>
        ret {| ext_weekly_report := ext_weekly_report;
               used_action_names := used_action_names |}
    end.

(** The key an action is sorted by in the overview. *)
Definition sort_key (a : DoneAction) : string :=
  (if PyStr.is_empty (weekday_nums a) then ""
   else "- " +:+ weekday_nums a +:+ " ")
  +:+ ("- " +:+ name a +:+ " ").

(** [sorted(xs, key=lambda x: x[0])].  Python's sort is stable and a stable
    sort has one result, which insertion from the left computes: an element
    goes behind those that are not greater. *)
Fixpoint sorted_insert {A} (x : string * A) (xs : list (string * A))
  : list (string * A) :=
  match xs with
  | [] => [x]
  | y :: xs' =>
      if PyStr.ltb x.1 y.1 then x :: y :: xs' else y :: sorted_insert x xs'
  end.

Definition sorted {A} (xs : list (string * A)) : list (string * A) :=
  fold_left (fun acc x => sorted_insert x acc) xs [].

(** [', '.join([WEEKDAYS[int(n)] for n in weekday_nums.split(', ')])]. *)
Definition weekday_names (weekday_nums : string) : result string :=
  let fix go (parts : list string) : result (list string) :=
    match parts with
    | [] => Ok []
    | weekday_num :: parts' =>
        match PyInt.int weekday_num with
        | Raise e => Raise e
        | Ok i =>
            match list_getitem WEEKDAYS i with
            | Raise e => Raise e
            | Ok w =>
                match go parts' with
                | Raise e => Raise e
                | Ok ws => Ok (w :: ws)
                end
            end
        end
    end in
  match go (PyStr.split ", " weekday_nums) with
  | Raise e => Raise e
  | Ok ws => Ok (PyStr.join ", " ws)
  end.

(** One turn of the overview loop. *)
Definition overview_entry (week_done_actions_dict_copy : dict_ref)
    (item : string * action_ref) (overview_section : string) : M string :=
  let action := item.2 in
  a <- Py.load action ;;
  action_weekdays <-
    (if negb (PyStr.is_empty (weekday_nums a)) then
       weekdays <- lift (weekday_names (weekday_nums a)) ;;
       ret ("- " +:+ weekdays +:+ " ")
     else ret "") ;;
  in_copy <- Py.dict_contains week_done_actions_dict_copy (name a) ;;
  let tracked_tag := if negb in_copy then TRACKED_TAG else "" in
  let overview_section :=
    overview_section
    +:+ (action_weekdays +:+ "- " +:+ name a +:+ tracked_tag +:+ newline) in
  ret (append_notes "" (notes a) overview_section).

Definition _aggregate_report (report_lines : list string)
    (week_done_actions_dict : dict_ref) : M string :=
  let overview_section := "## Overview" +:+ newline in
  week_done_actions_dict_copy <- Py.dict_copy week_done_actions_dict ;;
  vars <- for_each report_lines (inject_line week_done_actions_dict_copy)
            {| ext_weekly_report := ""; used_action_names := ∅ |} ;;
  values <- Py.dict_values week_done_actions_dict ;;
  action_tuples <-
    comprehension
      (fun action => a <- Py.load action ;; ret (sort_key a, action))
      values ;;
  let sorted_action_tuples := sorted action_tuples in
  overview_section <-
    for_each sorted_action_tuples
      (overview_entry week_done_actions_dict_copy) overview_section ;;
  ret (overview_section +:+ newline +:+ ext_weekly_report vars).

(** The first part of [_aggregate_report]: the working copy is made and
    the injection loop run. *)
Definition injection_pass (report_lines : list string)
    (week_done_actions_dict : dict_ref) : M InjectVars :=
  week_done_actions_dict_copy <- Py.dict_copy week_done_actions_dict ;;
  for_each report_lines (inject_line week_done_actions_dict_copy)
    {| ext_weekly_report := ""; used_action_names := ∅ |}.

(** ** The core of [main]: the three functions in sequence *)

Definition main_core (done_lines report_lines : list string)
    (week_number : Z) : M string :=
  let week_done_lines := _extract_week_done_lines done_lines week_number in
  week_done_actions_dict <- _week_done_lines_to_dict week_done_lines ;;
  _aggregate_report report_lines week_done_actions_dict.

(** ** Vocabulary of the statements *)

(** A line the extractor takes for a week header, and one it takes for the
    header of week [week_number]. *)
Definition is_week_header (line : string) : bool :=
  PyStr.startswith (PyStr.strip line) week_separator.

Definition is_target_header (week_number : Z) (line : string) : bool :=
  PyStr.eqb (PyStr.strip line) (target_week_start week_number).

(** What a computation may do to the store: [unchanged_but c σ σ'] holds
    when [σ'] has the objects of [σ] with their attributes, and the dicts
    of [σ] with their contents except possibly the dict behind [c]. *)
Definition unchanged_but (c : dict_ref) (σ σ' : Store) : Prop :=
  actions σ' = actions σ
  /\ length (dicts σ') = length (dicts σ)
  /\ forall r, r <> c -> dicts σ' !! r = dicts σ !! r.

(** [respects P m]: from every store, [m] ends (normally or not) in a store
    related to it by [P]. *)
Definition respects {A} (P : Store -> Store -> Prop) (m : M A) : Prop :=
  forall σ, P σ (m σ).2.

(** *** The parser, seen from the list of the actions it has created

    The parser allocates its actions one after the other and enters each
    into its dict at once, so its store is determined by the list [new] of
    the actions created so far.  [abs_parse_line] is the turn of the loop
    on that list; the lemma [parse_line_sim] ties it to [parse_line]. *)

(** The kinds of line the parser tells apart, by the tests of its loop. *)
Inductive line_kind : Set :=
| BlankLine
| DayHeader (weekday : string)
| CategoryLine (c : string)
| ActionLine (action_name : string)
| NoteLine.

Definition classify (week_done_line : string) : line_kind :=
  let stripped := PyStr.strip (PyStr.lstrip_chars "- " week_done_line) in
  if PyStr.is_empty stripped then BlankLine
  else
    match DAY_DONE_REGEX_match week_done_line with
    | Some (_, _, weekday) => DayHeader weekday
    | None =>
        if bool_decide (stripped ∈ CATEGORIES) then CategoryLine stripped
        else if PyStr.len week_done_line
                - PyStr.len (PyStr.lstrip week_done_line) =? 0
        then ActionLine stripped
        else NoteLine
    end.

(** The dict of a parser that has created [new], its first action at
    reference [n0]. *)
Fixpoint index_dict (n0 : nat) (new : list DoneAction) : pydict :=
  match new with
  | [] => []
  | a :: new' => (name a, n0) :: index_dict (S n0) new'
  end.

(** Position of the first action called [k]. *)
Fixpoint find_action (k : string) (new : list DoneAction) : option nat :=
  match new with
  | [] => None
  | a :: new' =>
      if PyStr.eqb (name a) k then Some 0 else S <$> find_action k new'
  end.

Definition abs_parse_line (n0 : nat) (week_done_line : string)
    (s : list DoneAction * ParserVars)
  : result (list DoneAction * ParserVars) :=
  let '(new, vars) := s in
  match classify week_done_line with
  | BlankLine => Ok (new, vars)
  | DayHeader weekday =>
      match list_index WEEKDAYS weekday with
      | Ok n =>
          Ok (new, {| active_key := None; last_category := "";
                      weekday_num := Some n |})
      | Raise e => Raise e
      end
  | CategoryLine c =>
      Ok (new, {| active_key := None; last_category := c;
                  weekday_num := weekday_num vars |})
  | ActionLine k =>
      let day := str_weekday_num (weekday_num vars) in
      match find_action k new with
      | None =>
          Ok (new ++ [ {| identation_width := 0; name := k; category := "";
                          weekday_nums := day; notes := [] |} ],
              {| active_key := Some (n0 + length new); last_category := "";
                 weekday_num := weekday_num vars |})
      | Some i =>
          match new !! i with
          | Some a =>
              Ok (if negb (PyStr.contains day (weekday_nums a))
                  then <[i := Py.with_weekday_nums
                                 (weekday_nums a +:+ ", " +:+ day) a]> new
                  else new,
                  {| active_key := Some (n0 + i); last_category := "";
                     weekday_num := weekday_num vars |})
          | None => Raise InvalidReference
          end
      end
  | NoteLine =>
      match active_key vars with
      | Some r =>
          match new !! (r - n0) with
          | Some a =>
              Ok (<[r - n0 :=
                      Py.with_note
                        (PyStr.slice_from (identation_width a) week_done_line)
                        a]> new,
                  vars)
          | None => Raise InvalidReference
          end
      | None => Ok (new, vars)
      end
  end.

Fixpoint abs_parse (n0 : nat) (week_done_lines : list string)
    (s : list DoneAction * ParserVars)
  : result (list DoneAction * ParserVars) :=
  match week_done_lines with
  | [] => Ok s
  | line :: rest =>
      match abs_parse_line n0 line s with
      | Ok s' => abs_parse n0 rest s'
      | Raise e => Raise e
      end
  end.

(** The store of a parser started in [σ0] that has created [new]. *)
Definition parser_store (σ0 : Store) (new : list DoneAction) : Store :=
  {| actions := actions σ0 ++ new;
     dicts := dicts σ0 ++ [index_dict (length (actions σ0)) new];
     warnings := warnings σ0 |}.

(** What the loop keeps true of [new] and its variables. *)
Definition parser_ok (n0 : nat) (new : list DoneAction) (vars : ParserVars)
  : Prop :=
  NoDup (name <$> new)
  /\ match active_key vars with
     | Some r => n0 <= r < n0 + length new
     | None => True
     end.

(** The parser's variables before its loop. *)
Definition parser_init : ParserVars :=
  {| active_key := None; last_category := ""; weekday_num := None |}.

(** An action created at the top level of the log: no category, no
    indentation. *)
Definition top_level (a : DoneAction) : Prop :=
  category a = "" /\ identation_width a = 0.

(** *** Occurrences of an action line under the days of a week

    [day] is the value of the parser's [weekday_num]: [None] before the
    first day header, [Some i] under a header that names [WEEKDAYS[i]]. *)

(** The day in force after a line. *)
Definition day_after_line (line : string) (day : option nat) : option nat :=
  match classify line with
  | DayHeader weekday =>
      match list_index WEEKDAYS weekday with
      | Ok n => Some n
      | Raise _ => day
      end
  | _ => day
  end.

(** The days under which top-level action lines called [action_name]
    appear, in the order of the lines. *)
Definition occurrence (action_name : string) (line : string)
    (day : option nat) : list (option nat) :=
  match classify line with
  | ActionLine k => if PyStr.eqb k action_name then [day] else []
  | _ => []
  end.

Fixpoint occurrences (action_name : string) (lines : list string)
    (day : option nat) : list (option nat) :=
  match lines with
  | [] => []
  | line :: rest =>
      occurrence action_name line day
      ++ occurrences action_name rest (day_after_line line day)
  end.

(** A list without its repetitions, each element where it is first seen. *)
Definition note_day (seen : list (option nat)) (day : option nat)
  : list (option nat) :=
  if bool_decide (day ∈ seen) then seen else seen ++ [day].

Definition first_seen (days : list (option nat)) : list (option nat) :=
  fold_left note_day days [].

(** Every day header names a day of the week. *)
Definition valid_day_header (line : string) : Prop :=
  match classify line with
  | DayHeader weekday => weekday ∈ WEEKDAYS
  | _ => True
  end.

(** What the parser keeps true of the action called [action_name], of the
    days [seen] for it so far and of the day in force. *)
Definition day_ok (day : option nat) : Prop :=
  match day with Some n => n < 7 | None => True end.

Definition days_ok (seen : list (option nat)) (day : option nat) : Prop :=
  Forall day_ok seen
  /\ match day with
     | Some n => n < 7
     | None => Forall (fun w => w = None) seen
     end.

Definition days_recorded (action_name : string) (new : list DoneAction)
    (seen : list (option nat)) : Prop :=
  match find_action action_name new with
  | None => seen = []
  | Some i =>
      seen <> []
      /\ exists a, new !! i = Some a
           /\ weekday_nums a = PyStr.join ", " (str_weekday_num <$> seen)
  end.

(** *** The injection loop, seen from its working copy

    The injection loop reads the actions and writes to the working copy of
    the mapping and to the logger only.  [abs_inject_line] is the turn of
    the loop on the contents [copy] of the working copy and the warnings
    [warns] logged so far; the lemma [inject_line_sim] ties it to
    [inject_line]. *)

(** The action name a report line carries, if any: what
    [ENTRY_NAME_REGEX] extracts from a line that is not blank. *)
Definition bold_name (report_line : string) : option string :=
  if PyStr.is_empty (PyStr.strip report_line) then None
  else ENTRY_NAME_REGEX_match (PyStr.strip report_line).

(** The indentation given to the notes injected under a report line. *)
Definition action_name_identation (report_line : string) : nat :=
  PyStr.len report_line - PyStr.len (PyStr.lstrip report_line).

Definition base_identation (report_line : string) : string :=
  if action_name_identation report_line =? 0 then ""
  else PyStr.repeat_char " " (action_name_identation report_line).

(** The notes of an action as a block of lines, each behind [base]. *)
Definition notes_block (base : string) (notes : list string) : string :=
  append_notes base notes "".

Definition abs_inject_line (acts : list DoneAction) (report_line : string)
    (s : pydict * InjectVars * list string)
  : result (pydict * InjectVars * list string) :=
  let '(copy, vars, warns) := s in
  let ext := ext_weekly_report vars +:+ (report_line +:+ newline) in
  let used := used_action_names vars in
  match bold_name report_line with
  | None =>
      Ok (copy, {| ext_weekly_report := ext; used_action_names := used |},
          warns)
  | Some action_name =>
      if bool_decide (action_name ∈ used) then
        Ok (copy, {| ext_weekly_report := ext; used_action_names := used |},
            warns ++ [duplicate_warning action_name])
      else
        match Dict.lookup action_name copy with
        | None =>
            Ok (copy,
                {| ext_weekly_report := ext; used_action_names := used |},
                warns)
        | Some r =>
            match acts !! r with
            | None => Raise InvalidReference
            | Some a =>
                if bool_decide (category a ∉ IGNORED_CATEGORIES) then
                  if Dict.mem (name a) copy then
                    Ok (Dict.remove (name a) copy,
                        {| ext_weekly_report :=
                             append_notes (base_identation report_line)
                               (notes a) ext;
                           used_action_names := {[ action_name ]} ∪ used |},
                        warns)
                  else Raise KeyError
                else
                  Ok (copy,
                      {| ext_weekly_report := ext;
                         used_action_names := {[ action_name ]} ∪ used |},
                      warns)
            end
        end
  end.

Fixpoint abs_inject (acts : list DoneAction) (report_lines : list string)
    (s : pydict * InjectVars * list string)
  : result (pydict * InjectVars * list string) :=
  match report_lines with
  | [] => Ok s
  | line :: rest =>
      match abs_inject_line acts line s with
      | Ok s' => abs_inject acts rest s'
      | Raise e => Raise e
      end
  end.

(** The store of an injection loop started in [σ] with its working copy at
    [c], when the copy holds [copy] and [warns] have been logged. *)
Definition inject_store (σ : Store) (c : dict_ref) (copy : pydict)
    (warns : list string) : Store :=
  {| actions := actions σ;
     dicts := <[c := copy]> (dicts σ);
     warnings := warnings σ ++ warns |}.

(** The injection loop's variables before the loop. *)
Definition inject_init : InjectVars :=
  {| ext_weekly_report := ""; used_action_names := ∅ |}.

(** A mapping as the module builds them: each key once, bound to a live
    action of that name. *)
Definition well_formed (acts : list DoneAction) (mapping : pydict) : Prop :=
  NoDup mapping.*1
  /\ forall k r, (k, r) ∈ mapping ->
       exists a, acts !! r = Some a /\ name a = k.

(** *** The overview loop, seen from the working copy

    After the injection loop the aggregator only reads the store.
    [overview_text] is what one turn of the overview loop appends for the
    action [a] when the working copy holds [copy], and [abs_aggregate] the
    whole of [_aggregate_report] as a function of the actions, the contents
    of the mapping and the report lines; the lemma [aggregate_report_run]
    ties it to [_aggregate_report]. *)

(** [action_weekdays] of the overview loop. *)
Definition action_weekdays (a : DoneAction) : result string :=
  if negb (PyStr.is_empty (weekday_nums a)) then
    match weekday_names (weekday_nums a) with
    | Ok weekdays => Ok ("- " +:+ weekdays +:+ " ")
    | Raise e => Raise e
    end
  else Ok "".

(** [tracked_tag] of the overview loop. *)
Definition tracked_tag (copy : pydict) (a : DoneAction) : string :=
  if negb (Dict.mem (name a) copy) then TRACKED_TAG else "".

(** The overview line of an action, with the tag it is given, and the
    note lines under it. *)
Definition overview_line (tag : string) (a : DoneAction) (weekdays : string)
  : string :=
  weekdays +:+ "- " +:+ name a +:+ tag +:+ newline.

Definition overview_text (tag : string) (a : DoneAction) (weekdays : string)
  : string :=
  overview_line tag a weekdays +:+ notes_block "" (notes a).

Definition abs_overview_entry (acts : list DoneAction) (copy : pydict)
    (item : string * action_ref) (overview_section : string)
  : result string :=
  match acts !! item.2 with
  | None => Raise InvalidReference
  | Some a =>
      match action_weekdays a with
      | Raise e => Raise e
      | Ok weekdays =>
          Ok (overview_section
              +:+ overview_text (tracked_tag copy a) a weekdays)
      end
  end.

Fixpoint abs_overview (acts : list DoneAction) (copy : pydict)
    (items : list (string * action_ref)) (overview_section : string)
  : result string :=
  match items with
  | [] => Ok overview_section
  | item :: rest =>
      match abs_overview_entry acts copy item overview_section with
      | Ok overview_section' => abs_overview acts copy rest overview_section'
      | Raise e => Raise e
      end
  end.

Fixpoint abs_action_tuples (acts : list DoneAction)
    (values : list action_ref) : result (list (string * action_ref)) :=
  match values with
  | [] => Ok []
  | r :: values' =>
      match acts !! r with
      | None => Raise InvalidReference
      | Some a =>
          match abs_action_tuples acts values' with
          | Ok tuples => Ok ((sort_key a, r) :: tuples)
          | Raise e => Raise e
          end
      end
  end.

Definition overview_header : string := "## Overview" +:+ newline.

(** What [_aggregate_report] returns, with the final contents of the
    working copy and the warnings logged. *)
Definition abs_aggregate (acts : list DoneAction) (mapping : pydict)
    (report_lines : list string) : result (string * pydict * list string) :=
  match abs_inject acts report_lines (mapping, inject_init, []) with
  | Raise e => Raise e
  | Ok (copy, vars, warns) =>
      match abs_action_tuples acts (Dict.values mapping) with
      | Raise e => Raise e
      | Ok action_tuples =>
          match abs_overview acts copy (sorted action_tuples)
                  overview_header with
          | Raise e => Raise e
          | Ok overview_section =>
              Ok (overview_section +:+ newline +:+ ext_weekly_report vars,
                  copy, warns)
          end
      end
  end.

(** The store in which [_aggregate_report] has made its working copy. *)
Definition copied_store (σ : Store) (mapping : pydict) : Store :=
  {| actions := actions σ; dicts := dicts σ ++ [mapping];
     warnings := warnings σ |}.

(** *** What the injection loop keeps true of a well-formed mapping *)

(** Some line of [report_lines] carries the action name [k]. *)
Definition matched (k : string) (report_lines : list string) : bool :=
  existsb (fun l => bool_decide (bold_name l = Some k)) report_lines.

(** The action bound to [k] has a category that is not ignored: the
    injection loop deletes it from the working copy when it meets it. *)
Definition deletable (acts : list DoneAction) (mapping : pydict) (k : string)
  : bool :=
  match Dict.lookup k mapping with
  | Some r =>
      match acts !! r with
      | Some a => bool_decide (category a ∉ IGNORED_CATEGORIES)
      | None => false
      end
  | None => false
  end.

Definition inject_inv (acts : list DoneAction) (mapping : pydict)
    (done : list string) (copy : pydict) (used : gset string) : Prop :=
  NoDup copy.*1
  /\ (forall k, k ∈ used <->
                matched k done = true /\ is_Some (Dict.lookup k mapping))
  /\ (forall k, Dict.lookup k copy
                = if bool_decide (k ∈ used) && deletable acts mapping k
                  then None else Dict.lookup k mapping).

(** An action is consumed by the injection loop when a report line carries
    its name and its category is not ignored. *)
Definition consumed (report_lines : list string) (a : DoneAction) : bool :=
  matched (name a) report_lines
  && bool_decide (category a ∉ IGNORED_CATEGORIES).

(** The strings of a list, one after the other. *)
Definition concat_strings (parts : list string) : string :=
  foldr String.append "" parts.

(** *** A worked example

    Week 01 of a Done log with one day, one action and one note, and a
    report with the line of that action. *)

Definition fix_bug_done_lines : list string :=
  ["### Week 01"; "#### 01/01 Monday"; "- Fix bug"; "    - took 2 hours"].

Definition fix_bug_report_lines : list string :=
  ["- **Fix bug**  *(01:58)* <!--01/01 Mon-->"].

Definition fix_bug_action : DoneAction :=
  {| identation_width := 0; name := "Fix bug"; category := "";
     weekday_nums := "0"; notes := ["    - took 2 hours"] |}.

(** The store the parser leaves for that week, its mapping at reference 0. *)
Definition fix_bug_store : Store :=
  {| actions := [fix_bug_action]; dicts := [[("Fix bug", 0)]];
     warnings := [] |}.

(** What the core returns on the example. *)
Definition fix_bug_output : string :=
  "## Overview" +:+ newline
  +:+ "- Monday - Fix bug (Tracked)" +:+ newline
  +:+ "    - took 2 hours" +:+ newline
  +:+ newline
  +:+ "- **Fix bug**  *(01:58)* <!--01/01 Mon-->" +:+ newline
  +:+ "    - took 2 hours" +:+ newline.

(** A store whose mapping, at reference 0, is empty. *)
Definition empty_mapping_store : Store :=
  {| actions := []; dicts := [[]]; warnings := [] |}.

(** *** Further vocabulary: the names, the notes and the days of a week *)

(** The name a line gives to a top-level action, if it is an action line. *)
Definition action_line_name (line : string) : option string :=
  match classify line with
  | ActionLine k => Some k
  | _ => None
  end.

(** A list of names without its repetitions, each where it is first seen. *)
Definition note_name (seen : list string) (k : string) : list string :=
  if bool_decide (k ∈ seen) then seen else seen ++ [k].

Definition first_names (names : list string) : list string :=
  fold_left note_name names [].

(** The name of the action that takes the indented lines after [line]:
    a top-level action line opens one, a day header or a category line
    closes it, other lines leave it. *)
Definition active_after (line : string) (active : option string)
  : option string :=
  match classify line with
  | BlankLine => active
  | DayHeader _ => None
  | CategoryLine _ => None
  | ActionLine k => Some k
  | NoteLine => active
  end.

(** The indented lines a week gives to the action [action_name]. *)
Definition note_under (action_name : string) (line : string)
    (active : option string) : list string :=
  match classify line with
  | NoteLine => if bool_decide (active = Some action_name) then [line] else []
  | _ => []
  end.

Fixpoint notes_under (action_name : string) (lines : list string)
    (active : option string) : list string :=
  match lines with
  | [] => []
  | line :: rest =>
      note_under action_name line active
      ++ notes_under action_name rest (active_after line active)
  end.


(** What the parser keeps true of the notes of [action_name] and of the
    action that is active. *)
Definition notes_recorded (action_name : string) (n0 : nat)
    (new : list DoneAction) (vars : ParserVars) (active : option string)
    (acc : list string) : Prop :=
  match active_key vars with
  | Some r => exists a, new !! (r - n0) = Some a /\ active = Some (name a)
  | None => active = None
  end
  /\ match find_action action_name new with
     | Some i => exists a, new !! i = Some a /\ notes a = acc
     | None => acc = [] /\ active <> Some action_name
     end.

(** A report line that carries no key of [mapping]. *)
Definition carries_no_key (mapping : pydict) (report_line : string) : Prop :=
  match bold_name report_line with
  | Some n => Dict.lookup n mapping = None
  | None => True
  end.

(** The report lines, each closed by a newline. *)
Definition verbatim (report_lines : list string) : string :=
  concat_strings ((fun line => line +:+ newline) <$> report_lines).

(** What the injection loop may put under a report line: nothing, or the
    notes of an action of the mapping whose name the line carries and whose
    category is not ignored. *)
Definition injected_under (acts : list DoneAction) (mapping : pydict)
    (report_line : string) (injected : string) : Prop :=
  injected = ""
  \/ exists n r a,
       bold_name report_line = Some n
       /\ (n, r) ∈ mapping
       /\ acts !! r = Some a
       /\ (category a ∉ IGNORED_CATEGORIES)
       /\ injected = notes_block (base_identation report_line) (notes a).


(** [WEEKDAYS[n]] for a day of the week, and what the overview prints for
    the days [ns]: nothing when there is none. *)
Definition weekday_name (n : nat) : string := nth n WEEKDAYS "".

Definition weekdays_prefix (ns : list nat) : string :=
  match ns with
  | [] => ""
  | _ => "- " +:+ PyStr.join ", " (weekday_name <$> ns) +:+ " "
  end.

(** The days of a week, as [weekday_nums] writes them. *)
Definition weekday_nums_of (ns : list nat) : string :=
  PyStr.join ", " (PyStr.str_of_nat <$> ns).


(** ** The file names of [main] *)

(** [s.replace(old, new)] for a non-empty [old]: the occurrences of [old]
    are replaced from the left, none overlapping another; [skip] counts the
    characters of an occurrence just replaced that are still to be passed
    over. *)
Fixpoint replace_go (old new : string) (skip : nat) (s : string) : string :=
  match s with
  | EmptyString => EmptyString
  | String c s' =>
      match skip with
      | S k => replace_go old new k s'
      | O =>
          if PyStr.startswith s old
          then new +:+ replace_go old new (PyStr.len old - 1) s'
          else String c (replace_go old new 0 s')
      end
  end.

(** [s.replace("", new)]: [new] before every character and at the end. *)
Fixpoint replace_empty (new : string) (s : string) : string :=
  match s with
  | EmptyString => new
  | String c s' => new +:+ String c (replace_empty new s')
  end.

Definition str_replace (old new : string) (s : string) : string :=
  if PyStr.is_empty old then replace_empty new s else replace_go old new 0 s.

(** [int(args.report_file.split(" ")[-1].replace(".md", ""))], the week
    number [main] reads off the name of the report file. *)
Definition report_week_number (report_file : string) : result Z :=
  match list_getitem (PyStr.split " " report_file) (-1) with
  | Ok last_word => PyInt.int (str_replace ".md" "" last_word)
  | Raise e => Raise e
  end.

(** [args.report_file.replace(".md", "_done.md")], the name of the file
    [main] writes. *)
Definition output_file (report_file : string) : string :=
  str_replace ".md" "_done.md" report_file.

(** A report file named after its week as the comment in [main] has it:
    ["<stem> NN.md"]. *)
Definition report_file_name (stem : string) (week_number : Z) : string :=
  stem +:+ " " +:+ PyStr.format_02d week_number +:+ ".md".



(** * Properties *)

(** ** Strings *)

Section string_facts.

Lemma startswith_refl_app (p s : string) :
  PyStr.startswith (p +:+ s) p = true.
Proof.
  induction p as [|c p IH]; simpl.
  - by destruct s.
  - by rewrite Ascii.eqb_refl, IH.
Qed.

Lemma pystr_eqb_eq (a b : string) : PyStr.eqb a b = true <-> a = b.
Proof. apply String.eqb_eq. Qed.

Lemma pystr_eqb_refl (a : string) : PyStr.eqb a a = true.
Proof. apply String.eqb_refl. Qed.

End string_facts.

(** ** The week extractor *)

Section extractor.

Variable week_number : Z.

Local Abbreviation target := (target_week_start week_number).

Lemma target_is_week_header (line : string) :
  is_target_header week_number line = true -> is_week_header line = true.
Proof.
  unfold is_target_header, is_week_header. intros H.
  apply pystr_eqb_eq in H. rewrite H. apply startswith_refl_app.
Qed.

(** Once the target header is passed, the loop copies lines up to the
    next week header. *)
Lemma extract_loop_started (done_lines acc : list string) :
  exists taken after,
    done_lines = taken ++ after
    /\ extract_loop target done_lines true acc = acc ++ taken
    /\ Forall (fun l => is_week_header l = false) taken
    /\ (after = [] \/
        exists h rest, after = h :: rest /\ is_week_header h = true).
Proof.
  revert acc. induction done_lines as [|line rest IH]; intros acc.
  - exists [], []. simpl. rewrite app_nil_r. auto.
  - simpl. destruct (PyStr.startswith (PyStr.strip line) week_separator)
      eqn:Hsep.
    + exists [], (line :: rest). simpl. rewrite app_nil_r.
      repeat split; eauto.
    + replace (if PyStr.eqb (PyStr.strip line) target then true else true)
        with true by (by destruct (PyStr.eqb _ _)).
      destruct (IH (acc ++ [line])) as (taken & after & -> & Hres & Hall & Hafter).
      exists (line :: taken), after. rewrite Hres, <- app_assoc.
      repeat split; auto.
Qed.

(** Before the target header nothing is copied. *)
Lemma extract_loop_no_target (done_lines : list string) :
  Forall (fun l => is_target_header week_number l = false) done_lines ->
  extract_loop target done_lines false [] = [].
Proof.
  induction 1 as [|line rest Hline _ IH]; simpl; [done|].
  unfold is_target_header in Hline. by rewrite Hline.
Qed.

Lemma extract_loop_skip (before : list string) (rest : list string) :
  Forall (fun l => is_target_header week_number l = false) before ->
  extract_loop target (before ++ rest) false []
  = extract_loop target rest false [].
Proof.
  induction 1 as [|line before' Hline _ IH]; simpl; [done|].
  unfold is_target_header in Hline. by rewrite Hline.
Qed.

(** Every list of lines either has no target header or splits at its
    first one. *)
Lemma first_target_split (done_lines : list string) :
  Forall (fun l => is_target_header week_number l = false) done_lines
  \/ exists before header rest,
       done_lines = before ++ header :: rest
       /\ Forall (fun l => is_target_header week_number l = false) before
       /\ is_target_header week_number header = true.
Proof.
  induction done_lines as [|line rest IH]; [by left|].
  destruct (is_target_header week_number line) eqn:Hline.
  - right. exists [], line, rest. auto.
  - destruct IH as [Hnone | (before & header & rest' & -> & Hb & Hh)].
    + left. by constructor.
    + right. exists (line :: before), header, rest'. auto.
Qed.

End extractor.

(** The shape of an extraction, shared by the statements below. *)
Lemma extract_week_shape
    (done_lines : list string) (week_number : Z) :
  let result := _extract_week_done_lines done_lines week_number in
  (Forall (fun l => is_target_header week_number l = false) done_lines
   /\ result = [])
  \/ exists before header after,
       done_lines = before ++ header :: result ++ after
       /\ Forall (fun l => is_target_header week_number l = false) before
       /\ is_target_header week_number header = true
       /\ Forall (fun l => is_week_header l = false) result
       /\ (after = [] \/
           exists h rest, after = h :: rest /\ is_week_header h = true).
Proof.
  simpl. unfold _extract_week_done_lines.
  destruct (first_target_split week_number done_lines)
    as [Hnone | (before & header & rest & -> & Hb & Hh)].
  - left. split; [done|]. by apply extract_loop_no_target.
  - right. rewrite extract_loop_skip by done. simpl.
    unfold is_target_header in Hh. rewrite Hh.
    destruct (extract_loop_started week_number rest [])
      as (taken & after & -> & Hres & Hall & Hafter).
    rewrite Hres. simpl. exists before, header, after. repeat split; auto.
Qed.


(** C4 fails as stated: the result of an extraction holds no week header,
    so extracting from it again finds no target header. *)
Lemma extract_week_not_idempotent :
  _extract_week_done_lines
    (_extract_week_done_lines ["### Week 01"; "- a"] 1) 1
  <> _extract_week_done_lines ["### Week 01"; "- a"] 1.
Proof. vm_compute. discriminate. Qed.

(** C4, amended.  Extracting week [N] from the result of extracting week
    [N] always gives the empty sequence; so the two extractions agree
    exactly when the first one is empty. *)
Theorem extract_week_twice_empty (done_lines : list string) (week_number : Z) :
  let once := _extract_week_done_lines done_lines week_number in
  let twice := _extract_week_done_lines once week_number in
  twice = [] /\ (twice = once <-> once = []).
Proof.
  simpl.
  assert (Hempty : _extract_week_done_lines
            (_extract_week_done_lines done_lines week_number) week_number
          = []).
  { destruct (extract_week_shape done_lines week_number)
      as [[_ ->] | (before & header & after & _ & _ & _ & Hres & _)].
    - reflexivity.
    - apply extract_loop_no_target.
      eapply Forall_impl; [exact Hres|]. intros l Hl. simpl in Hl.
      destruct (is_target_header week_number l) eqn:Ht; [|done].
      apply target_is_week_header in Ht. congruence. }
  split; [exact Hempty|]. rewrite Hempty. split; congruence.
Qed.

(** ** Computations and the store *)

Section respects.

Variable P : Store -> Store -> Prop.
Hypothesis P_refl : forall σ, P σ σ.
Hypothesis P_trans : forall σ1 σ2 σ3, P σ1 σ2 -> P σ2 σ3 -> P σ1 σ3.

Lemma respects_ret {A} (a : A) : respects P (ret a).
Proof. intros σ. apply P_refl. Qed.

Lemma respects_raise {A} (e : exn) : respects P (@raise A e).
Proof. intros σ. apply P_refl. Qed.

Lemma respects_lift {A} (r : result A) : respects P (lift r).
Proof. intros σ. apply P_refl. Qed.

Lemma respects_bind {A B} (m : M A) (f : A -> M B) :
  respects P m -> (forall a, respects P (f a)) -> respects P (bind m f).
Proof.
  intros Hm Hf σ. unfold bind. specialize (Hm σ).
  destruct (m σ) as [[a|e] σ1]; simpl in *; [|done].
  eapply P_trans; [exact Hm|apply Hf].
Qed.

Lemma respects_for_each {A S} (xs : list A) (body : A -> S -> M S) (acc : S) :
  (forall x s, respects P (body x s)) -> respects P (for_each xs body acc).
Proof.
  intros Hbody. revert acc.
  induction xs as [|x xs IH]; intros acc; simpl.
  - apply respects_ret.
  - apply respects_bind; [apply Hbody|]. intros acc'. apply IH.
Qed.

Lemma respects_comprehension {A B} (f : A -> M B) (xs : list A) :
  (forall x, respects P (f x)) -> respects P (comprehension f xs).
Proof.
  intros Hf. induction xs as [|x xs IH]; simpl.
  - apply respects_ret.
  - apply respects_bind; [apply Hf|]. intros y.
    apply respects_bind; [apply IH|]. intros ys. apply respects_ret.
Qed.

Lemma respects_load (r : action_ref) : respects P (Py.load r).
Proof. intros σ. unfold Py.load. destruct (actions σ !! r); apply P_refl. Qed.

Lemma respects_dict_read (r : dict_ref) : respects P (Py.dict_read r).
Proof.
  intros σ. unfold Py.dict_read. destruct (dicts σ !! r); apply P_refl.
Qed.

Lemma respects_dict_contains (r : dict_ref) (k : string) :
  respects P (Py.dict_contains r k).
Proof.
  apply respects_bind; [apply respects_dict_read|].
  intros d. apply respects_ret.
Qed.

Lemma respects_dict_getitem (r : dict_ref) (k : string) :
  respects P (Py.dict_getitem r k).
Proof.
  apply respects_bind; [apply respects_dict_read|]. intros d.
  destruct (Dict.lookup k d); [apply respects_ret|apply respects_raise].
Qed.

Lemma respects_dict_values (r : dict_ref) : respects P (Py.dict_values r).
Proof.
  apply respects_bind; [apply respects_dict_read|].
  intros d. apply respects_ret.
Qed.

End respects.

Lemma unchanged_but_refl (c : dict_ref) (σ : Store) : unchanged_but c σ σ.
Proof. by repeat split. Qed.

Lemma unchanged_but_trans (c : dict_ref) (σ1 σ2 σ3 : Store) :
  unchanged_but c σ1 σ2 -> unchanged_but c σ2 σ3 -> unchanged_but c σ1 σ3.
Proof.
  intros (Ha & Hl & Hd) (Ha' & Hl' & Hd'). repeat split; try congruence.
  intros r Hr. by rewrite Hd', Hd.
Qed.

Lemma unchanged_but_warning (c : dict_ref) (msg : string) :
  respects (unchanged_but c) (Py.logger_warning msg).
Proof. intros σ. by repeat split. Qed.

Lemma unchanged_but_dict_write (c : dict_ref) (d : pydict) :
  respects (unchanged_but c) (Py.dict_write c d).
Proof.
  intros σ. unfold Py.dict_write.
  destruct (dicts σ !! c); simpl; [|apply unchanged_but_refl].
  repeat split; simpl.
  - apply length_insert.
  - intros r Hr. by apply list_lookup_insert_ne.
Qed.

Lemma unchanged_but_bind {A B} (c : dict_ref) (m : M A) (f : A -> M B) :
  respects (unchanged_but c) m ->
  (forall a, respects (unchanged_but c) (f a)) ->
  respects (unchanged_but c) (bind m f).
Proof. apply respects_bind, unchanged_but_trans. Qed.

Lemma same_store_bind {A B} (m : M A) (f : A -> M B) :
  respects eq m -> (forall a, respects eq (f a)) -> respects eq (bind m f).
Proof. apply respects_bind. intros; congruence. Qed.

Create HintDb respects discriminated.
#[local] Hint Resolve unchanged_but_refl unchanged_but_trans
  respects_ret respects_raise respects_lift respects_load
  respects_dict_read respects_dict_contains respects_dict_getitem
  respects_dict_values unchanged_but_warning unchanged_but_dict_write
  : respects.
#[local] Hint Extern 1 (forall _ : Store, _ = _) => reflexivity : respects.
#[local] Hint Extern 1 (forall _ _ _ : Store, _ = _ -> _ = _ -> _ = _) =>
  (intros; congruence) : respects.

Ltac respects_step :=
  first [ apply unchanged_but_bind; [|intros ?]
        | apply same_store_bind; [|intros ?] ];
  eauto with respects.

Lemma unchanged_but_dict_delitem (c : dict_ref) (k : string) :
  respects (unchanged_but c) (Py.dict_delitem c k).
Proof.
  unfold Py.dict_delitem. respects_step.
  destruct (Dict.mem k a); auto with respects.
Qed.

(** The injection loop writes to the store only through the working copy
    and the logger. *)
Lemma inject_line_unchanged_but (c : dict_ref) (line : string)
    (vars : InjectVars) :
  respects (unchanged_but c) (inject_line c line vars).
Proof.
  pose proof (unchanged_but_dict_delitem c) as Hdel.
  unfold inject_line.
  destruct (PyStr.is_empty (PyStr.strip line)); [auto with respects|].
  destruct (ENTRY_NAME_REGEX_match (PyStr.strip line)) as [action_name|];
    [|auto with respects].
  case_bool_decide; [respects_step|].
  respects_step. destruct a; [|auto with respects].
  respects_step. respects_step.
  case_bool_decide; [|auto with respects].
  respects_step.
Qed.

(** The overview loop leaves the store as it is. *)
Lemma overview_entry_same_store (c : dict_ref) (item : string * action_ref)
    (overview_section : string) :
  respects eq (overview_entry c item overview_section).
Proof.
  unfold overview_entry. respects_step. respects_step.
  - destruct (negb _); [respects_step|auto with respects].
  - respects_step.
Qed.

Lemma bind_run {A B} (m : M A) (f : A -> M B) (σ : Store) :
  bind m f σ
  = match m σ with
    | (Ok a, σ') => f a σ'
    | (Raise e, σ') => (Raise e, σ')
    end.
Proof. reflexivity. Qed.

(** What follows the injection loop in [_aggregate_report] only reads. *)
Lemma aggregate_tail_same_store (d c : dict_ref) (vars : InjectVars) :
  respects eq
    (values <- Py.dict_values d ;;
     action_tuples <-
       comprehension
         (fun action => a <- Py.load action ;; ret (sort_key a, action))
         values ;;
     overview_section <-
       for_each (sorted action_tuples) (overview_entry c)
         ("## Overview" +:+ newline) ;;
     ret (overview_section +:+ newline +:+ ext_weekly_report vars)).
Proof.
  respects_step. respects_step.
  - apply respects_comprehension; [done|intros; congruence|].
    intros x. respects_step.
  - respects_step.
    apply respects_for_each; [done|intros; congruence|].
    intros x s. apply overview_entry_same_store.
Qed.

(** The store [_aggregate_report] ends in, against the one it started
    from: the objects are the same and so is every dict that existed. *)
Lemma aggregate_report_frame (report_lines : list string) (d : dict_ref)
    (σ : Store) :
  let σ' := (_aggregate_report report_lines d σ).2 in
  actions σ' = actions σ
  /\ forall r, r < length (dicts σ) -> dicts σ' !! r = dicts σ !! r.
Proof.
  simpl. unfold _aggregate_report.
  rewrite bind_run. unfold Py.dict_copy. rewrite bind_run.
  unfold Py.dict_read. destruct (dicts σ !! d) as [dd|] eqn:Hd; simpl; [|done].
  set (c := length (dicts σ)).
  set (σ1 := {| actions := actions σ; dicts := dicts σ ++ [dd];
                warnings := warnings σ |}).
  rewrite bind_run.
  pose proof (respects_for_each (unchanged_but c) (unchanged_but_refl c)
                (unchanged_but_trans c) report_lines (inject_line c)
                {| ext_weekly_report := ""; used_action_names := ∅ |}
                (inject_line_unchanged_but c) σ1) as Hloop.
  destruct (for_each report_lines (inject_line c) _ σ1) as [[vars|e] σ2];
    simpl in Hloop; destruct Hloop as (Ha & Hl & Hd2).
  - pose proof (aggregate_tail_same_store d c vars σ2) as Htail.
    simpl in Htail. rewrite <- Htail. split; [done|].
    intros r Hr. rewrite Hd2 by (unfold c; lia).
    simpl. by rewrite lookup_app_l.
  - simpl. split; [done|].
    intros r Hr. rewrite Hd2 by (unfold c; lia).
    simpl. by rewrite lookup_app_l.
Qed.

(** C10.  [_aggregate_report] leaves the mapping it is given unchanged:
    whatever the report lines and the store, and whether it returns or
    raises, the dict behind [week_done_actions_dict] has afterwards the
    keys and references it had (deletions go to the working copy), and
    every [DoneAction] has the attribute values it had. *)
Theorem aggregate_report_leaves_mapping (report_lines : list string)
    (week_done_actions_dict : dict_ref) (σ : Store) :
  let σ' := (_aggregate_report report_lines week_done_actions_dict σ).2 in
  dicts σ' !! week_done_actions_dict = dicts σ !! week_done_actions_dict
  /\ actions σ' = actions σ.
Proof.
  simpl.
  destruct (aggregate_report_frame report_lines week_done_actions_dict σ)
    as [Ha Hd].
  split; [|exact Ha].
  destruct (decide (week_done_actions_dict < length (dicts σ))) as [Hlt|Hge].
  - by apply Hd.
  - assert (Hnone : dicts σ !! week_done_actions_dict = None)
      by (apply lookup_ge_None_2; lia).
    unfold _aggregate_report, Py.dict_copy, Py.dict_read, bind.
    by rewrite Hnone.
Qed.

(** ** Running the primitives *)

Lemma load_run (r : action_ref) (a : DoneAction) (σ : Store) :
  actions σ !! r = Some a -> Py.load r σ = (Ok a, σ).
Proof. intros H. unfold Py.load. by rewrite H. Qed.

Lemma update_run (r : action_ref) (f : DoneAction -> DoneAction)
    (a : DoneAction) (σ : Store) :
  actions σ !! r = Some a ->
  Py.update r f σ
  = (Ok tt, {| actions := <[r := f a]> (actions σ); dicts := dicts σ;
               warnings := warnings σ |}).
Proof. intros H. unfold Py.update. by rewrite H. Qed.

Lemma dict_read_run (r : dict_ref) (d : pydict) (σ : Store) :
  dicts σ !! r = Some d -> Py.dict_read r σ = (Ok d, σ).
Proof. intros H. unfold Py.dict_read. by rewrite H. Qed.

Lemma dict_contains_run (r : dict_ref) (k : string) (d : pydict) (σ : Store) :
  dicts σ !! r = Some d -> Py.dict_contains r k σ = (Ok (Dict.mem k d), σ).
Proof.
  intros H. unfold Py.dict_contains. by rewrite bind_run, (dict_read_run r d).
Qed.

Lemma dict_getitem_run (r : dict_ref) (k : string) (d : pydict) (σ : Store) :
  dicts σ !! r = Some d ->
  Py.dict_getitem r k σ
  = match Dict.lookup k d with
    | Some v => (Ok v, σ)
    | None => (Raise KeyError, σ)
    end.
Proof.
  intros H. unfold Py.dict_getitem. rewrite bind_run, (dict_read_run r d) by done.
  by destruct (Dict.lookup k d).
Qed.

Lemma dict_write_run (r : dict_ref) (d d' : pydict) (σ : Store) :
  dicts σ !! r = Some d ->
  Py.dict_write r d' σ
  = (Ok tt, {| actions := actions σ; dicts := <[r := d']> (dicts σ);
               warnings := warnings σ |}).
Proof. intros H. unfold Py.dict_write. by rewrite H. Qed.

Lemma dict_setitem_run (r : dict_ref) (k : string) (v : action_ref)
    (d : pydict) (σ : Store) :
  dicts σ !! r = Some d ->
  Py.dict_setitem r k v σ
  = (Ok tt, {| actions := actions σ; dicts := <[r := Dict.set k v d]> (dicts σ);
               warnings := warnings σ |}).
Proof.
  intros H. unfold Py.dict_setitem.
  rewrite bind_run, (dict_read_run r d) by done. by apply (dict_write_run r d).
Qed.

Lemma dict_delitem_run (r : dict_ref) (k : string) (d : pydict) (σ : Store) :
  dicts σ !! r = Some d ->
  Py.dict_delitem r k σ
  = if Dict.mem k d
    then (Ok tt, {| actions := actions σ;
                    dicts := <[r := Dict.remove k d]> (dicts σ);
                    warnings := warnings σ |})
    else (Raise KeyError, σ).
Proof.
  intros H. unfold Py.dict_delitem.
  rewrite bind_run, (dict_read_run r d) by done.
  destruct (Dict.mem k d); [by apply (dict_write_run r d)|done].
Qed.

(** ** The dict of the parser *)

Section index_dict.

Implicit Types (new : list DoneAction) (k : string) (a : DoneAction).

Lemma lookup_index_dict n0 k new :
  Dict.lookup k (index_dict n0 new) = (fun i => n0 + i) <$> find_action k new.
Proof.
  revert n0. induction new as [|a new IH]; intros n0; simpl; [done|].
  destruct (PyStr.eqb (name a) k); simpl.
  - f_equal. lia.
  - rewrite IH. destruct (find_action k new); simpl; [|done]. f_equal. lia.
Qed.

Lemma mem_index_dict n0 k new :
  Dict.mem k (index_dict n0 new)
  = match find_action k new with Some _ => true | None => false end.
Proof.
  unfold Dict.mem. rewrite lookup_index_dict.
  by destruct (find_action k new).
Qed.

Lemma find_action_Some k new i :
  find_action k new = Some i -> exists a, new !! i = Some a /\ name a = k.
Proof.
  revert i. induction new as [|a new IH]; intros i; simpl; [done|].
  destruct (PyStr.eqb (name a) k) eqn:E.
  - intros [= <-]. exists a. split; [done|]. by apply pystr_eqb_eq.
  - destruct (find_action k new) as [j|]; simpl; [|done].
    intros [= <-]. by apply IH.
Qed.

Lemma find_action_None k new :
  find_action k new = None -> k ∉ name <$> new.
Proof.
  induction new as [|a new IH]; simpl.
  - intros _ H. by apply elem_of_nil in H.
  - destruct (PyStr.eqb (name a) k) eqn:E; [done|].
    destruct (find_action k new); simpl; [done|]. intros _.
    apply not_elem_of_cons. split; [|by apply IH].
    intros ->. by rewrite pystr_eqb_refl in E.
Qed.

Lemma find_action_NoDup new i a :
  NoDup (name <$> new) -> new !! i = Some a ->
  find_action (name a) new = Some i.
Proof.
  revert i. induction new as [|b new IH]; intros i; simpl; [done|].
  rewrite NoDup_cons. intros [Hb Hnd]. destruct i as [|i]; simpl.
  - intros [= ->]. by rewrite pystr_eqb_refl.
  - intros Hi. destruct (PyStr.eqb (name b) (name a)) eqn:E.
    + apply pystr_eqb_eq in E. exfalso. apply Hb. rewrite E.
      apply list_elem_of_fmap. exists a. split; [done|].
      by eapply list_elem_of_lookup_2.
    + by rewrite (IH i).
Qed.

Lemma set_index_dict n0 k new a :
  find_action k new = None -> name a = k ->
  Dict.set k (n0 + length new) (index_dict n0 new) = index_dict n0 (new ++ [a]).
Proof.
  intros Hfind <-. revert n0 Hfind.
  induction new as [|b new IH]; intros n0; simpl.
  - intros _. do 2 f_equal. lia.
  - destruct (PyStr.eqb (name b) (name a)); [done|].
    destruct (find_action (name a) new) eqn:E; simpl; [done|]. intros _.
    f_equal. rewrite <- IH by done. f_equal. lia.
Qed.

Lemma index_dict_insert n0 new i a a' :
  new !! i = Some a -> name a' = name a ->
  index_dict n0 (<[i := a']> new) = index_dict n0 new.
Proof.
  revert n0 i. induction new as [|b new IH]; intros n0 i; simpl; [done|].
  destruct i as [|i]; simpl.
  - intros [= ->] ->. done.
  - intros Hi Hn. f_equal. by apply IH.
Qed.

Lemma names_insert new i a a' :
  new !! i = Some a -> name a' = name a ->
  name <$> <[i := a']> new = name <$> new.
Proof.
  intros Hi Hn. rewrite list_fmap_insert, Hn.
  apply list_insert_id. by rewrite list_lookup_fmap, Hi.
Qed.

End index_dict.

(** ** The parser and its list of actions *)

Lemma parser_store_dict σ0 new :
  dicts (parser_store σ0 new) !! length (dicts σ0)
  = Some (index_dict (length (actions σ0)) new).
Proof. simpl. by rewrite list_lookup_middle. Qed.

Lemma parser_store_action σ0 new i :
  actions (parser_store σ0 new) !! (length (actions σ0) + i) = new !! i.
Proof. simpl. rewrite lookup_app_r by lia. f_equal. lia. Qed.

Lemma parse_line_sim σ0 new vars line :
  let n0 := length (actions σ0) in
  let d := length (dicts σ0) in
  parser_ok n0 new vars ->
  match abs_parse_line n0 line (new, vars) with
  | Ok (new', vars') =>
      parse_line d line vars (parser_store σ0 new)
      = (Ok vars', parser_store σ0 new')
      /\ parser_ok n0 new' vars'
  | Raise e =>
      parse_line d line vars (parser_store σ0 new)
      = (Raise e, parser_store σ0 new)
  end.
Proof.
  intros n0 d [Hnd Hact].
  pose proof (parser_store_dict σ0 new) as Hdict. fold n0 d in Hdict.
  unfold abs_parse_line, parse_line, classify.
  destruct (PyStr.is_empty _) eqn:Hblank.
  { split; [done|]. by split. }
  destruct (DAY_DONE_REGEX_match line) as [[[g1 g2] weekday]|].
  { rewrite bind_run. unfold lift.
    destruct (list_index WEEKDAYS weekday) as [n|e]; [|done].
    split; [done|]. by split. }
  case_bool_decide.
  { split; [done|]. by split. }
  destruct (_ =? 0) eqn:Hwidth.
  - apply Nat.eqb_eq in Hwidth. rewrite Hwidth.
    set (k := PyStr.strip (PyStr.lstrip_chars "- " line)).
    rewrite bind_run, (dict_contains_run d k _ _ Hdict), mem_index_dict.
    destruct (find_action k new) as [i|] eqn:Hfind; cbn [negb].
    + destruct (find_action_Some _ _ _ Hfind) as (a & Hi & Hname).
      rewrite Hi.
      rewrite bind_run, (dict_getitem_run d k _ _ Hdict), lookup_index_dict, Hfind.
      cbn [fmap option_fmap option_map].
      rewrite bind_run, (load_run (n0 + i) a)
        by (rewrite <- Hi; apply parser_store_action).
      rewrite bind_run.
      destruct (negb _) eqn:Hin.
      * unfold Py.set_weekday_nums.
        rewrite (update_run (n0 + i) _ a) by (rewrite <- Hi; apply parser_store_action).
        split.
        -- unfold ret. f_equal. unfold parser_store. simpl. f_equal.
           ++ rewrite insert_app_r_alt by (fold n0; lia). do 2 f_equal. lia.
           ++ by erewrite index_dict_insert.
        -- split; [by erewrite names_insert|]. simpl.
           rewrite length_insert. apply lookup_lt_Some in Hi. lia.
      * split; [done|]. split; [done|]. simpl.
        apply lookup_lt_Some in Hi. lia.
    + rewrite bind_run. unfold Py.new_action.
      set (a := {| identation_width := 0; name := k; category := "";
                   weekday_nums := _; notes := [] |}).
      set (σ1 := {| actions := actions (parser_store σ0 new) ++ [a] |}).
      assert (Hlen : length (actions (parser_store σ0 new)) = n0 + length new)
        by (simpl; by rewrite length_app).
      rewrite Hlen.
      rewrite bind_run, (load_run (n0 + length new) a σ1).
      2:{ unfold σ1. simpl. rewrite lookup_app_r; rewrite length_app; [|fold n0; lia].
          fold n0. by replace (n0 + length new - (n0 + length new)) with 0 by lia. }
      rewrite bind_run, (dict_setitem_run d _ _ (index_dict n0 new)) by done.
      split.
      * unfold ret. f_equal. unfold parser_store, σ1. simpl. f_equal.
        -- by rewrite app_assoc.
        -- rewrite insert_app_r_alt by (fold d; lia).
           replace (d - length (dicts σ0)) with 0 by (unfold d; lia). simpl.
           by rewrite (set_index_dict n0 k new a).
      * split; simpl.
        -- rewrite fmap_app. simpl. apply NoDup_app. split; [done|].
           split; [|apply NoDup_singleton].
           intros x Hx ->%list_elem_of_singleton.
           by apply (find_action_None k new).
        -- rewrite length_app. simpl. lia.
  - destruct vars as [[r|] cat day];
      cbn [active_key last_category weekday_num] in *.
    + destruct (new !! (r - n0)) as [a|] eqn:Hi.
      2:{ apply lookup_ge_None in Hi. lia. }
      assert (Hr : r = n0 + (r - n0)) by lia.
      rewrite bind_run, (load_run r a) by (rewrite <- Hi, Hr at 1; apply parser_store_action).
      rewrite bind_run, (dict_getitem_run d _ _ _ Hdict), lookup_index_dict.
      rewrite (find_action_NoDup new (r - n0) a) by done. cbn [fmap option_fmap option_map].
      rewrite <- Hr.
      rewrite bind_run. unfold Py.notes_append.
      rewrite (update_run r _ a) by (rewrite <- Hi, Hr at 1; apply parser_store_action).
      split.
      * unfold ret. f_equal. unfold parser_store. simpl. f_equal.
        -- rewrite insert_app_r_alt by (fold n0; lia). done.
        -- by erewrite index_dict_insert.
      * split; [by erewrite names_insert|]. by rewrite length_insert.
    + split; [done|]. by split.
Qed.

Lemma for_each_parse_sim σ0 lines new vars :
  let n0 := length (actions σ0) in
  let d := length (dicts σ0) in
  parser_ok n0 new vars ->
  match abs_parse n0 lines (new, vars) with
  | Ok (new', vars') =>
      for_each lines (parse_line d) vars (parser_store σ0 new)
      = (Ok vars', parser_store σ0 new')
      /\ parser_ok n0 new' vars'
  | Raise e =>
      exists new',
        for_each lines (parse_line d) vars (parser_store σ0 new)
        = (Raise e, parser_store σ0 new')
  end.
Proof.
  intros n0 d. revert new vars.
  induction lines as [|line lines IH]; intros new vars Hok;
    cbn [for_each abs_parse].
  - by split.
  - rewrite bind_run.
    pose proof (parse_line_sim σ0 new vars line Hok) as Hstep.
    fold n0 d in Hstep.
    destruct (abs_parse_line n0 line (new, vars)) as [[new1 vars1]|e].
    + destruct Hstep as [Hrun Hok1]. rewrite Hrun. exact (IH new1 vars1 Hok1).
    + rewrite Hstep. by exists new.
Qed.

Lemma parser_run σ0 lines :
  match abs_parse (length (actions σ0)) lines ([], parser_init) with
  | Ok (new, vars) =>
      _week_done_lines_to_dict lines σ0
      = (Ok (length (dicts σ0)), parser_store σ0 new)
      /\ NoDup (name <$> new)
  | Raise e =>
      exists new,
        _week_done_lines_to_dict lines σ0 = (Raise e, parser_store σ0 new)
  end.
Proof.
  unfold _week_done_lines_to_dict. rewrite bind_run.
  assert (Hnew : Py.dict_new σ0 = (Ok (length (dicts σ0)), parser_store σ0 []))
    by (unfold Py.dict_new, Py.dict_alloc, parser_store; simpl;
        by rewrite app_nil_r).
  rewrite Hnew, bind_run.
  assert (Hok : parser_ok (length (actions σ0)) [] parser_init)
    by (split; [constructor|done]).
  pose proof (for_each_parse_sim σ0 lines [] parser_init Hok) as Hloop.
  simpl in Hloop. fold parser_init.
  destruct (abs_parse _ lines _) as [[new vars]|e].
  - destruct Hloop as [-> [Hnd _]]. by split.
  - destruct Hloop as [new ->]. by exists new.
Qed.

Lemma abs_parse_line_top_level n0 line new vars new' vars' :
  abs_parse_line n0 line (new, vars) = Ok (new', vars') ->
  Forall top_level new -> Forall top_level new'.
Proof.
  unfold abs_parse_line. intros Hstep Hall.
  destruct (classify line) as [|weekday|c|k|].
  - by injection Hstep as <- <-.
  - destruct (list_index WEEKDAYS weekday); [|done]. by injection Hstep as <- <-.
  - by injection Hstep as <- <-.
  - destruct (find_action k new) as [i|].
    + destruct (new !! i) as [a|] eqn:Hi; [|done].
      injection Hstep as <- <-. destruct (negb _); [|done].
      apply Forall_insert; [done|].
      by apply (Forall_lookup_1 _ _ _ _ Hall Hi).
    + injection Hstep as <- <-. apply Forall_app. split; [done|].
      by repeat constructor.
  - destruct (active_key vars) as [r|].
    + destruct (new !! (r - n0)) as [a|] eqn:Hi; [|done].
      injection Hstep as <- <-. apply Forall_insert; [done|].
      by apply (Forall_lookup_1 _ _ _ _ Hall Hi).
    + by injection Hstep as <- <-.
Qed.

Lemma abs_parse_top_level n0 lines new vars new' vars' :
  abs_parse n0 lines (new, vars) = Ok (new', vars') ->
  Forall top_level new -> Forall top_level new'.
Proof.
  revert new vars. induction lines as [|line lines IH]; intros new vars;
    cbn [abs_parse].
  - by intros [= <- <-].
  - destruct (abs_parse_line n0 line (new, vars)) as [[new1 vars1]|e] eqn:Hstep;
      [|done].
    intros Hrest Hall. apply (IH _ _ Hrest).
    by apply (abs_parse_line_top_level _ _ _ _ _ _ Hstep).
Qed.

Lemma elem_of_index_dict n0 new k r :
  (k, r) ∈ index_dict n0 new ->
  exists i a, r = n0 + i /\ new !! i = Some a /\ name a = k.
Proof.
  revert n0. induction new as [|b new IH]; intros n0; simpl.
  - intros H. by apply elem_of_nil in H.
  - rewrite elem_of_cons. intros [[= -> ->]|H].
    + exists 0, b. split; [lia|done].
    + destruct (IH _ H) as (i & a & -> & Hi & Hn).
      exists (S i), a. split; [lia|done].
Qed.

(** C5.  Every action in the mapping the parser returns has the empty
    string as its category and 0 as its [identation_width]; so the test
    [action.category not in IGNORED_CATEGORIES] of the aggregator holds for
    each of them and never suppresses the injection of notes. *)
Theorem parser_actions_are_top_level (week_done_lines : list string)
    (σ0 σ : Store) (d : dict_ref) :
  _week_done_lines_to_dict week_done_lines σ0 = (Ok d, σ) ->
  exists mapping,
    dicts σ !! d = Some mapping
    /\ forall k r, (k, r) ∈ mapping ->
         exists a, actions σ !! r = Some a
                   /\ category a = ""
                   /\ identation_width a = 0
                   /\ bool_decide (category a ∉ IGNORED_CATEGORIES) = true.
Proof.
  intros Hrun. pose proof (parser_run σ0 week_done_lines) as Hsim.
  destruct (abs_parse _ week_done_lines _) as [[new vars]|e] eqn:Habs.
  2:{ destruct Hsim as [new Hsim]. congruence. }
  destruct Hsim as [Hsim _]. rewrite Hsim in Hrun. injection Hrun as <- <-.
  exists (index_dict (length (actions σ0)) new). split.
  { apply parser_store_dict. }
  intros k r Hin.
  destruct (elem_of_index_dict _ _ _ _ Hin) as (i & a & -> & Hi & _).
  exists a. split; [by rewrite parser_store_action|].
  assert (Htop : top_level a).
  { eapply Forall_lookup_1; [|exact Hi].
    eapply abs_parse_top_level; [exact Habs|constructor]. }
  destruct Htop as [Hcat Hwidth]. rewrite Hcat. done.
Qed.

Lemma parser_actions_are_top_level_witness :
  exists mapping,
    dicts (_week_done_lines_to_dict
             ["#### 01/01 Monday"; "- Work"; "- Fix bug"; "    - took 2 hours"]
             empty_store).2 !! 0 = Some mapping
    /\ forall k r, (k, r) ∈ mapping ->
         exists a,
           actions (_week_done_lines_to_dict
                      ["#### 01/01 Monday"; "- Work"; "- Fix bug";
                       "    - took 2 hours"] empty_store).2 !! r = Some a
           /\ category a = ""
           /\ identation_width a = 0
           /\ bool_decide (category a ∉ IGNORED_CATEGORIES) = true.
Proof.
  apply (parser_actions_are_top_level
           ["#### 01/01 Monday"; "- Work"; "- Fix bug"; "    - took 2 hours"]
           empty_store).
  vm_compute. reflexivity.
Defined.

(** ** Digits in a joined string *)

Lemma contains_empty (s : string) : PyStr.contains "" s = true.
Proof. by destruct s. Qed.

Lemma startswith_empty (s : string) : PyStr.startswith s "" = true.
Proof. by destruct s. Qed.

Lemma contains_single (c : ascii) (s : string) :
  PyStr.contains (String c "") s = PyStr.mem_char c s.
Proof.
  induction s as [|b s IH]; [done|].
  cbn [PyStr.contains PyStr.startswith PyStr.mem_char].
  by rewrite startswith_empty, andb_true_r, IH.
Qed.

Lemma mem_char_app (c : ascii) (a b : string) :
  PyStr.mem_char c (a +:+ b) = PyStr.mem_char c a || PyStr.mem_char c b.
Proof.
  induction a as [|x a IH]; [done|].
  change (String x a +:+ b) with (String x (a +:+ b)).
  cbn [PyStr.mem_char]. by rewrite IH, orb_assoc.
Qed.

Lemma mem_char_join (c : ascii) (sep : string) (parts : list string) :
  PyStr.mem_char c sep = false ->
  PyStr.mem_char c (PyStr.join sep parts) = existsb (PyStr.mem_char c) parts.
Proof.
  intros Hsep. induction parts as [|p [|q parts] IH]; [done| |].
  - simpl. by rewrite orb_false_r.
  - change (PyStr.join sep (p :: q :: parts))
      with (p +:+ sep +:+ PyStr.join sep (q :: parts)).
    rewrite !mem_char_app, Hsep, IH. done.
Qed.

Lemma mem_char_day (n : nat) (w : option nat) (c : ascii) :
  n < 7 -> day_ok w -> str_weekday_num (Some n) = String c "" ->
  PyStr.mem_char c (str_weekday_num w) = bool_decide (w = Some n).
Proof.
  intros Hn Hw Hc. destruct w as [m|]; [|done]. simpl in Hw.
  do 7 (destruct n as [|n]; [injection Hc as Hc; subst c;
    do 7 (destruct m as [|m]; [by vm_compute|]); lia|]).
  lia.
Qed.

Lemma existsb_day (n : nat) (seen : list (option nat)) (c : ascii) :
  n < 7 -> Forall day_ok seen -> str_weekday_num (Some n) = String c "" ->
  existsb (PyStr.mem_char c) (str_weekday_num <$> seen)
  = bool_decide (Some n ∈ seen).
Proof.
  intros Hn Hall Hc. induction Hall as [|w seen Hw _ IH]; [done|].
  cbn [fmap list_fmap existsb]. rewrite IH, (mem_char_day n w c) by done.
  rewrite <- bool_decide_or. apply bool_decide_ext.
  rewrite elem_of_cons. intuition congruence.
Qed.

Lemma day_single_char (n : nat) :
  n < 7 ->
  exists c, str_weekday_num (Some n) = String c ""
            /\ PyStr.mem_char c ", " = false.
Proof.
  intros Hn.
  do 7 (destruct n as [|n]; [eexists; split; reflexivity|]). lia.
Qed.

(** The parser's test [str(weekday_num) not in weekday_nums] finds a day
    exactly when it is among the days recorded. *)
Lemma contains_day (seen : list (option nat)) (day : option nat) :
  days_ok seen day -> seen <> [] ->
  PyStr.contains (str_weekday_num day)
    (PyStr.join ", " (str_weekday_num <$> seen))
  = bool_decide (day ∈ seen).
Proof.
  intros [Hall Hday] Hne. destruct day as [n|].
  - destruct (day_single_char n Hday) as (c & Hc & Hsep).
    rewrite Hc, contains_single, mem_char_join by done.
    by apply existsb_day.
  - cbn [str_weekday_num]. rewrite contains_empty. symmetry.
    apply bool_decide_eq_true. destruct Hday as [|w seen Hw _]; [done|].
    rewrite Hw. apply elem_of_cons. by left.
Qed.

(** ** Appending strings *)

Lemma string_app_assoc (a b c : string) : (a +:+ b) +:+ c = a +:+ (b +:+ c).
Proof.
  induction a as [|x a IH]; [done|].
  change (String x ((a +:+ b) +:+ c) = String x (a +:+ (b +:+ c))).
  by rewrite IH.
Qed.

Lemma string_app_nil_r (a : string) : a +:+ "" = a.
Proof.
  induction a as [|x a IH]; [done|].
  change (String x (a +:+ "") = String x a). by rewrite IH.
Qed.

Lemma join_snoc (sep : string) (parts : list string) (p : string) :
  parts <> [] ->
  PyStr.join sep (parts ++ [p]) = PyStr.join sep parts +:+ sep +:+ p.
Proof.
  induction parts as [|q [|q' parts] IH]; [done|done|]. intros _.
  change (q +:+ sep +:+ PyStr.join sep ((q' :: parts) ++ [p])
          = (q +:+ sep +:+ PyStr.join sep (q' :: parts)) +:+ sep +:+ p).
  rewrite IH by done. by rewrite !string_app_assoc.
Qed.

(** ** The days the parser records *)

Lemma list_index_from_lt (l : list string) (x : string) (i n : nat) :
  list_index_from l x i = Ok n -> n < i + length l.
Proof.
  revert i. induction l as [|y l IH]; intros i; simpl; [done|].
  destruct (PyStr.eqb y x).
  - intros [= <-]. lia.
  - intros H. apply IH in H. lia.
Qed.

Lemma list_index_WEEKDAYS_lt (weekday : string) (n : nat) :
  list_index WEEKDAYS weekday = Ok n -> n < 7.
Proof. intros H. by apply list_index_from_lt in H. Qed.

Lemma find_action_insert k new i a a' :
  new !! i = Some a -> name a' = name a ->
  find_action k (<[i := a']> new) = find_action k new.
Proof.
  revert i. induction new as [|b new IH]; intros i; [done|].
  destruct i as [|i]; simpl.
  - intros [= ->] ->. done.
  - intros Hi Hn. by rewrite (IH i).
Qed.

Lemma find_action_app k new a :
  find_action k (new ++ [a])
  = match find_action k new with
    | Some i => Some i
    | None => if PyStr.eqb (name a) k then Some (length new) else None
    end.
Proof.
  induction new as [|b new IH]; simpl.
  - by destruct (PyStr.eqb (name a) k).
  - destruct (PyStr.eqb (name b) k); [done|]. rewrite IH.
    destruct (find_action k new); [done|].
    by destruct (PyStr.eqb (name a) k).
Qed.

Lemma find_action_lt k new i : find_action k new = Some i -> i < length new.
Proof.
  intros H. destruct (find_action_Some _ _ _ H) as (a & Hi & _).
  by apply lookup_lt_Some in Hi.
Qed.

Lemma days_recorded_insert action_name new i a a' seen :
  new !! i = Some a -> name a' = name a ->
  (name a = action_name -> weekday_nums a' = weekday_nums a) ->
  days_recorded action_name new seen ->
  days_recorded action_name (<[i := a']> new) seen.
Proof.
  intros Hi Hn Hw. unfold days_recorded.
  rewrite (find_action_insert _ _ _ _ _ Hi Hn).
  destruct (find_action action_name new) as [j|] eqn:Hfind; [|done].
  intros (Hne & b & Hj & Hb). split; [done|].
  destruct (decide (j = i)) as [->|Hji].
  - exists a'. rewrite list_lookup_insert_eq by (by eapply lookup_lt_Some).
    split; [done|]. assert (b = a) as -> by congruence.
    rewrite Hw; [done|].
    destruct (find_action_Some _ _ _ Hfind) as (a0 & Hi0 & Hn0). congruence.
  - exists b. by rewrite list_lookup_insert_ne.
Qed.

Lemma days_ok_note_day seen day :
  days_ok seen day -> days_ok (note_day seen day) day.
Proof.
  intros [Hall Hday]. unfold note_day. case_bool_decide; [done|].
  split.
  - apply Forall_app. split; [done|]. constructor; [|done].
    by destruct day.
  - destruct day; [done|]. apply Forall_app. split; [done|].
    by constructor.
Qed.

Lemma days_step action_name n0 line new vars new' vars' seen :
  abs_parse_line n0 line (new, vars) = Ok (new', vars') ->
  days_recorded action_name new seen ->
  days_ok seen (weekday_num vars) ->
  let seen' :=
    fold_left note_day (occurrence action_name line (weekday_num vars)) seen in
  days_recorded action_name new' seen'
  /\ days_ok seen' (weekday_num vars')
  /\ weekday_num vars' = day_after_line line (weekday_num vars).
Proof.
  unfold abs_parse_line, occurrence, day_after_line.
  intros Hstep Hrec Hok.
  destruct (classify line) as [|weekday|c|k|]; cbn [fold_left].
  - by injection Hstep as <- <-.
  - destruct (list_index WEEKDAYS weekday) as [n|] eqn:Hidx; [|done].
    injection Hstep as <- <-. split; [done|]. split; [|done].
    split; [apply Hok|]. by apply list_index_WEEKDAYS_lt in Hidx.
  - by injection Hstep as <- <-.
  - destruct (find_action k new) as [i|] eqn:Hfind.
    + destruct (new !! i) as [a|] eqn:Hi; [|done].
      injection Hstep as <- <-. cbn [weekday_num].
      destruct (find_action_Some _ _ _ Hfind) as (a0 & Hi0 & Hname).
      assert (a0 = a) as -> by congruence.
      destruct (PyStr.eqb k action_name) eqn:Hk; cbn [fold_left].
      * apply pystr_eqb_eq in Hk. subst action_name.
        split; [|split; [by apply days_ok_note_day|done]].
        pose proof Hrec as Hrec0. unfold days_recorded in Hrec0.
        rewrite Hfind in Hrec0. destruct Hrec0 as (Hne & b & Hb & Hwn).
        assert (b = a) as -> by congruence.
        rewrite Hwn, contains_day by done. unfold note_day.
        case_bool_decide; cbn [negb]; [done|].
        unfold days_recorded.
        rewrite (find_action_insert _ _ _ _ _ Hi) by done. rewrite Hfind.
        split; [by destruct seen|].
        eexists. rewrite list_lookup_insert_eq by (by eapply lookup_lt_Some).
        split; [done|]. cbn [weekday_nums Py.with_weekday_nums].
        rewrite fmap_app. cbn [fmap list_fmap].
        by rewrite join_snoc by (by destruct seen).
      * split; [|done]. destruct (negb _); [|done].
        apply (days_recorded_insert _ _ _ a); try done.
        intros Ha. exfalso. apply not_true_iff_false in Hk. apply Hk.
        apply pystr_eqb_eq. congruence.
    + injection Hstep as <- <-. cbn [weekday_num].
      unfold days_recorded. rewrite find_action_app. cbn [name].
      destruct (PyStr.eqb k action_name) eqn:Hk; cbn [fold_left].
      * apply pystr_eqb_eq in Hk. subst action_name.
        unfold days_recorded in Hrec. rewrite Hfind in Hrec. subst seen.
        rewrite Hfind. split; [|split; [by apply days_ok_note_day|done]].
        split; [done|]. eexists.
        rewrite lookup_app_r, Nat.sub_diag by done. split; [done|]. done.
      * split; [|done]. unfold days_recorded in Hrec.
        destruct (find_action action_name new) as [j|] eqn:Hj; [|done].
        destruct Hrec as (Hne & b & Hb & Hwn). split; [done|].
        exists b. split; [|done]. by apply lookup_app_l_Some.
  - destruct (active_key vars) as [r|].
    + destruct (new !! (r - n0)) as [a|] eqn:Hi; [|done].
      injection Hstep as <- <-. split; [|done].
      by apply (days_recorded_insert _ _ _ a).
    + by injection Hstep as <- <-.
Qed.

Lemma days_parse action_name n0 lines new vars new' vars' seen :
  abs_parse n0 lines (new, vars) = Ok (new', vars') ->
  days_recorded action_name new seen ->
  days_ok seen (weekday_num vars) ->
  days_recorded action_name new'
    (fold_left note_day (occurrences action_name lines (weekday_num vars))
       seen).
Proof.
  revert new vars seen.
  induction lines as [|line lines IH]; intros new vars seen;
    cbn [abs_parse occurrences].
  - by intros [= <- <-].
  - destruct (abs_parse_line n0 line (new, vars)) as [[new1 vars1]|e]
      eqn:Hstep; [|done].
    intros Hrest Hrec Hok.
    destruct (days_step action_name _ _ _ _ _ _ _ Hstep Hrec Hok)
      as (Hrec1 & Hok1 & Hday).
    rewrite fold_left_app, <- Hday. by apply (IH new1 vars1).
Qed.

Lemma fold_note_day_elem (days seen : list (option nat)) (w : option nat) :
  w ∈ fold_left note_day days seen <-> w ∈ seen \/ w ∈ days.
Proof.
  revert seen. induction days as [|d days IH]; intros seen; cbn [fold_left].
  - rewrite elem_of_nil. tauto.
  - rewrite IH, elem_of_cons. unfold note_day. case_bool_decide.
    + intuition congruence.
    + rewrite elem_of_app, list_elem_of_singleton. tauto.
Qed.

Lemma fold_note_day_NoDup (days seen : list (option nat)) :
  NoDup seen -> NoDup (fold_left note_day days seen).
Proof.
  revert seen. induction days as [|d days IH]; intros seen Hnd;
    cbn [fold_left]; [done|].
  apply IH. unfold note_day. case_bool_decide; [done|].
  apply NoDup_app. split; [done|]. split; [|apply NoDup_singleton].
  by intros x Hx ->%list_elem_of_singleton.
Qed.

Lemma filter_index_dict_None n0 k new :
  k ∉ name <$> new ->
  filter (fun kv : string * action_ref => kv.1 = k) (index_dict n0 new) = [].
Proof.
  revert n0. induction new as [|b new IH]; intros n0; [done|].
  cbn [fmap list_fmap index_dict]. rewrite not_elem_of_cons. intros [Hb Hk].
  rewrite filter_cons_False by (simpl; congruence). by apply IH.
Qed.

Lemma filter_index_dict_Some n0 k new i :
  NoDup (name <$> new) -> find_action k new = Some i ->
  filter (fun kv : string * action_ref => kv.1 = k) (index_dict n0 new)
  = [(k, n0 + i)].
Proof.
  revert n0 i. induction new as [|b new IH]; intros n0 i; [done|].
  cbn [fmap list_fmap index_dict find_action]. rewrite NoDup_cons.
  intros [Hb Hnd]. destruct (PyStr.eqb (name b) k) eqn:E.
  - apply pystr_eqb_eq in E. subst k. intros [= <-].
    rewrite filter_cons_True by done.
    rewrite filter_index_dict_None by done. do 2 f_equal. lia.
  - destruct (find_action k new) as [i'|] eqn:Hfind; [|done].
    intros [= <-]. rewrite filter_cons_False.
    + rewrite (IH (S n0) i') by done. do 2 f_equal. lia.
    + simpl. intros Heq. by rewrite Heq, pystr_eqb_refl in E.
Qed.

Lemma list_index_from_elem (l : list string) (x : string) (i : nat) :
  x ∈ l -> exists n, list_index_from l x i = Ok n.
Proof.
  revert i. induction l as [|y l IH]; intros i Hx.
  - by apply elem_of_nil in Hx.
  - simpl. destruct (PyStr.eqb y x) eqn:E; [by eexists|].
    apply elem_of_cons in Hx as [->|Hx]; [|by apply IH].
    by rewrite pystr_eqb_refl in E.
Qed.

Lemma abs_parse_line_total n0 line new vars :
  parser_ok n0 new vars -> valid_day_header line ->
  exists s', abs_parse_line n0 line (new, vars) = Ok s'.
Proof.
  intros [Hnd Hact] Hvalid. unfold abs_parse_line, valid_day_header in *.
  destruct (classify line) as [|weekday|c|k|]; try by eexists.
  - destruct (list_index_from_elem WEEKDAYS weekday 0 Hvalid) as [n Hn].
    unfold list_index. rewrite Hn. by eexists.
  - destruct (find_action k new) as [i|] eqn:Hfind; [|by eexists].
    destruct (find_action_Some _ _ _ Hfind) as (a & -> & _). by eexists.
  - destruct (active_key vars) as [r|]; [|by eexists].
    destruct (new !! (r - n0)) as [a|] eqn:Hi; [by eexists|].
    apply lookup_ge_None in Hi. lia.
Qed.

Lemma abs_parse_total σ0 lines new vars :
  parser_ok (length (actions σ0)) new vars ->
  Forall valid_day_header lines ->
  exists s', abs_parse (length (actions σ0)) lines (new, vars) = Ok s'.
Proof.
  intros Hok Hvalid. revert new vars Hok.
  induction Hvalid as [|line lines Hline _ IH]; intros new vars Hok;
    cbn [abs_parse]; [by eexists|].
  destruct (abs_parse_line_total _ line new vars Hok Hline) as [[new1 vars1] Hs].
  pose proof (parse_line_sim σ0 new vars line Hok) as Hsim.
  cbv zeta in Hsim. rewrite Hs in *. destruct Hsim as [_ Hok1].
  by apply IH.
Qed.

(** C8.  Let a top-level action line called [action_name] appear under
    the days [i] and [j] of a week.  Whenever the parser returns its
    mapping (and it does when every day header names a day of the week),
    the mapping has exactly one entry for [action_name]; the [weekday_nums]
    of its action is the comma-separated list of the days under which the
    line appears, each written once, in the order in which they are first
    seen, and [i] and [j] are both in it. *)
Theorem repeated_action_merges_weekdays (week_done_lines : list string)
    (σ0 : Store) (action_name : string) (i j : nat) :
  let days := occurrences action_name week_done_lines None in
  Some i ∈ days -> Some j ∈ days ->
  (Forall valid_day_header week_done_lines ->
   exists d σ, _week_done_lines_to_dict week_done_lines σ0 = (Ok d, σ))
  /\ forall d σ,
       _week_done_lines_to_dict week_done_lines σ0 = (Ok d, σ) ->
       exists mapping r a,
         dicts σ !! d = Some mapping
         /\ filter (fun kv : string * action_ref => kv.1 = action_name) mapping
            = [(action_name, r)]
         /\ actions σ !! r = Some a
         /\ name a = action_name
         /\ weekday_nums a
            = PyStr.join ", " (str_weekday_num <$> first_seen days)
         /\ NoDup (first_seen days)
         /\ Some i ∈ first_seen days
         /\ Some j ∈ first_seen days.
Proof.
  intros days Hi Hj.
  assert (Hok : parser_ok (length (actions σ0)) [] parser_init)
    by (split; [constructor|done]).
  pose proof (parser_run σ0 week_done_lines) as Hrun.
  split.
  { intros Hvalid.
    destruct (abs_parse_total σ0 week_done_lines [] parser_init Hok Hvalid)
      as [[new vars] Habs].
    rewrite Habs in Hrun. destruct Hrun as [Hrun _]. by eexists _, _. }
  intros d σ Hret.
  destruct (abs_parse _ week_done_lines _) as [[new vars]|e] eqn:Habs.
  2:{ destruct Hrun as [new Hrun]. congruence. }
  destruct Hrun as [Hrun Hnd]. rewrite Hrun in Hret. injection Hret as <- <-.
  assert (Hrec : days_recorded action_name new (first_seen days)).
  { apply (days_parse action_name _ _ _ _ _ _ [] Habs); [done|].
    by split; [constructor|constructor]. }
  assert (Hin : forall w, w ∈ days -> w ∈ first_seen days).
  { intros w Hw. apply fold_note_day_elem. by right. }
  unfold days_recorded in Hrec.
  destruct (find_action action_name new) as [idx|] eqn:Hfind.
  2:{ apply Hin in Hi. rewrite Hrec in Hi. by apply elem_of_nil in Hi. }
  destruct Hrec as (_ & a & Ha & Hwn).
  destruct (find_action_Some _ _ _ Hfind) as (a' & Ha' & Hname).
  assert (a' = a) as -> by congruence.
  exists (index_dict (length (actions σ0)) new), (length (actions σ0) + idx), a.
  split; [apply parser_store_dict|].
  split; [by apply filter_index_dict_Some|].
  split; [by rewrite parser_store_action|].
  split; [done|]. split; [done|].
  split; [apply fold_note_day_NoDup; constructor|]. split; by apply Hin.
Qed.

Lemma repeated_action_merges_weekdays_witness :
  exists mapping r a,
    dicts (_week_done_lines_to_dict
             ["#### 01/01 Monday"; "- A"; "#### 02/01 Tuesday"; "- A"]
             empty_store).2 !! 0 = Some mapping
    /\ filter (fun kv : string * action_ref => kv.1 = "A") mapping = [("A", r)]
    /\ actions (_week_done_lines_to_dict
                  ["#### 01/01 Monday"; "- A"; "#### 02/01 Tuesday"; "- A"]
                  empty_store).2 !! r = Some a
    /\ name a = "A"
    /\ weekday_nums a = "0, 1"
    /\ NoDup [Some 0; Some 1]
    /\ Some 0 ∈ [Some 0; Some 1]
    /\ Some 1 ∈ [Some 0; Some 1].
Proof.
  apply (proj2 (repeated_action_merges_weekdays
                  ["#### 01/01 Monday"; "- A"; "#### 02/01 Tuesday"; "- A"]
                  empty_store "A" 0 1
                  ltac:(vm_compute; repeat constructor)
                  ltac:(vm_compute; repeat constructor))).
  vm_compute. reflexivity.
Defined.

(** ** The injection loop and its working copy *)

Lemma inject_store_dict σ c copy warns :
  c < length (dicts σ) ->
  dicts (inject_store σ c copy warns) !! c = Some copy.
Proof. intros Hc. simpl. by apply list_lookup_insert_eq. Qed.

Lemma inject_line_sim σ c copy warns line vars :
  c < length (dicts σ) ->
  inject_line c line vars (inject_store σ c copy warns)
  = match abs_inject_line (actions σ) line (copy, vars, warns) with
    | Ok (copy', vars', warns') => (Ok vars', inject_store σ c copy' warns')
    | Raise e => (Raise e, inject_store σ c copy warns)
    end.
Proof.
  intros Hc. pose proof (inject_store_dict σ c copy warns Hc) as Hdict.
  unfold inject_line, abs_inject_line, bold_name.
  destruct (PyStr.is_empty (PyStr.strip line)); [done|].
  destruct (ENTRY_NAME_REGEX_match (PyStr.strip line)) as [action_name|];
    [|done].
  case_bool_decide.
  { rewrite bind_run. unfold Py.logger_warning, inject_store, ret. simpl.
    by rewrite app_assoc. }
  rewrite bind_run, (dict_contains_run c _ _ _ Hdict). unfold Dict.mem at 1.
  destruct (Dict.lookup action_name copy) as [r|] eqn:Hlook; [|done].
  rewrite bind_run, (dict_getitem_run c _ _ _ Hdict), Hlook.
  rewrite bind_run. unfold Py.load. cbn [actions inject_store].
  destruct (actions σ !! r) as [a|]; [|done].
  case_bool_decide; [|done].
  rewrite bind_run, (dict_delitem_run c _ _ _ Hdict).
  destruct (Dict.mem (name a) copy); [|done].
  unfold ret, inject_store, base_identation, action_name_identation. simpl.
  by rewrite list_insert_insert_eq.
Qed.

Lemma for_each_inject_sim σ c lines copy warns vars :
  c < length (dicts σ) ->
  match abs_inject (actions σ) lines (copy, vars, warns) with
  | Ok (copy', vars', warns') =>
      for_each lines (inject_line c) vars (inject_store σ c copy warns)
      = (Ok vars', inject_store σ c copy' warns')
  | Raise e =>
      exists copy' warns',
        for_each lines (inject_line c) vars (inject_store σ c copy warns)
        = (Raise e, inject_store σ c copy' warns')
  end.
Proof.
  intros Hc. revert copy warns vars.
  induction lines as [|line lines IH]; intros copy warns vars;
    cbn [for_each abs_inject]; [done|].
  rewrite bind_run, inject_line_sim by done.
  destruct (abs_inject_line (actions σ) line (copy, vars, warns))
    as [[[copy1 vars1] warns1]|e]; [apply IH|by eexists _, _].
Qed.

(** ** The overview loop *)

Lemma append_notes_app (base : string) (notes : list string) (a b : string) :
  append_notes base notes (a +:+ b) = a +:+ append_notes base notes b.
Proof.
  unfold append_notes. revert b.
  induction notes as [|note notes IH]; intros b; cbn [fold_left]; [done|].
  by rewrite string_app_assoc, IH.
Qed.

Lemma append_notes_block (base : string) (notes : list string) (text : string) :
  append_notes base notes text = text +:+ notes_block base notes.
Proof.
  unfold notes_block. rewrite <- append_notes_app. by rewrite string_app_nil_r.
Qed.

Lemma overview_entry_sim σ c copy item ov :
  dicts σ !! c = Some copy ->
  overview_entry c item ov σ
  = match abs_overview_entry (actions σ) copy item ov with
    | Ok ov' => (Ok ov', σ)
    | Raise e => (Raise e, σ)
    end.
Proof.
  intros Hdict. unfold overview_entry, abs_overview_entry, action_weekdays.
  rewrite bind_run. unfold Py.load.
  destruct (actions σ !! item.2) as [a|]; [|done].
  rewrite bind_run.
  assert (Htail : forall wd,
    (in_copy <- Py.dict_contains c (name a) ;;
     ret (append_notes "" (notes a)
            (ov +:+ (wd +:+ "- " +:+ name a
                     +:+ (if negb in_copy then TRACKED_TAG else "")
                     +:+ newline)))) σ
    = (Ok (ov +:+ overview_text (tracked_tag copy a) a wd), σ)).
  { intros wd. rewrite bind_run, (dict_contains_run c _ _ _ Hdict).
    unfold ret, overview_text, overview_line, tracked_tag.
    by rewrite append_notes_block, string_app_assoc. }
  destruct (negb (PyStr.is_empty (weekday_nums a))).
  - rewrite bind_run. unfold lift.
    destruct (weekday_names (weekday_nums a)) as [w|e]; [|done].
    apply Htail.
  - apply Htail.
Qed.

Lemma for_each_overview_sim σ c copy items ov :
  dicts σ !! c = Some copy ->
  for_each items (overview_entry c) ov σ
  = match abs_overview (actions σ) copy items ov with
    | Ok ov' => (Ok ov', σ)
    | Raise e => (Raise e, σ)
    end.
Proof.
  intros Hdict. revert ov.
  induction items as [|item items IH]; intros ov;
    cbn [for_each abs_overview]; [done|].
  rewrite bind_run, (overview_entry_sim _ _ copy) by done.
  destruct (abs_overview_entry (actions σ) copy item ov); [apply IH|done].
Qed.

Lemma action_tuples_sim σ values :
  comprehension
    (fun action => a <- Py.load action ;; ret (sort_key a, action)) values σ
  = match abs_action_tuples (actions σ) values with
    | Ok tuples => (Ok tuples, σ)
    | Raise e => (Raise e, σ)
    end.
Proof.
  induction values as [|r values IH];
    cbn [comprehension abs_action_tuples]; [done|].
  rewrite bind_run, bind_run. unfold Py.load at 1.
  destruct (actions σ !! r) as [a|]; [|done].
  unfold ret at 1. rewrite bind_run, IH.
  by destruct (abs_action_tuples (actions σ) values).
Qed.

(** ** [_aggregate_report] as a function of the mapping *)

Lemma aggregate_report_run σ d mapping lines :
  dicts σ !! d = Some mapping ->
  match abs_aggregate (actions σ) mapping lines with
  | Ok (out, copy, warns) =>
      _aggregate_report lines d σ
      = (Ok out,
         inject_store (copied_store σ mapping) (length (dicts σ)) copy warns)
  | Raise e => exists σ', _aggregate_report lines d σ = (Raise e, σ')
  end.
Proof.
  intros Hd. unfold _aggregate_report, abs_aggregate.
  set (c := length (dicts σ)). set (σb := copied_store σ mapping).
  assert (Hc : c < length (dicts σb))
    by (unfold σb, c; simpl; rewrite length_app; simpl; lia).
  assert (Hcopy : Py.dict_copy d σ = (Ok c, inject_store σb c mapping [])).
  { unfold Py.dict_copy. rewrite bind_run, (dict_read_run d mapping) by done.
    unfold Py.dict_alloc, inject_store, σb, copied_store. simpl.
    rewrite app_nil_r, list_insert_id; [done|]. by apply list_lookup_middle. }
  rewrite bind_run, Hcopy, bind_run.
  pose proof (for_each_inject_sim σb c lines mapping [] inject_init Hc) as Hloop.
  fold inject_init.
  change (actions σ) with (actions σb) at 1.
  destruct (abs_inject (actions σb) lines (mapping, inject_init, []))
    as [[[copy vars] warns]|e].
  2:{ destruct Hloop as (copy' & warns' & ->). by eexists. }
  rewrite Hloop. set (σ2 := inject_store σb c copy warns).
  assert (Hd2 : dicts σ2 !! d = Some mapping).
  { unfold σ2. simpl. apply lookup_lt_Some in Hd as Hlt.
    rewrite list_lookup_insert_ne by (unfold c; lia).
    by apply lookup_app_l_Some. }
  assert (Hc2 : dicts σ2 !! c = Some copy) by (by apply inject_store_dict).
  rewrite bind_run. unfold Py.dict_values.
  rewrite bind_run, (dict_read_run d mapping) by done. cbn [ret].
  rewrite bind_run, action_tuples_sim.
  change (actions σ2) with (actions σ).
  destruct (abs_action_tuples (actions σ) (Dict.values mapping))
    as [tuples|e]; [|by eexists].
  rewrite bind_run, (for_each_overview_sim σ2 c copy) by done.
  change (actions σ2) with (actions σ). fold overview_header.
  destruct (abs_overview (actions σ) copy (sorted tuples) overview_header);
    [done|by eexists].
Qed.

(** ** Dicts with distinct keys *)

Section dict_facts.

Implicit Types (d : pydict) (k : string) (r : action_ref).

Lemma lookup_None_keys d k : Dict.lookup k d = None -> k ∉ d.*1.
Proof.
  induction d as [|[k' r'] d IH]; simpl.
  - intros _ H. by apply elem_of_nil in H.
  - destruct (PyStr.eqb k' k) eqn:E; [done|]. intros Hd.
    apply not_elem_of_cons. split; [|by apply IH].
    intros ->. by rewrite pystr_eqb_refl in E.
Qed.

Lemma lookup_Some_elem d k r : Dict.lookup k d = Some r -> (k, r) ∈ d.
Proof.
  induction d as [|[k' r'] d IH]; simpl; [done|].
  destruct (PyStr.eqb k' k) eqn:E.
  - apply pystr_eqb_eq in E. intros [= ->]. subst. apply elem_of_cons. by left.
  - intros Hd. apply elem_of_cons. right. by apply IH.
Qed.

Lemma elem_lookup_Some d k r :
  NoDup d.*1 -> (k, r) ∈ d -> Dict.lookup k d = Some r.
Proof.
  induction d as [|[k' r'] d IH]; simpl.
  - intros _ H. by apply elem_of_nil in H.
  - rewrite NoDup_cons, elem_of_cons. intros [Hk' Hnd] [[= -> ->]|Hin].
    + by rewrite pystr_eqb_refl.
    + destruct (PyStr.eqb k' k) eqn:E; [|by apply IH].
      apply pystr_eqb_eq in E. subst k'. exfalso. apply Hk'.
      apply list_elem_of_fmap. by exists (k, r).
Qed.

Lemma remove_keys_subseteq d k x : x ∈ (Dict.remove k d).*1 -> x ∈ d.*1.
Proof.
  induction d as [|[k' r'] d IH]; simpl; [done|].
  destruct (PyStr.eqb k' k); simpl.
  - intros H. apply elem_of_cons. by right.
  - rewrite !elem_of_cons. intros [->|H]; [by left|right; by apply IH].
Qed.

Lemma NoDup_remove d k : NoDup d.*1 -> NoDup (Dict.remove k d).*1.
Proof.
  induction d as [|[k' r'] d IH]; simpl; [done|].
  rewrite NoDup_cons. intros [Hk' Hnd].
  destruct (PyStr.eqb k' k); [done|]. simpl. apply NoDup_cons.
  split; [|by apply IH]. intros H. by apply Hk', (remove_keys_subseteq d k).
Qed.

Lemma lookup_remove d k k' :
  NoDup d.*1 ->
  Dict.lookup k' (Dict.remove k d)
  = if decide (k' = k) then None else Dict.lookup k' d.
Proof.
  induction d as [|[k0 r0] d IH]; simpl.
  - intros _. by destruct (decide _).
  - rewrite NoDup_cons. intros [Hk0 Hnd].
    destruct (PyStr.eqb k0 k) eqn:E.
    + apply pystr_eqb_eq in E. subst k0.
      destruct (decide (k' = k)) as [->|Hne].
      * destruct (Dict.lookup k d) eqn:Hl; [|done].
        apply lookup_Some_elem in Hl. exfalso. apply Hk0.
        apply list_elem_of_fmap. by eexists (k, _).
      * destruct (PyStr.eqb k k') eqn:E'; [|done].
        apply pystr_eqb_eq in E'. congruence.
    + simpl. rewrite IH by done.
      destruct (PyStr.eqb k0 k') eqn:E'; [|done].
      apply pystr_eqb_eq in E'. subst k0.
      destruct (decide (k' = k)) as [->|]; [|done].
      by rewrite pystr_eqb_refl in E.
Qed.

End dict_facts.

(** ** The injection loop on a well-formed mapping *)

Lemma matched_app k l1 l2 : matched k (l1 ++ l2) = matched k l1 || matched k l2.
Proof. unfold matched. apply existsb_app. Qed.

Lemma matched_single k line :
  matched k [line] = bool_decide (bold_name line = Some k).
Proof. unfold matched. simpl. by rewrite orb_false_r. Qed.

Lemma inject_inv_init acts mapping :
  well_formed acts mapping -> inject_inv acts mapping [] mapping ∅.
Proof.
  intros [Hnd _]. split; [done|]. split.
  - intros k. split; [intros H; by apply not_elem_of_empty in H|].
    by intros [? _].
  - intros k. rewrite bool_decide_eq_false_2; [done|]. apply not_elem_of_empty.
Qed.

Section inject_step.

Variables (acts : list DoneAction) (mapping : pydict).
Hypothesis Hwf : well_formed acts mapping.

Variables (done : list string) (copy : pydict) (vars : InjectVars)
  (warns : list string) (line : string).
Hypothesis Hinv : inject_inv acts mapping done copy (used_action_names vars).

Local Abbreviation ext := (ext_weekly_report vars +:+ (line +:+ newline)).
Local Abbreviation used := (used_action_names vars).

(** A line that carries no action name is only copied. *)
Lemma inject_step_no_name :
  bold_name line = None ->
  abs_inject_line acts line (copy, vars, warns)
  = Ok (copy, {| ext_weekly_report := ext; used_action_names := used |}, warns)
  /\ inject_inv acts mapping (done ++ [line]) copy used.
Proof.
  intros Hname. unfold abs_inject_line. rewrite Hname. split; [done|].
  destruct Hinv as (Hnd & Hused & Hcopy). split; [done|]. split; [|done].
  intros k. rewrite Hused, matched_app, matched_single, Hname.
  rewrite bool_decide_eq_false_2 by done. by rewrite orb_false_r.
Qed.

(** A line whose action name is not a key of the mapping is only copied. *)
Lemma inject_step_unknown (n : string) :
  bold_name line = Some n -> Dict.lookup n mapping = None ->
  abs_inject_line acts line (copy, vars, warns)
  = Ok (copy, {| ext_weekly_report := ext; used_action_names := used |}, warns)
  /\ inject_inv acts mapping (done ++ [line]) copy used.
Proof.
  intros Hname Hmap. destruct Hinv as (Hnd & Hused & Hcopy).
  assert (Hn : n ∉ used).
  { intros [_ [r Hr]]%Hused. congruence. }
  unfold abs_inject_line. rewrite Hname, bool_decide_eq_false_2 by done.
  rewrite Hcopy, bool_decide_eq_false_2, Hmap by done. split; [done|].
  split; [done|]. split; [|done].
  intros k. rewrite Hused, matched_app, matched_single, Hname.
  split.
  - intros [-> Hk]. by rewrite orb_true_l.
  - intros [Hm Hk]. split; [|done].
    apply orb_true_iff in Hm as [Hm|Hm]; [done|].
    apply bool_decide_eq_true in Hm. injection Hm as ->.
    destruct Hk as [r Hr]. congruence.
Qed.

(** A line whose action name was already carried by a line before it is
    copied, and a warning is logged. *)
Lemma inject_step_duplicate (n : string) :
  bold_name line = Some n -> matched n done = true ->
  is_Some (Dict.lookup n mapping) ->
  abs_inject_line acts line (copy, vars, warns)
  = Ok (copy, {| ext_weekly_report := ext; used_action_names := used |},
        warns ++ [duplicate_warning n])
  /\ inject_inv acts mapping (done ++ [line]) copy used.
Proof.
  intros Hname Hm Hmap. destruct Hinv as (Hnd & Hused & Hcopy).
  assert (Hn : n ∈ used) by (by apply Hused).
  unfold abs_inject_line. rewrite Hname, bool_decide_eq_true_2 by done.
  split; [done|]. split; [done|]. split; [|done].
  intros k. rewrite Hused, matched_app, matched_single, Hname. split.
  - intros [-> Hk]. by rewrite orb_true_l.
  - intros [Hm' Hk]. split; [|done].
    apply orb_true_iff in Hm' as [Hm'|Hm']; [done|].
    apply bool_decide_eq_true in Hm'. by injection Hm' as ->.
Qed.

(** The first line that carries the name of an action of the mapping: the
    name is used, and the notes are injected and the action deleted from
    the working copy unless its category is ignored. *)
Lemma inject_step_first (n : string) (r : action_ref) (a : DoneAction) :
  bold_name line = Some n -> matched n done = false ->
  Dict.lookup n mapping = Some r -> acts !! r = Some a ->
  let ignored := bool_decide (category a ∈ IGNORED_CATEGORIES) in
  abs_inject_line acts line (copy, vars, warns)
  = Ok (if ignored then copy else Dict.remove n copy,
        {| ext_weekly_report :=
             if ignored then ext
             else ext +:+ notes_block (base_identation line) (notes a);
           used_action_names := {[ n ]} ∪ used |},
        warns)
  /\ inject_inv acts mapping (done ++ [line])
       (if ignored then copy else Dict.remove n copy) ({[ n ]} ∪ used).
Proof.
  intros Hname Hm Hmap Ha ignored. destruct Hinv as (Hnd & Hused & Hcopy).
  destruct Hwf as [Hmnd Hlive].
  assert (Hna : name a = n).
  { destruct (Hlive n r (lookup_Some_elem _ _ _ Hmap)) as (a' & Ha' & Hn').
    congruence. }
  assert (Hn : n ∉ used).
  { intros [Hm' _]%Hused. congruence. }
  assert (Hlook : Dict.lookup n copy = Some r).
  { by rewrite Hcopy, bool_decide_eq_false_2. }
  assert (Hdel : deletable acts mapping n = negb ignored).
  { unfold deletable, ignored. rewrite Hmap, Ha.
    destruct (decide (category a ∈ IGNORED_CATEGORIES)).
    - by rewrite bool_decide_eq_false_2, bool_decide_eq_true_2 by tauto.
    - by rewrite bool_decide_eq_true_2, bool_decide_eq_false_2. }
  assert (Hstep_used : forall k,
    k ∈ {[n]} ∪ used <->
    matched k (done ++ [line]) = true /\ is_Some (Dict.lookup k mapping)).
  { intros k. rewrite elem_of_union, elem_of_singleton, Hused.
    rewrite matched_app, matched_single, Hname. split.
    - intros [->|[Hk1 Hk2]].
      + rewrite bool_decide_eq_true_2 by done. rewrite orb_true_r. eauto.
      + by rewrite Hk1.
    - intros [Hk1 Hk2]. apply orb_true_iff in Hk1 as [Hk1|Hk1]; [by right|].
      apply bool_decide_eq_true in Hk1. injection Hk1 as ->. by left. }
  unfold abs_inject_line.
  rewrite Hname, bool_decide_eq_false_2, Hlook, Ha by done.
  unfold ignored in *. destruct (decide (category a ∈ IGNORED_CATEGORIES))
    as [Hign|Hign].
  - rewrite bool_decide_eq_false_2, bool_decide_eq_true_2 by tauto.
    split; [done|]. split; [done|]. split; [exact Hstep_used|].
    intros k. rewrite Hcopy. destruct (decide (k = n)) as [->|Hkn].
    + rewrite Hdel, (bool_decide_eq_true_2 (category a ∈ _)) by done.
      by rewrite !andb_false_r.
    + assert (Hk : bool_decide (k ∈ {[n]} ∪ used) = bool_decide (k ∈ used)).
      { apply bool_decide_ext. rewrite elem_of_union, elem_of_singleton.
        tauto. }
      by rewrite Hk.
  - rewrite bool_decide_eq_true_2, bool_decide_eq_false_2 by done.
    rewrite Hna. unfold Dict.mem. rewrite Hlook, append_notes_block.
    split; [done|]. split; [by apply NoDup_remove|].
    split; [exact Hstep_used|].
    intros k. rewrite lookup_remove by done.
    destruct (decide (k = n)) as [->|Hkn].
    + rewrite Hdel, (bool_decide_eq_false_2 (category a ∈ _)) by done.
      rewrite bool_decide_eq_true_2; [done|].
      apply elem_of_union. left. by apply elem_of_singleton.
    + assert (Hk : bool_decide (k ∈ {[n]} ∪ used) = bool_decide (k ∈ used)).
      { apply bool_decide_ext. rewrite elem_of_union, elem_of_singleton.
        tauto. }
      by rewrite Hcopy, Hk.
Qed.

End inject_step.

Section inject_loop.

Variables (acts : list DoneAction) (mapping : pydict).
Hypothesis Hwf : well_formed acts mapping.

Lemma abs_inject_line_inv done copy vars warns line :
  inject_inv acts mapping done copy (used_action_names vars) ->
  exists copy' vars' warns',
    abs_inject_line acts line (copy, vars, warns) = Ok (copy', vars', warns')
    /\ inject_inv acts mapping (done ++ [line]) copy' (used_action_names vars').
Proof.
  intros Hinv. destruct (bold_name line) as [n|] eqn:Hname.
  2:{ destruct (inject_step_no_name acts mapping done copy vars warns line
                  Hinv Hname) as [-> ?]. by eexists _, _, _. }
  destruct (Dict.lookup n mapping) as [r|] eqn:Hmap.
  2:{ destruct (inject_step_unknown acts mapping done copy vars warns line
                  Hinv n Hname Hmap) as [-> ?]. by eexists _, _, _. }
  destruct (matched n done) eqn:Hm.
  { destruct (inject_step_duplicate acts mapping done copy vars warns line
                Hinv n Hname Hm) as [-> ?]; [by eexists|]. by eexists _, _, _. }
  destruct Hwf as [_ Hlive].
  destruct (Hlive n r (lookup_Some_elem _ _ _ Hmap)) as (a & Ha & _).
  destruct (inject_step_first acts mapping Hwf done copy vars warns line
              Hinv n r a Hname Hm Hmap Ha) as [-> ?].
  by eexists _, _, _.
Qed.

Lemma abs_inject_inv done lines copy vars warns :
  inject_inv acts mapping done copy (used_action_names vars) ->
  exists copy' vars' warns',
    abs_inject acts lines (copy, vars, warns) = Ok (copy', vars', warns')
    /\ inject_inv acts mapping (done ++ lines) copy' (used_action_names vars').
Proof.
  revert done copy vars warns.
  induction lines as [|line lines IH]; intros done copy vars warns Hinv;
    cbn [abs_inject].
  - rewrite app_nil_r. by eexists _, _, _.
  - destruct (abs_inject_line_inv done copy vars warns line Hinv)
      as (copy1 & vars1 & warns1 & -> & Hinv1).
    destruct (IH _ copy1 vars1 warns1 Hinv1) as (copy2 & vars2 & warns2 & -> & Hinv2).
    rewrite <- app_assoc in Hinv2. by eexists _, _, _.
Qed.

End inject_loop.

Lemma abs_inject_app acts l1 l2 s :
  abs_inject acts (l1 ++ l2) s
  = match abs_inject acts l1 s with
    | Ok s1 => abs_inject acts l2 s1
    | Raise e => Raise e
    end.
Proof.
  revert s. induction l1 as [|line l1 IH]; intros s; cbn [app abs_inject];
    [done|].
  by destruct (abs_inject_line acts line s).
Qed.

(** The text of the report only grows. *)
Lemma abs_inject_line_grows acts line copy vars warns copy' vars' warns' :
  abs_inject_line acts line (copy, vars, warns) = Ok (copy', vars', warns') ->
  exists more, ext_weekly_report vars' = ext_weekly_report vars +:+ more.
Proof.
  unfold abs_inject_line. intros H.
  destruct (bold_name line) as [n|];
    [|injection H as <- <- <-; by eexists].
  case_bool_decide; [injection H as <- <- <-; by eexists|].
  destruct (Dict.lookup n copy) as [r|];
    [|injection H as <- <- <-; by eexists].
  destruct (acts !! r) as [a|]; [|done].
  case_bool_decide; [|injection H as <- <- <-; by eexists].
  destruct (Dict.mem (name a) copy); [|done].
  injection H as <- <- <-. cbn [ext_weekly_report].
  rewrite append_notes_block, string_app_assoc. by eexists.
Qed.

Lemma abs_inject_grows acts lines copy vars warns copy' vars' warns' :
  abs_inject acts lines (copy, vars, warns) = Ok (copy', vars', warns') ->
  exists more, ext_weekly_report vars' = ext_weekly_report vars +:+ more.
Proof.
  revert copy vars warns.
  induction lines as [|line lines IH]; intros copy vars warns;
    cbn [abs_inject].
  - intros [= <- <- <-]. exists "". by rewrite string_app_nil_r.
  - destruct (abs_inject_line acts line (copy, vars, warns))
      as [[[copy1 vars1] warns1]|] eqn:Hstep; [|done].
    intros Hrest. apply abs_inject_line_grows in Hstep as [m1 Hm1].
    apply IH in Hrest as [m2 Hm2]. exists (m1 +:+ m2).
    by rewrite Hm2, Hm1, string_app_assoc.
Qed.

(** ** The injection pass *)

Lemma injection_pass_run σ d mapping lines :
  dicts σ !! d = Some mapping ->
  match abs_inject (actions σ) lines (mapping, inject_init, []) with
  | Ok (copy, vars, warns) =>
      injection_pass lines d σ
      = (Ok vars,
         inject_store (copied_store σ mapping) (length (dicts σ)) copy warns)
  | Raise e => exists σ', injection_pass lines d σ = (Raise e, σ')
  end.
Proof.
  intros Hd. unfold injection_pass.
  set (c := length (dicts σ)). set (σb := copied_store σ mapping).
  assert (Hc : c < length (dicts σb))
    by (unfold σb, c; simpl; rewrite length_app; simpl; lia).
  assert (Hcopy : Py.dict_copy d σ = (Ok c, inject_store σb c mapping [])).
  { unfold Py.dict_copy. rewrite bind_run, (dict_read_run d mapping) by done.
    unfold Py.dict_alloc, inject_store, σb, copied_store. simpl.
    rewrite app_nil_r, list_insert_id; [done|]. by apply list_lookup_middle. }
  rewrite bind_run, Hcopy.
  pose proof (for_each_inject_sim σb c lines mapping [] inject_init Hc) as Hloop.
  change (actions σb) with (actions σ) in Hloop.
  fold inject_init.
  destruct (abs_inject (actions σ) lines (mapping, inject_init, []))
    as [[[copy vars] warns]|e]; [exact Hloop|].
  destruct Hloop as (copy' & warns' & Hloop). rewrite Hloop. by eexists.
Qed.

(** ** The indentation and the block of the injected notes *)

Lemma len_drop_while_le p s : PyStr.len (PyStr.drop_while p s) <= PyStr.len s.
Proof.
  unfold PyStr.len. induction s as [|c s IH]; simpl; [done|].
  destruct (p c); simpl; lia.
Qed.

Lemma len_take_while p s :
  PyStr.len s - PyStr.len (PyStr.drop_while p s)
  = PyStr.len (PyStr.take_while p s).
Proof.
  pose proof (len_drop_while_le p) as Hle. unfold PyStr.len in *.
  induction s as [|c s IH]; simpl; [done|].
  destruct (p c); simpl; [|lia]. specialize (Hle s). lia.
Qed.

Lemma base_identation_spaces (line : string) :
  base_identation line
  = PyStr.repeat_char " " (PyStr.len (PyStr.take_while PyStr.isspace line)).
Proof.
  unfold base_identation, action_name_identation, PyStr.lstrip.
  rewrite len_take_while.
  by destruct (PyStr.len (PyStr.take_while PyStr.isspace line)).
Qed.

Lemma notes_block_cons base note notes :
  notes_block base (note :: notes)
  = (base +:+ note +:+ newline) +:+ notes_block base notes.
Proof.
  unfold notes_block at 1. unfold append_notes. cbn [fold_left].
  change (fold_left _ notes ?t) with (append_notes base notes t).
  rewrite append_notes_block. done.
Qed.

Lemma notes_block_concat base notes :
  notes_block base notes
  = concat_strings ((fun note => base +:+ note +:+ newline) <$> notes).
Proof.
  induction notes as [|note notes IH]; [done|].
  rewrite notes_block_cons, IH. done.
Qed.

(** ** Notes under the first line that carries an action's name *)

(** C6.  Let [line] be a report line that carries the name of an action of
    a well-formed mapping, the action's category not being ignored and no
    line before [line] carrying that name.  The injection pass completes,
    and the text it builds is the text built for the lines before, then
    [line], then at once the notes of the action in their stored order,
    each behind as many spaces as [line] has leading white-space
    characters (none when it has none), then the text of the lines after.
    When [_aggregate_report] returns, its result ends with that text. *)
Theorem notes_injected_after_matching_line
    (σ : Store) (d : dict_ref) (mapping : pydict)
    (before : list string) (line : string) (after : list string)
    (n : string) (r : action_ref) (a : DoneAction) :
  let report_lines := before ++ line :: after in
  let indent :=
    PyStr.repeat_char " " (PyStr.len (PyStr.take_while PyStr.isspace line)) in
  let block :=
    concat_strings ((fun note => indent +:+ note +:+ newline) <$> notes a) in
  dicts σ !! d = Some mapping ->
  well_formed (actions σ) mapping ->
  bold_name line = Some n ->
  Dict.lookup n mapping = Some r ->
  actions σ !! r = Some a ->
  category a ∉ IGNORED_CATEGORIES ->
  matched n before = false ->
  exists vars0 σ0 vars σ1 rest,
    injection_pass before d σ = (Ok vars0, σ0)
    /\ injection_pass report_lines d σ = (Ok vars, σ1)
    /\ ext_weekly_report vars
       = ext_weekly_report vars0 +:+ (line +:+ newline) +:+ block +:+ rest
    /\ forall out σ2,
         _aggregate_report report_lines d σ = (Ok out, σ2) ->
         exists overview_section,
           out = overview_section +:+ newline +:+ ext_weekly_report vars.
Proof.
  intros report_lines indent block Hd Hwf Hname Hmap Ha Hcat Hm.
  destruct (abs_inject_inv _ _ Hwf [] before mapping inject_init []
              (inject_inv_init _ _ Hwf))
    as (copy0 & vars0 & warns0 & Hpre & Hinv0).
  cbn [app] in Hinv0.
  destruct (inject_step_first _ _ Hwf before copy0 vars0 warns0 line Hinv0
              n r a Hname Hm Hmap Ha) as [Hstep Hinv1].
  rewrite bool_decide_eq_false_2 in Hstep, Hinv1 by done.
  match type of Hstep with _ = Ok (?c, ?v, ?w) =>
    destruct (abs_inject_inv _ _ Hwf (before ++ [line]) after c v w Hinv1)
      as (copy2 & vars2 & warns2 & Hpost & _)
  end.
  pose proof (abs_inject_grows _ _ _ _ _ _ _ _ Hpost) as [rest Hrest].
  cbn [ext_weekly_report] in Hrest.
  assert (Hall : abs_inject (actions σ) report_lines (mapping, inject_init, [])
                 = Ok (copy2, vars2, warns2)).
  { unfold report_lines. rewrite abs_inject_app, Hpre. cbn [abs_inject].
    by rewrite Hstep. }
  pose proof (injection_pass_run σ d mapping before Hd) as Hrun0.
  rewrite Hpre in Hrun0.
  pose proof (injection_pass_run σ d mapping report_lines Hd) as Hrun.
  rewrite Hall in Hrun.
  eexists vars0, _, vars2, _, rest. split; [exact Hrun0|].
  split; [exact Hrun|]. split.
  - rewrite Hrest. unfold block, indent.
    rewrite <- base_identation_spaces, <- notes_block_concat.
    by rewrite !string_app_assoc.
  - intros out σ2 Hagg.
    pose proof (aggregate_report_run σ d mapping report_lines Hd) as Hsim.
    unfold abs_aggregate in Hsim. rewrite Hall in Hsim.
    destruct (abs_action_tuples _ _) as [tuples|];
      [|destruct Hsim as [? Hsim]; congruence].
    destruct (abs_overview _ _ _ _) as [ov|];
      [|destruct Hsim as [? Hsim]; congruence].
    rewrite Hsim in Hagg. injection Hagg as <- _. by exists ov.
Qed.

(** ** A second line that carries the same name *)

(** C9.  Let two report lines carry the same name, a key of a
    well-formed mapping, [first] being the first line of the report that
    carries it.  The injection pass completes on the whole report; at
    [first] it appends the line and, unless the action's category is
    ignored, the notes of the action, and logs nothing; at [second] it
    appends the line alone and logs the duplicate warning.  The texts
    built at these points are beginnings of the text built on the whole
    report, which ends the result of [_aggregate_report] when it
    returns. *)
Theorem duplicate_report_line_warns
    (σ : Store) (d : dict_ref) (mapping : pydict)
    (before : list string) (first : string) (between : list string)
    (second : string) (after : list string)
    (n : string) (r : action_ref) (a : DoneAction) :
  let report_lines := before ++ first :: between ++ second :: after in
  let indent :=
    PyStr.repeat_char " " (PyStr.len (PyStr.take_while PyStr.isspace first)) in
  let block :=
    concat_strings ((fun note => indent +:+ note +:+ newline) <$> notes a) in
  dicts σ !! d = Some mapping ->
  well_formed (actions σ) mapping ->
  bold_name first = Some n ->
  bold_name second = Some n ->
  matched n before = false ->
  Dict.lookup n mapping = Some r ->
  actions σ !! r = Some a ->
  exists vars0 σ0 vars1 σ1 vars2 σ2 vars3 σ3 vars σ4,
    injection_pass before d σ = (Ok vars0, σ0)
    /\ injection_pass (before ++ [first]) d σ = (Ok vars1, σ1)
    /\ ext_weekly_report vars1
       = ext_weekly_report vars0 +:+ (first +:+ newline)
         +:+ (if bool_decide (category a ∈ IGNORED_CATEGORIES) then ""
              else block)
    /\ warnings σ1 = warnings σ0
    /\ injection_pass (before ++ first :: between) d σ = (Ok vars2, σ2)
    /\ injection_pass (before ++ first :: between ++ [second]) d σ
       = (Ok vars3, σ3)
    /\ ext_weekly_report vars3
       = ext_weekly_report vars2 +:+ (second +:+ newline)
    /\ warnings σ3 = warnings σ2 ++ [duplicate_warning n]
    /\ injection_pass report_lines d σ = (Ok vars, σ4)
    /\ (exists middle rest,
          ext_weekly_report vars2 = ext_weekly_report vars1 +:+ middle
          /\ ext_weekly_report vars = ext_weekly_report vars3 +:+ rest)
    /\ (forall out σ',
          _aggregate_report report_lines d σ = (Ok out, σ') ->
          exists overview_section,
            out = overview_section +:+ newline +:+ ext_weekly_report vars).
Proof.
  intros report_lines indent block Hd Hwf Hfirst Hsecond Hm Hmap Ha.
  destruct (abs_inject_inv _ _ Hwf [] before mapping inject_init []
              (inject_inv_init _ _ Hwf))
    as (copy0 & vars0 & warns0 & Hrun0 & Hinv0).
  cbn [app] in Hinv0.
  destruct (inject_step_first _ _ Hwf before copy0 vars0 warns0 first Hinv0
              n r a Hfirst Hm Hmap Ha) as [Hstep1 Hinv1].
  set (copy1 := if bool_decide (category a ∈ IGNORED_CATEGORIES) then copy0
                else Dict.remove n copy0) in *.
  match type of Hstep1 with _ = Ok (_, ?v, _) => set (vars1 := v) in * end.
  destruct (abs_inject_inv _ _ Hwf (before ++ [first]) between
              copy1 vars1 warns0 Hinv1)
    as (copy2 & vars2 & warns2 & Hrun2 & Hinv2).
  assert (Hm2 : matched n ((before ++ [first]) ++ between) = true).
  { rewrite !matched_app, matched_single, Hfirst.
    rewrite bool_decide_eq_true_2 by done. by rewrite orb_true_r. }
  destruct (inject_step_duplicate _ _ _ copy2 vars2 warns2 second Hinv2
              n Hsecond Hm2) as [Hstep3 Hinv3]; [by eexists|].
  match type of Hstep3 with _ = Ok (_, ?v, _) => set (vars3 := v) in * end.
  destruct (abs_inject_inv _ _ Hwf _ after copy2 vars3
              (warns2 ++ [duplicate_warning n]) Hinv3)
    as (copy4 & vars4 & warns4 & Hrun4 & _).
  assert (H1 : abs_inject (actions σ) (before ++ [first])
                 (mapping, inject_init, []) = Ok (copy1, vars1, warns0)).
  { rewrite abs_inject_app, Hrun0. cbn [abs_inject]. by rewrite Hstep1. }
  assert (H2 : abs_inject (actions σ) (before ++ first :: between)
                 (mapping, inject_init, []) = Ok (copy2, vars2, warns2)).
  { assert (E : before ++ first :: between = (before ++ [first]) ++ between).
    { rewrite <- app_assoc. by cbn [app]. }
    rewrite E, abs_inject_app, H1. exact Hrun2. }
  assert (H3 : abs_inject (actions σ) (before ++ first :: between ++ [second])
                 (mapping, inject_init, [])
               = Ok (copy2, vars3, warns2 ++ [duplicate_warning n])).
  { assert (E : before ++ first :: between ++ [second]
                = (before ++ first :: between) ++ [second]).
    { rewrite <- app_assoc. by cbn [app]. }
    rewrite E, abs_inject_app, H2. cbn [abs_inject]. by rewrite Hstep3. }
  assert (H4 : abs_inject (actions σ) report_lines (mapping, inject_init, [])
               = Ok (copy4, vars4, warns4)).
  { assert (E : report_lines
                = (before ++ first :: between ++ [second]) ++ after).
    { unfold report_lines. rewrite <- app_assoc. cbn [app].
      by rewrite <- app_assoc. }
    rewrite E, abs_inject_app, H3. exact Hrun4. }
  pose proof (injection_pass_run σ d mapping before Hd) as R0.
  rewrite Hrun0 in R0.
  pose proof (injection_pass_run σ d mapping (before ++ [first]) Hd) as R1.
  rewrite H1 in R1.
  pose proof (injection_pass_run σ d mapping (before ++ first :: between) Hd)
    as R2.
  rewrite H2 in R2.
  pose proof (injection_pass_run σ d mapping
                (before ++ first :: between ++ [second]) Hd) as R3.
  rewrite H3 in R3.
  pose proof (injection_pass_run σ d mapping report_lines Hd) as R4.
  rewrite H4 in R4.
  eexists vars0, _, vars1, _, vars2, _, vars3, _, vars4, _.
  split; [exact R0|]. split; [exact R1|]. split.
  { unfold vars1. cbn [ext_weekly_report]. unfold block, indent.
    rewrite <- base_identation_spaces, <- notes_block_concat.
    destruct (bool_decide (category a ∈ IGNORED_CATEGORIES)).
    - by rewrite string_app_nil_r.
    - by rewrite string_app_assoc. }
  split; [done|]. split; [exact R2|]. split; [exact R3|].
  split; [done|]. split; [simpl; by rewrite app_assoc|].
  split; [exact R4|]. split.
  - destruct (abs_inject_grows _ _ _ _ _ _ _ _ Hrun2) as [middle Hmiddle].
    destruct (abs_inject_grows _ _ _ _ _ _ _ _ Hrun4) as [rest Hrest].
    by exists middle, rest.
  - intros out σ' Hagg.
    pose proof (aggregate_report_run σ d mapping report_lines Hd) as Hsim.
    unfold abs_aggregate in Hsim. rewrite H4 in Hsim.
    destruct (abs_action_tuples _ _) as [tuples|];
      [|destruct Hsim as [? Hsim]; congruence].
    destruct (abs_overview _ _ _ _) as [ov|];
      [|destruct Hsim as [? Hsim]; congruence].
    rewrite Hsim in Hagg. injection Hagg as <- _. by exists ov.
Qed.

(** ** The overview section *)

Lemma sorted_insert_Permutation {A} (x : string * A) (xs : list (string * A)) :
  sorted_insert x xs ≡ₚ x :: xs.
Proof.
  induction xs as [|y xs IH]; simpl; [done|].
  destruct (PyStr.ltb x.1 y.1); [done|].
  rewrite IH. apply Permutation_swap.
Qed.

Lemma sorted_Permutation {A} (xs : list (string * A)) : sorted xs ≡ₚ xs.
Proof.
  unfold sorted.
  assert (H : forall acc, fold_left (fun acc x => sorted_insert x acc) xs acc
                          ≡ₚ acc ++ xs).
  { induction xs as [|x xs IH]; intros acc; cbn [fold_left].
    - by rewrite app_nil_r.
    - rewrite IH, sorted_insert_Permutation.
      by rewrite (Permutation_middle acc xs x). }
  apply H.
Qed.

Lemma abs_overview_entries acts copy items ov out :
  abs_overview acts copy items ov = Ok out ->
  exists entries : list (DoneAction * string),
    Forall2 (fun item e => acts !! item.2 = Some e.1
                           /\ action_weekdays e.1 = Ok e.2) items entries
    /\ out = ov +:+ concat_strings
               ((fun e => overview_text (tracked_tag copy e.1) e.1 e.2)
                <$> entries).
Proof.
  revert ov. induction items as [|item items IH]; intros ov;
    cbn [abs_overview].
  - intros [= <-]. exists []. split; [constructor|].
    by rewrite string_app_nil_r.
  - unfold abs_overview_entry.
    destruct (acts !! item.2) as [a|] eqn:Ha; [|done].
    destruct (action_weekdays a) as [wd|] eqn:Hwd; [|done].
    intros Hrest. destruct (IH _ Hrest) as (entries & Hall & ->).
    exists ((a, wd) :: entries). split; [by constructor|].
    cbn [fmap list_fmap concat_strings foldr fst snd].
    by rewrite string_app_assoc.
Qed.

Lemma abs_action_tuples_actions acts mapping tuples :
  abs_action_tuples acts (Dict.values mapping) = Ok tuples ->
  omap (fun item : string * action_ref => acts !! item.2) tuples
  = omap (fun kv : string * action_ref => acts !! kv.2) mapping
  /\ Forall (fun item => item.2 ∈ mapping.*2) tuples.
Proof.
  revert tuples. unfold Dict.values.
  induction mapping as [|[k r] mapping IH]; intros tuples;
    cbn [fmap list_fmap abs_action_tuples snd].
  - intros [= <-]. by split.
  - destruct (acts !! r) as [a|] eqn:Ha; [|done].
    destruct (abs_action_tuples acts mapping.*2) as [tuples'|]; [|done].
    intros [= <-]. destruct (IH _ eq_refl) as [IH1 IH2].
    cbn [omap list_omap snd]. rewrite Ha, IH1. split; [done|].
    constructor.
    + apply elem_of_cons. by left.
    + eapply Forall_impl; [exact IH2|]. intros item Hitem.
      apply elem_of_cons. by right.
Qed.

Lemma entries_actions (acts : list DoneAction)
    (items : list (string * action_ref))
    (entries : list (DoneAction * string)) :
  Forall2 (fun item e => acts !! item.2 = Some e.1
                         /\ action_weekdays e.1 = Ok e.2) items entries ->
  entries.*1 = omap (fun item : string * action_ref => acts !! item.2) items.
Proof.
  induction 1 as [|item e items entries [Ha _] _ IH]; [done|].
  cbn [fmap list_fmap omap list_omap]. by rewrite Ha, IH.
Qed.

(** The tag of an action of a well-formed mapping after the injection
    loop. *)
Lemma tracked_tag_consumed acts mapping lines copy used k r a :
  well_formed acts mapping ->
  inject_inv acts mapping lines copy used ->
  (k, r) ∈ mapping -> acts !! r = Some a ->
  tracked_tag copy a = if consumed lines a then TRACKED_TAG else "".
Proof.
  intros [Hnd Hlive] (_ & Hused & Hcopy) Hin Ha.
  destruct (Hlive k r Hin) as (a' & Ha' & Hname).
  assert (a' = a) as -> by congruence.
  pose proof (elem_lookup_Some _ _ _ Hnd Hin) as Hmap.
  unfold tracked_tag, consumed, Dict.mem. rewrite Hname, Hcopy.
  assert (Hdel : deletable acts mapping k
                 = bool_decide (category a ∉ IGNORED_CATEGORIES))
    by (unfold deletable; by rewrite Hmap, Ha).
  assert (Huse : bool_decide (k ∈ used) = matched k lines).
  { destruct (matched k lines) eqn:Hm.
    - apply bool_decide_eq_true. apply Hused. split; [done|by eexists].
    - apply bool_decide_eq_false. intros [Hm' _]%Hused. congruence. }
  rewrite Hdel, Huse, Hmap.
  by destruct (matched k lines && bool_decide (category a ∉ IGNORED_CATEGORIES)).
Qed.

(** C1, amended.  When [_aggregate_report] returns on a well-formed
    mapping, its result is the overview header, one entry for each action
    of the mapping, an empty line and the report with the injected notes.
    The entry of an action is its overview line followed by its notes, and
    the overview line carries [" (Tracked)"] if the action was consumed by
    the injection pass (some report line carries its name and its category
    is not ignored: it is no longer in the working copy), and no tag
    otherwise. *)
Theorem tracked_tag_iff_consumed
    (σ σ' : Store) (d : dict_ref) (mapping : pydict)
    (report_lines : list string) (out : string) :
  dicts σ !! d = Some mapping ->
  well_formed (actions σ) mapping ->
  _aggregate_report report_lines d σ = (Ok out, σ') ->
  exists (entries : list (DoneAction * string)) (body : string),
    out = overview_header
          +:+ concat_strings
                ((fun e =>
                    overview_text
                      (if consumed report_lines e.1 then TRACKED_TAG else "")
                      e.1 e.2) <$> entries)
          +:+ newline +:+ body
    /\ entries.*1 ≡ₚ omap (fun kv => actions σ !! kv.2) mapping
    /\ Forall (fun e => action_weekdays e.1 = Ok e.2) entries.
Proof.
  intros Hd Hwf Hagg.
  pose proof (aggregate_report_run σ d mapping report_lines Hd) as Hsim.
  unfold abs_aggregate in Hsim.
  destruct (abs_inject_inv _ _ Hwf [] report_lines mapping inject_init []
              (inject_inv_init _ _ Hwf))
    as (copy & vars & warns & Hinj & Hinv).
  cbn [app] in Hinv. rewrite Hinj in Hsim.
  destruct (abs_action_tuples _ _) as [tuples|] eqn:Htuples;
    [|destruct Hsim as [? Hsim]; congruence].
  destruct (abs_overview _ _ _ _) as [ov|] eqn:Hov;
    [|destruct Hsim as [? Hsim]; congruence].
  rewrite Hsim in Hagg. injection Hagg as <- _.
  destruct (abs_overview_entries _ _ _ _ _ Hov) as (entries & Hall & ->).
  destruct (abs_action_tuples_actions _ _ _ Htuples) as [Hacts Hrefs].
  exists entries, (ext_weekly_report vars). split; [|split].
  - rewrite !string_app_assoc. do 3 f_equal.
    apply Forall_fmap_ext_1.
    assert (Hsorted : Forall (fun item => item.2 ∈ mapping.*2) (sorted tuples)).
    { by rewrite sorted_Permutation. }
    clear -Hall Hsorted Hwf Hinv.
    induction Hall as [|item e items entries [Ha _] _ IH]; [constructor|].
    apply Forall_cons in Hsorted as [Hitem Hsorted].
    constructor; [|by apply IH].
    apply list_elem_of_fmap in Hitem as ([k r] & Hr & Hin). simpl in Hr.
    subst r. f_equal.
    by apply (tracked_tag_consumed _ _ _ _ _ k item.2 e.1 Hwf Hinv).
  - rewrite (entries_actions _ _ _ Hall), <- Hacts.
    by rewrite sorted_Permutation.
  - clear -Hall. induction Hall as [|item e items entries [_ Hw] _ IH];
      by constructor.
Qed.

(** ** The worked example and the mappings of the parser *)

Lemma fix_bug_store_well_formed :
  well_formed (actions fix_bug_store) [("Fix bug", 0)].
Proof.
  split.
  - apply NoDup_singleton.
  - intros k r Hin. apply list_elem_of_singleton in Hin.
    injection Hin as -> ->. by exists fix_bug_action.
Qed.

Lemma index_dict_keys (n0 : nat) (new : list DoneAction) :
  (index_dict n0 new).*1 = name <$> new.
Proof.
  revert n0. induction new as [|a new IH]; intros n0; [done|].
  cbn [fmap list_fmap index_dict fst]. f_equal. apply IH.
Qed.

(** The mapping the parser returns is well formed. *)
Lemma parser_mapping_well_formed (week_done_lines : list string)
    (σ0 σ : Store) (d : dict_ref) :
  _week_done_lines_to_dict week_done_lines σ0 = (Ok d, σ) ->
  exists mapping,
    dicts σ !! d = Some mapping /\ well_formed (actions σ) mapping.
Proof.
  intros Hret. pose proof (parser_run σ0 week_done_lines) as Hrun.
  destruct (abs_parse _ week_done_lines _) as [[new vars]|e].
  2:{ destruct Hrun as [new Hrun]. congruence. }
  destruct Hrun as [Hrun Hnd]. rewrite Hrun in Hret. injection Hret as <- <-.
  exists (index_dict (length (actions σ0)) new).
  split; [apply parser_store_dict|]. split.
  - by rewrite index_dict_keys.
  - intros k r Hin.
    destruct (elem_of_index_dict _ _ _ _ Hin) as (i & a & -> & Ha & Hname).
    exists a. by rewrite parser_store_action.
Qed.

Lemma notes_injected_after_matching_line_witness :
  exists vars0 σ0 vars σ1 rest,
    injection_pass ["# Week 01"; ""] 0 fix_bug_store = (Ok vars0, σ0)
    /\ injection_pass
         (["# Week 01"; ""] ++ "  - **Fix bug**  *(01:58)*" :: ["end"])
         0 fix_bug_store
       = (Ok vars, σ1)
    /\ ext_weekly_report vars
       = ext_weekly_report vars0
         +:+ ("  - **Fix bug**  *(01:58)*" +:+ newline)
         +:+ concat_strings
               ((fun note =>
                   PyStr.repeat_char " "
                     (PyStr.len
                        (PyStr.take_while PyStr.isspace
                           "  - **Fix bug**  *(01:58)*"))
                   +:+ note +:+ newline) <$> notes fix_bug_action)
         +:+ rest
    /\ forall out σ2,
         _aggregate_report
           (["# Week 01"; ""] ++ "  - **Fix bug**  *(01:58)*" :: ["end"])
           0 fix_bug_store
         = (Ok out, σ2) ->
         exists overview_section,
           out = overview_section +:+ newline +:+ ext_weekly_report vars.
Proof.
  apply (notes_injected_after_matching_line fix_bug_store 0
           [("Fix bug", 0)] ["# Week 01"; ""] "  - **Fix bug**  *(01:58)*"
           ["end"] "Fix bug" 0 fix_bug_action).
  - reflexivity.
  - apply fix_bug_store_well_formed.
  - vm_compute. reflexivity.
  - reflexivity.
  - reflexivity.
  - unfold IGNORED_CATEGORIES. rewrite elem_of_singleton. discriminate.
  - vm_compute. reflexivity.
Defined.

(** Beside the statement above: a name that is no key of the mapping never
    enters [used_action_names], so a second line that carries it logs
    nothing; and the notes of an action stand in the overview as well as
    under the first report line that carries its name. *)
Lemma duplicate_of_unknown_name_not_warned :
  bold_name "- **Task X**" = Some "Task X"
  /\ _aggregate_report ["- **Task X**"; "- **Task X**"] 0 empty_mapping_store
     = (Ok ("## Overview" +:+ newline +:+ newline
            +:+ "- **Task X**" +:+ newline +:+ "- **Task X**" +:+ newline),
        {| actions := []; dicts := [[]; []]; warnings := [] |})
  /\ (_aggregate_report
        (fix_bug_report_lines ++ fix_bug_report_lines) 0 fix_bug_store).1
     = Ok ("## Overview" +:+ newline
           +:+ "- Monday - Fix bug (Tracked)" +:+ newline
           +:+ "    - took 2 hours" +:+ newline
           +:+ newline
           +:+ "- **Fix bug**  *(01:58)* <!--01/01 Mon-->" +:+ newline
           +:+ "    - took 2 hours" +:+ newline
           +:+ "- **Fix bug**  *(01:58)* <!--01/01 Mon-->" +:+ newline).
Proof. by vm_compute. Qed.

Lemma duplicate_report_line_warns_witness :
  exists vars0 σ0 vars1 σ1 vars2 σ2 vars3 σ3 vars σ4,
    injection_pass ["# Week 01"] 0 fix_bug_store = (Ok vars0, σ0)
    /\ injection_pass (["# Week 01"] ++ ["- **Fix bug** a"]) 0 fix_bug_store
       = (Ok vars1, σ1)
    /\ ext_weekly_report vars1
       = ext_weekly_report vars0 +:+ ("- **Fix bug** a" +:+ newline)
         +:+ (if bool_decide (category fix_bug_action ∈ IGNORED_CATEGORIES)
              then ""
              else concat_strings
                     ((fun note =>
                         PyStr.repeat_char " "
                           (PyStr.len
                              (PyStr.take_while PyStr.isspace
                                 "- **Fix bug** a"))
                         +:+ note +:+ newline) <$> notes fix_bug_action))
    /\ warnings σ1 = warnings σ0
    /\ injection_pass (["# Week 01"] ++ "- **Fix bug** a" :: [""]) 0
         fix_bug_store
       = (Ok vars2, σ2)
    /\ injection_pass
         (["# Week 01"] ++ "- **Fix bug** a" :: [""] ++ ["- **Fix bug** b"])
         0 fix_bug_store
       = (Ok vars3, σ3)
    /\ ext_weekly_report vars3
       = ext_weekly_report vars2 +:+ ("- **Fix bug** b" +:+ newline)
    /\ warnings σ3 = warnings σ2 ++ [duplicate_warning "Fix bug"]
    /\ injection_pass
         (["# Week 01"] ++ "- **Fix bug** a" :: [""]
          ++ "- **Fix bug** b" :: ["end"]) 0 fix_bug_store
       = (Ok vars, σ4)
    /\ (exists middle rest,
          ext_weekly_report vars2 = ext_weekly_report vars1 +:+ middle
          /\ ext_weekly_report vars = ext_weekly_report vars3 +:+ rest)
    /\ (forall out σ',
          _aggregate_report
            (["# Week 01"] ++ "- **Fix bug** a" :: [""]
             ++ "- **Fix bug** b" :: ["end"]) 0 fix_bug_store
          = (Ok out, σ') ->
          exists overview_section,
            out = overview_section +:+ newline +:+ ext_weekly_report vars).
Proof.
  apply (duplicate_report_line_warns fix_bug_store 0 [("Fix bug", 0)]
           ["# Week 01"] "- **Fix bug** a" [""] "- **Fix bug** b" ["end"]
           "Fix bug" 0 fix_bug_action).
  - reflexivity.
  - apply fix_bug_store_well_formed.
  - vm_compute. reflexivity.
  - vm_compute. reflexivity.
  - vm_compute. reflexivity.
  - reflexivity.
  - reflexivity.
Defined.

(** C1 fails as stated, in both directions: the action of the example is
    tagged when a report line carries its name, and is not tagged when no
    report line does. *)
Lemma tracked_tag_marks_matched_actions :
  matched "Fix bug" fix_bug_report_lines = true
  /\ (_aggregate_report fix_bug_report_lines 0 fix_bug_store).1
     = Ok ("## Overview" +:+ newline
           +:+ "- Monday - Fix bug (Tracked)" +:+ newline
           +:+ "    - took 2 hours" +:+ newline
           +:+ newline
           +:+ "- **Fix bug**  *(01:58)* <!--01/01 Mon-->" +:+ newline
           +:+ "    - took 2 hours" +:+ newline)
  /\ matched "Fix bug" ["# Week 01"] = false
  /\ (_aggregate_report ["# Week 01"] 0 fix_bug_store).1
     = Ok ("## Overview" +:+ newline
           +:+ "- Monday - Fix bug" +:+ newline
           +:+ "    - took 2 hours" +:+ newline
           +:+ newline
           +:+ "# Week 01" +:+ newline).
Proof. by vm_compute. Qed.

Lemma tracked_tag_iff_consumed_witness :
  exists (entries : list (DoneAction * string)) (body : string),
    fix_bug_output
    = overview_header
      +:+ concat_strings
            ((fun e =>
                overview_text
                  (if consumed fix_bug_report_lines e.1 then TRACKED_TAG
                   else "")
                  e.1 e.2) <$> entries)
      +:+ newline +:+ body
    /\ entries.*1
       ≡ₚ omap (fun kv => actions fix_bug_store !! kv.2) [("Fix bug", 0)]
    /\ Forall (fun e => action_weekdays e.1 = Ok e.2) entries.
Proof.
  apply (tracked_tag_iff_consumed fix_bug_store
           (_aggregate_report fix_bug_report_lines 0 fix_bug_store).2
           0 [("Fix bug", 0)] fix_bug_report_lines fix_bug_output).
  - reflexivity.
  - apply fix_bug_store_well_formed.
  - vm_compute. reflexivity.
Defined.

(** ** The worked example, end to end *)

(** C3 fails as stated: the overview entry of the example is tagged, so
    the line ["- Monday - Fix bug"] followed by the note is nowhere in the
    output. *)
Lemma fix_bug_overview_entry_is_tagged :
  exists out σ,
    main_core fix_bug_done_lines fix_bug_report_lines 1 empty_store
    = (Ok out, σ)
    /\ PyStr.contains
         ("- Monday - Fix bug" +:+ newline +:+ "    - took 2 hours") out
       = false
    /\ PyStr.contains
         ("- Monday - Fix bug (Tracked)" +:+ newline
          +:+ "    - took 2 hours") out
       = true.
Proof. eexists _, _. split; [by vm_compute|]. by vm_compute. Qed.

(** C3, amended.  On the example the core returns the overview header, the
    entry ["- Monday - Fix bug (Tracked)"] followed by the note, an empty
    line, and the report line followed at once by the note. *)
Theorem fix_bug_end_to_end :
  _extract_week_done_lines fix_bug_done_lines 1
  = ["#### 01/01 Monday"; "- Fix bug"; "    - took 2 hours"]
  /\ _week_done_lines_to_dict
       (_extract_week_done_lines fix_bug_done_lines 1) empty_store
     = (Ok 0, fix_bug_store)
  /\ (main_core fix_bug_done_lines fix_bug_report_lines 1 empty_store).1
     = Ok fix_bug_output.
Proof. by vm_compute. Qed.

(** ** Inputs on which the core raises *)

(** C2 does not hold of the code: a day header that names no day of the
    week makes the parser raise [ValueError] ([WEEKDAYS.index]); and for an
    action line seen before any day header and again under one the parser
    returns [weekday_nums = ", 0"], on which the aggregator raises
    [ValueError] ([int] of the empty string). *)
Theorem core_raises_on_shape_anomalies :
  (_week_done_lines_to_dict ["#### 01/01 Funday"; "- A"] empty_store).1
  = Raise ValueError
  /\ _week_done_lines_to_dict ["- A"; "#### 01/01 Monday"; "- A"] empty_store
     = (Ok 0,
        {| actions :=
             [ {| identation_width := 0; name := "A"; category := "";
                  weekday_nums := ", 0"; notes := [] |} ];
           dicts := [[("A", 0)]]; warnings := [] |})
  /\ (main_core ["### Week 01"; "- A"; "#### 01/01 Monday"; "- A"] [] 1
        empty_store).1
     = Raise ValueError
  /\ (main_core ["### Week 01"; "#### 01/01 Funday"; "- A"] [] 1
        empty_store).1
     = Raise ValueError.
Proof. by vm_compute. Qed.

(** * Further properties *)

(** ** When the parser returns *)

Lemma list_index_from_not_elem (l : list string) (x : string) (i : nat) :
  x ∉ l -> list_index_from l x i = Raise ValueError.
Proof.
  revert i. induction l as [|y l IH]; intros i Hx; [done|]. simpl.
  apply not_elem_of_cons in Hx as [Hxy Hx].
  destruct (PyStr.eqb y x) eqn:E; [|by apply IH].
  apply pystr_eqb_eq in E. congruence.
Qed.

Lemma abs_parse_line_outcome n0 line new vars :
  parser_ok n0 new vars ->
  (valid_day_header line
   /\ exists s', abs_parse_line n0 line (new, vars) = Ok s')
  \/ (~ valid_day_header line
      /\ abs_parse_line n0 line (new, vars) = Raise ValueError).
Proof.
  intros Hok.
  assert (Hdec : valid_day_header line \/ ~ valid_day_header line).
  { unfold valid_day_header. destruct (classify line); try by left.
    destruct (decide (weekday ∈ WEEKDAYS)); [by left|by right]. }
  destruct Hdec as [Hv|Hv].
  - left. split; [done|]. by apply abs_parse_line_total.
  - right. split; [done|]. unfold valid_day_header in Hv.
    unfold abs_parse_line.
    destruct (classify line) as [|weekday|c|k|]; try (by exfalso; apply Hv).
    unfold list_index. by rewrite list_index_from_not_elem.
Qed.

Lemma abs_parse_outcome σ0 lines new vars :
  parser_ok (length (actions σ0)) new vars ->
  (Forall valid_day_header lines
   /\ exists s', abs_parse (length (actions σ0)) lines (new, vars) = Ok s')
  \/ (~ Forall valid_day_header lines
      /\ abs_parse (length (actions σ0)) lines (new, vars) = Raise ValueError).
Proof.
  revert new vars. induction lines as [|line lines IH]; intros new vars Hok;
    cbn [abs_parse].
  - left. split; [constructor|by eexists].
  - destruct (abs_parse_line_outcome _ line new vars Hok)
      as [[Hv [[new1 vars1] Hs]]|[Hv Hs]]; rewrite Hs.
    + pose proof (parse_line_sim σ0 new vars line Hok) as Hsim.
      cbv zeta in Hsim. rewrite Hs in Hsim. destruct Hsim as [_ Hok1].
      destruct (IH new1 vars1 Hok1) as [[Hall Hrest]|[Hall Hrest]].
      * left. split; [by constructor|done].
      * right. split; [|done]. intros Hc. apply Hall.
        by apply Forall_cons in Hc as [_ ?].
    + right. split; [|done]. intros Hc. apply Hv.
      by apply Forall_cons in Hc as [? _].
Qed.

(** X1.  The parser returns a mapping exactly when every day header of the
    week names a day of the week; when it raises, it raises [ValueError]. *)
Theorem parser_returns_iff_day_headers_valid
    (week_done_lines : list string) (σ0 : Store) :
  (Forall valid_day_header week_done_lines
   <-> exists d σ, _week_done_lines_to_dict week_done_lines σ0 = (Ok d, σ))
  /\ (forall e σ,
        _week_done_lines_to_dict week_done_lines σ0 = (Raise e, σ) ->
        e = ValueError).
Proof.
  assert (Hok : parser_ok (length (actions σ0)) [] parser_init)
    by (split; [constructor|done]).
  pose proof (parser_run σ0 week_done_lines) as Hrun.
  destruct (abs_parse_outcome σ0 week_done_lines [] parser_init Hok)
    as [[Hall [[new vars] Habs]]|[Hall Habs]]; rewrite Habs in Hrun.
  - destruct Hrun as [Hrun _]. split.
    + split; [intros _; by eexists _, _|done].
    + intros e σ He. congruence.
  - destruct Hrun as [new Hrun]. split.
    + split; [done|]. intros (d & σ & Hret). congruence.
    + intros e σ He. congruence.
Qed.

(** ** What the parser does to the store *)

(** X2.  Whether it returns or raises, the parser leaves every object and
    every dict of the store it started from as it was and logs nothing:
    the store it ends in has the new actions behind the old ones and one
    new dict behind the old ones. *)
Theorem parser_extends_store (week_done_lines : list string) (σ0 : Store) :
  let σ := (_week_done_lines_to_dict week_done_lines σ0).2 in
  exists new mapping,
    actions σ = actions σ0 ++ new
    /\ dicts σ = dicts σ0 ++ [mapping]
    /\ warnings σ = warnings σ0.
Proof.
  simpl. pose proof (parser_run σ0 week_done_lines) as Hrun.
  destruct (abs_parse _ week_done_lines _) as [[new vars]|e].
  - destruct Hrun as [-> _]. by eexists _, _.
  - destruct Hrun as [new ->]. by eexists _, _.
Qed.

Lemma index_dict_values (n0 : nat) (new : list DoneAction) :
  (index_dict n0 new).*2 = seq n0 (length new).
Proof.
  revert n0. induction new as [|a new IH]; intros n0; [done|].
  cbn [fmap list_fmap index_dict snd length seq]. f_equal. apply IH.
Qed.

(** X3.  The mapping the parser returns is at a new reference; its keys are
    pairwise distinct, each key is bound to a live action whose [name] is
    the key, and it binds every action the parser has created, in the
    order of their creation. *)
Theorem parser_mapping_invariants (week_done_lines : list string)
    (σ0 σ : Store) (d : dict_ref) :
  _week_done_lines_to_dict week_done_lines σ0 = (Ok d, σ) ->
  d = length (dicts σ0)
  /\ exists mapping,
       dicts σ !! d = Some mapping
       /\ NoDup mapping.*1
       /\ (forall k r, (k, r) ∈ mapping ->
             exists a, actions σ !! r = Some a /\ name a = k)
       /\ mapping.*2
          = seq (length (actions σ0))
                (length (actions σ) - length (actions σ0)).
Proof.
  intros Hret. pose proof (parser_run σ0 week_done_lines) as Hrun.
  destruct (abs_parse _ week_done_lines _) as [[new vars]|e].
  2:{ destruct Hrun as [new Hrun]. congruence. }
  destruct Hrun as [Hrun Hnd]. rewrite Hrun in Hret. injection Hret as <- <-.
  split; [done|].
  exists (index_dict (length (actions σ0)) new).
  split; [apply parser_store_dict|]. split; [by rewrite index_dict_keys|].
  split.
  - intros k r Hin.
    destruct (elem_of_index_dict _ _ _ _ Hin) as (i & a & -> & Ha & Hname).
    exists a. by rewrite parser_store_action.
  - rewrite index_dict_values. simpl. rewrite length_app. f_equal. lia.
Qed.

Lemma parser_mapping_invariants_witness :
  0 = length (dicts empty_store)
  /\ exists mapping,
       dicts fix_bug_store !! 0 = Some mapping
       /\ NoDup mapping.*1
       /\ (forall k r, (k, r) ∈ mapping ->
             exists a, actions fix_bug_store !! r = Some a /\ name a = k)
       /\ mapping.*2
          = seq (length (actions empty_store))
                (length (actions fix_bug_store) - length (actions empty_store)).
Proof.
  apply (parser_mapping_invariants
           ["#### 01/01 Monday"; "- Fix bug"; "    - took 2 hours"]
           empty_store fix_bug_store 0).
  vm_compute. reflexivity.
Defined.

(** ** Blank lines *)

Lemma for_each_app {A S} (xs ys : list A) (body : A -> S -> M S) (acc : S)
    (σ : Store) :
  for_each (xs ++ ys) body acc σ
  = match for_each xs body acc σ with
    | (Ok acc', σ') => for_each ys body acc' σ'
    | (Raise e, σ') => (Raise e, σ')
    end.
Proof.
  revert acc σ. induction xs as [|x xs IH]; intros acc σ;
    cbn [app for_each]; [done|].
  rewrite !bind_run. destruct (body x acc σ) as [[acc1|e] σ1]; [apply IH|done].
Qed.

(** X4.  A line that is empty once its leading dashes and spaces and its
    white space are stripped is skipped: the parser returns the same result
    and the same store with the line as without it. *)
Theorem parser_skips_blank_lines (before after : list string)
    (blank : string) (σ0 : Store) :
  PyStr.strip (PyStr.lstrip_chars "- " blank) = "" ->
  _week_done_lines_to_dict (before ++ blank :: after) σ0
  = _week_done_lines_to_dict (before ++ after) σ0.
Proof.
  intros Hblank. unfold _week_done_lines_to_dict.
  rewrite !bind_run. destruct (Py.dict_new σ0) as [[d|e] σ1]; [|done].
  rewrite !bind_run, !for_each_app.
  destruct (for_each before (parse_line d) _ σ1) as [[vars|e] σ2]; [|done].
  cbn [for_each]. rewrite bind_run.
  assert (Hline : parse_line d blank vars σ2 = (Ok vars, σ2)).
  { unfold parse_line. by rewrite Hblank. }
  by rewrite Hline.
Qed.

Lemma parser_skips_blank_lines_witness :
  _week_done_lines_to_dict
    (["#### 01/01 Monday"; "- Fix bug"] ++ " - -  " :: ["    - took 2 hours"])
    empty_store
  = _week_done_lines_to_dict
      (["#### 01/01 Monday"; "- Fix bug"] ++ ["    - took 2 hours"])
      empty_store.
Proof.
  apply (parser_skips_blank_lines ["#### 01/01 Monday"; "- Fix bug"]
           ["    - took 2 hours"] " - -  " empty_store).
  vm_compute. reflexivity.
Defined.

(** ** The keys of the parser's mapping *)

Lemma find_action_elem k new i :
  find_action k new = Some i -> k ∈ name <$> new.
Proof.
  intros H. destruct (find_action_Some _ _ _ H) as (a & Ha & <-).
  apply list_elem_of_fmap. exists a. split; [done|].
  by eapply list_elem_of_lookup_2.
Qed.

Lemma names_step n0 line new vars new' vars' :
  abs_parse_line n0 line (new, vars) = Ok (new', vars') ->
  name <$> new'
  = match action_line_name line with
    | Some k => note_name (name <$> new) k
    | None => name <$> new
    end.
Proof.
  unfold abs_parse_line, action_line_name. intros Hstep.
  destruct (classify line) as [|weekday|c|k|].
  - by injection Hstep as <- <-.
  - destruct (list_index WEEKDAYS weekday); [|done].
    by injection Hstep as <- <-.
  - by injection Hstep as <- <-.
  - unfold note_name. destruct (find_action k new) as [i|] eqn:Hfind.
    + destruct (new !! i) as [a|] eqn:Hi; [|done].
      injection Hstep as <- <-.
      rewrite bool_decide_eq_true_2 by (by eapply find_action_elem).
      destruct (negb _); [|done]. by apply (names_insert _ _ a).
    + injection Hstep as <- <-.
      rewrite bool_decide_eq_false_2 by (by apply find_action_None).
      by rewrite fmap_app.
  - destruct (active_key vars) as [r|].
    + destruct (new !! (r - n0)) as [a|] eqn:Hi; [|done].
      injection Hstep as <- <-. by apply (names_insert _ _ a).
    + by injection Hstep as <- <-.
Qed.

Lemma names_parse n0 lines new vars new' vars' :
  abs_parse n0 lines (new, vars) = Ok (new', vars') ->
  name <$> new'
  = fold_left note_name (omap action_line_name lines) (name <$> new).
Proof.
  revert new vars. induction lines as [|line lines IH]; intros new vars;
    cbn [abs_parse omap list_omap].
  - by intros [= <- <-].
  - destruct (abs_parse_line n0 line (new, vars)) as [[new1 vars1]|e]
      eqn:Hstep; [|done].
    intros Hrest. rewrite (IH _ _ Hrest), (names_step _ _ _ _ _ _ Hstep).
    by destruct (action_line_name line).
Qed.

(** X5.  The keys of the mapping the parser returns are the names of the
    top-level action lines of the week, each once, in the order in which
    they first appear. *)
Theorem parser_keys_in_order_of_appearance (week_done_lines : list string)
    (σ0 σ : Store) (d : dict_ref) :
  _week_done_lines_to_dict week_done_lines σ0 = (Ok d, σ) ->
  exists mapping,
    dicts σ !! d = Some mapping
    /\ mapping.*1 = first_names (omap action_line_name week_done_lines).
Proof.
  intros Hret. pose proof (parser_run σ0 week_done_lines) as Hrun.
  destruct (abs_parse _ week_done_lines _) as [[new vars]|e] eqn:Habs.
  2:{ destruct Hrun as [new Hrun]. congruence. }
  destruct Hrun as [Hrun _]. rewrite Hrun in Hret. injection Hret as <- <-.
  exists (index_dict (length (actions σ0)) new).
  split; [apply parser_store_dict|].
  by rewrite index_dict_keys, (names_parse _ _ _ _ _ _ Habs).
Qed.

Lemma parser_keys_in_order_of_appearance_witness :
  exists mapping,
    dicts (_week_done_lines_to_dict
             ["- B"; "#### 01/01 Monday"; "- A"; "  note"; "- B"; "- A"]
             empty_store).2 !! 0 = Some mapping
    /\ mapping.*1 = ["B"; "A"].
Proof.
  apply (parser_keys_in_order_of_appearance
           ["- B"; "#### 01/01 Monday"; "- A"; "  note"; "- B"; "- A"]
           empty_store).
  vm_compute. reflexivity.
Defined.

(** ** The notes of the parser's actions *)

Lemma notes_step action_name n0 line new vars new' vars' active acc :
  parser_ok n0 new vars -> Forall top_level new ->
  abs_parse_line n0 line (new, vars) = Ok (new', vars') ->
  notes_recorded action_name n0 new vars active acc ->
  notes_recorded action_name n0 new' vars' (active_after line active)
    (acc ++ note_under action_name line active).
Proof.
  intros [Hnd Hact] Htop Hstep [Hactive Hnotes].
  unfold abs_parse_line in Hstep. unfold active_after, note_under.
  unfold notes_recorded.
  destruct (classify line) as [|weekday|c|k|].
  - injection Hstep as <- <-. by rewrite app_nil_r.
  - destruct (list_index WEEKDAYS weekday); [|done].
    injection Hstep as <- <-. rewrite app_nil_r. cbn [active_key].
    split; [done|]. destruct (find_action action_name new); [done|].
    by destruct Hnotes as [-> _].
  - injection Hstep as <- <-. rewrite app_nil_r. cbn [active_key].
    split; [done|]. destruct (find_action action_name new); [done|].
    by destruct Hnotes as [-> _].
  - rewrite app_nil_r. destruct (find_action k new) as [i|] eqn:Hfind.
    + destruct (new !! i) as [a|] eqn:Hi; [|done].
      injection Hstep as <- <-. cbn [active_key].
      destruct (find_action_Some _ _ _ Hfind) as (a0 & Hi0 & Hname).
      assert (a0 = a) as -> by congruence.
      replace (n0 + i - n0) with i by lia.
      assert (Hnew : forall new1,
        new1 = new \/ new1 = <[i := Py.with_weekday_nums
                 (weekday_nums a +:+ ", "
                  +:+ str_weekday_num (weekday_num vars)) a]> new ->
        (exists b, new1 !! i = Some b /\ Some k = Some (name b))
        /\ match find_action action_name new1 with
           | Some j => exists b, new1 !! j = Some b /\ notes b = acc
           | None => acc = [] /\ Some k <> Some action_name
           end).
      { intros new1 [->| ->].
        - split; [exists a; by rewrite Hname|].
          destruct (find_action action_name new) eqn:Hf; [done|].
          split; [by destruct Hnotes|]. intros [= ->]. congruence.
        - split.
          { eexists. rewrite list_lookup_insert_eq by (by eapply lookup_lt_Some).
            split; [done|]. by rewrite <- Hname. }
          rewrite (find_action_insert _ _ _ _ _ Hi) by done.
          destruct (find_action action_name new) as [j|] eqn:Hf.
          + destruct Hnotes as (b & Hb & Hacc).
            destruct (decide (j = i)) as [->|Hji].
            * eexists. rewrite list_lookup_insert_eq
                by (by eapply lookup_lt_Some).
              split; [done|]. assert (b = a) as -> by congruence. done.
            * exists b. by rewrite list_lookup_insert_ne.
          + split; [by destruct Hnotes|]. intros [= ->]. congruence. }
      destruct (negb _); apply Hnew; auto.
    + injection Hstep as <- <-. cbn [active_key].
      replace (n0 + length new - n0) with (length new) by lia. split.
      { eexists. rewrite lookup_app_r, Nat.sub_diag by done. by split. }
      rewrite find_action_app. cbn [name].
      destruct (find_action action_name new) as [j|] eqn:Hf.
      * destruct Hnotes as (b & Hb & Hacc). exists b.
        split; [by apply lookup_app_l_Some|done].
      * destruct Hnotes as [-> _].
        destruct (PyStr.eqb k action_name) eqn:E.
        -- eexists. rewrite lookup_app_r, Nat.sub_diag by done. by split.
        -- split; [done|]. intros [= ->]. by rewrite pystr_eqb_refl in E.
  - destruct (active_key vars) as [r|] eqn:Hkey.
    + destruct (new !! (r - n0)) as [a|] eqn:Hi; [|done].
      injection Hstep as <- <-. rewrite Hkey.
      destruct Hactive as (a' & Ha' & ->).
      assert (a' = a) as -> by congruence.
      assert (Hwidth : identation_width a = 0)
        by (by destruct (Forall_lookup_1 _ _ _ _ Htop Hi)).
      rewrite Hwidth. cbn [PyStr.slice_from].
      split.
      { eexists. rewrite list_lookup_insert_eq by (by eapply lookup_lt_Some).
        by split. }
      rewrite (find_action_insert _ _ _ _ _ Hi) by done.
      pose proof (find_action_NoDup new _ a Hnd Hi) as Hself.
      destruct (find_action action_name new) as [j|] eqn:Hf.
      * destruct Hnotes as (b & Hb & Hacc).
        destruct (find_action_Some _ _ _ Hf) as (b' & Hb' & Hbname).
        assert (b' = b) as -> by congruence.
        case_bool_decide as Hcase.
        -- injection Hcase as Hcase. rewrite Hcase, Hf in Hself.
           injection Hself as ->. assert (b = a) as -> by congruence.
           eexists. rewrite list_lookup_insert_eq
             by (by eapply lookup_lt_Some).
           split; [done|]. cbn [notes Py.with_note]. by rewrite Hacc.
        -- rewrite app_nil_r. exists b. split; [|done].
           rewrite list_lookup_insert_ne; [done|]. intros <-.
           apply Hcase. f_equal. congruence.
      * destruct Hnotes as [-> Hne].
        rewrite bool_decide_eq_false_2 by done. by split.
    + injection Hstep as <- <-. rewrite Hkey. subst active.
      rewrite bool_decide_eq_false_2 by done. rewrite app_nil_r.
      by split.
Qed.

Lemma notes_parse action_name σ0 lines new vars new' vars' active acc :
  parser_ok (length (actions σ0)) new vars -> Forall top_level new ->
  abs_parse (length (actions σ0)) lines (new, vars) = Ok (new', vars') ->
  notes_recorded action_name (length (actions σ0)) new vars active acc ->
  exists active',
    notes_recorded action_name (length (actions σ0)) new' vars' active'
      (acc ++ notes_under action_name lines active).
Proof.
  revert new vars active acc.
  induction lines as [|line lines IH]; intros new vars active acc Hok Htop;
    cbn [abs_parse notes_under].
  - intros [= <- <-] Hrec. exists active. by rewrite app_nil_r.
  - destruct (abs_parse_line _ line (new, vars)) as [[new1 vars1]|e]
      eqn:Hstep; [|done].
    intros Hrest Hrec.
    pose proof (parse_line_sim σ0 new vars line Hok) as Hsim.
    cbv zeta in Hsim. rewrite Hstep in Hsim. destruct Hsim as [_ Hok1].
    pose proof (abs_parse_line_top_level _ _ _ _ _ _ Hstep Htop) as Htop1.
    pose proof (notes_step action_name _ _ _ _ _ _ _ _ Hok Htop Hstep Hrec)
      as Hrec1.
    destruct (IH _ _ _ _ Hok1 Htop1 Hrest Hrec1) as [active' Hfinal].
    exists active'. by rewrite app_assoc.
Qed.

(** X6.  The notes of each action of the mapping the parser returns are the
    indented lines that follow a top-level line of the action, up to the
    next top-level action line, day header or category line; they are
    stored whole, with their indentation, in the order of the week. *)
Theorem parser_notes_are_the_lines_under_the_action
    (week_done_lines : list string) (σ0 σ : Store) (d : dict_ref) :
  _week_done_lines_to_dict week_done_lines σ0 = (Ok d, σ) ->
  exists mapping,
    dicts σ !! d = Some mapping
    /\ forall k r, (k, r) ∈ mapping ->
         exists a, actions σ !! r = Some a
                   /\ notes a = notes_under k week_done_lines None.
Proof.
  intros Hret. pose proof (parser_run σ0 week_done_lines) as Hrun.
  destruct (abs_parse _ week_done_lines _) as [[new vars]|e] eqn:Habs.
  2:{ destruct Hrun as [new Hrun]. congruence. }
  destruct Hrun as [Hrun Hnd]. rewrite Hrun in Hret. injection Hret as <- <-.
  exists (index_dict (length (actions σ0)) new).
  split; [apply parser_store_dict|]. intros k r Hin.
  destruct (elem_of_index_dict _ _ _ _ Hin) as (i & a & -> & Ha & Hname).
  exists a. split; [by rewrite parser_store_action|].
  assert (Hok : parser_ok (length (actions σ0)) [] parser_init)
    by (split; [constructor|done]).
  assert (Hinit : notes_recorded k (length (actions σ0)) [] parser_init None []).
  { by split. }
  destruct (notes_parse k σ0 _ _ _ _ _ _ _ Hok ltac:(constructor) Habs Hinit)
    as [active' [_ Hrec]].
  pose proof (find_action_NoDup new i a Hnd Ha) as Hself.
  rewrite Hname in Hself. rewrite Hself in Hrec.
  destruct Hrec as (b & Hb & Hnotes). cbn [app] in Hnotes. congruence.
Qed.

Lemma parser_notes_are_the_lines_under_the_action_witness :
  exists mapping,
    dicts (_week_done_lines_to_dict
             ["#### 01/01 Monday"; "- A"; "  n1"; ""; "    n2"; "- Work";
              "  dropped"; "- B"; "- A"; "  n3"]
             empty_store).2 !! 0 = Some mapping
    /\ forall k r, (k, r) ∈ mapping ->
         exists a,
           actions (_week_done_lines_to_dict
                      ["#### 01/01 Monday"; "- A"; "  n1"; ""; "    n2";
                       "- Work"; "  dropped"; "- B"; "- A"; "  n3"]
                      empty_store).2 !! r = Some a
           /\ notes a
              = notes_under k
                  ["#### 01/01 Monday"; "- A"; "  n1"; ""; "    n2"; "- Work";
                   "  dropped"; "- B"; "- A"; "  n3"] None.
Proof.
  apply (parser_notes_are_the_lines_under_the_action
           ["#### 01/01 Monday"; "- A"; "  n1"; ""; "    n2"; "- Work";
            "  dropped"; "- B"; "- A"; "  n3"] empty_store).
  vm_compute. reflexivity.
Defined.

(** ** What the injection pass writes *)

Lemma remove_subseteq (d : pydict) (k : string) (x : string * action_ref) :
  x ∈ Dict.remove k d -> x ∈ d.
Proof.
  induction d as [|[k' r'] d IH]; simpl; [done|].
  destruct (PyStr.eqb k' k).
  - intros H. apply elem_of_cons. by right.
  - rewrite !elem_of_cons. intros [->|H]; [by left|right; by apply IH].
Qed.

Lemma abs_inject_line_chunk acts mapping line copy vars warns copy' vars'
    warns' :
  (forall x, x ∈ copy -> x ∈ mapping) ->
  abs_inject_line acts line (copy, vars, warns) = Ok (copy', vars', warns') ->
  (forall x, x ∈ copy' -> x ∈ mapping)
  /\ exists injected,
       injected_under acts mapping line injected
       /\ ext_weekly_report vars'
          = ext_weekly_report vars +:+ (line +:+ newline +:+ injected).
Proof.
  intros Hsub. unfold abs_inject_line.
  assert (Hplain : forall (c : pydict) (v : InjectVars) (w : list string),
    (forall x, x ∈ c -> x ∈ mapping) ->
    ext_weekly_report v = ext_weekly_report vars +:+ (line +:+ newline) ->
    (forall x, x ∈ c -> x ∈ mapping)
    /\ exists injected,
         injected_under acts mapping line injected
         /\ ext_weekly_report v
            = ext_weekly_report vars +:+ (line +:+ newline +:+ injected)).
  { intros c v w Hc Hv. split; [done|]. exists "". split; [by left|].
    by rewrite Hv, string_app_nil_r. }
  destruct (bold_name line) as [n|] eqn:Hname.
  2:{ intros [= <- <- <-]. by apply (Hplain copy _ warns). }
  case_bool_decide.
  { intros [= <- <- <-]. by apply (Hplain copy _ warns). }
  destruct (Dict.lookup n copy) as [r|] eqn:Hlook.
  2:{ intros [= <- <- <-]. by apply (Hplain copy _ warns). }
  destruct (acts !! r) as [a|] eqn:Ha; [|done].
  case_bool_decide as Hcat.
  2:{ intros [= <- <- <-]. by apply (Hplain copy _ warns). }
  destruct (Dict.mem (name a) copy); [|done].
  intros [= <- <- <-]. split.
  { intros x Hx. by apply Hsub, (remove_subseteq copy (name a)). }
  exists (notes_block (base_identation line) (notes a)). split.
  - right. exists n, r, a. repeat split; try done.
    by apply Hsub, lookup_Some_elem.
  - cbn [ext_weekly_report].
    by rewrite append_notes_block, !string_app_assoc.
Qed.

Lemma abs_inject_chunks acts mapping lines copy vars warns copy' vars' warns' :
  (forall x, x ∈ copy -> x ∈ mapping) ->
  abs_inject acts lines (copy, vars, warns) = Ok (copy', vars', warns') ->
  exists injected,
    Forall2 (injected_under acts mapping) lines injected
    /\ ext_weekly_report vars'
       = ext_weekly_report vars
         +:+ concat_strings
               (zip_with (fun line inj => line +:+ newline +:+ inj)
                  lines injected).
Proof.
  revert copy vars warns.
  induction lines as [|line lines IH]; intros copy vars warns Hsub;
    cbn [abs_inject].
  - intros [= <- <- <-]. exists []. split; [constructor|].
    by rewrite string_app_nil_r.
  - destruct (abs_inject_line acts line (copy, vars, warns))
      as [[[copy1 vars1] warns1]|] eqn:Hstep; [|done].
    intros Hrest.
    destruct (abs_inject_line_chunk _ _ _ _ _ _ _ _ _ Hsub Hstep)
      as (Hsub1 & inj & Hinj & Hext1).
    destruct (IH _ _ _ Hsub1 Hrest) as (injected & Hall & Hext).
    exists (inj :: injected). split; [by constructor|].
    cbn [zip_with concat_strings foldr].
    by rewrite Hext, Hext1, !string_app_assoc.
Qed.

(** X7.  When the injection pass completes, the text it has built is the
    report lines in their order, each closed by a newline and followed by
    what was injected under it: nothing, or the notes of an action of the
    mapping whose name the line carries and whose category is not
    ignored, each note behind the indentation of the line. *)
Theorem injection_copies_every_line (report_lines : list string)
    (d : dict_ref) (σ σ' : Store) (vars : InjectVars) :
  injection_pass report_lines d σ = (Ok vars, σ') ->
  exists mapping injected,
    dicts σ !! d = Some mapping
    /\ Forall2 (injected_under (actions σ) mapping) report_lines injected
    /\ ext_weekly_report vars
       = concat_strings
           (zip_with (fun line inj => line +:+ newline +:+ inj)
              report_lines injected).
Proof.
  intros Hrun. destruct (dicts σ !! d) as [mapping|] eqn:Hd.
  2:{ unfold injection_pass, Py.dict_copy, Py.dict_read, bind in Hrun.
      by rewrite Hd in Hrun. }
  pose proof (injection_pass_run σ d mapping report_lines Hd) as Hsim.
  destruct (abs_inject _ _ _) as [[[copy vars1] warns]|e] eqn:Habs.
  2:{ destruct Hsim as [? Hsim]. congruence. }
  rewrite Hsim in Hrun. injection Hrun as <- _.
  destruct (abs_inject_chunks _ mapping _ _ _ _ _ _ _ (fun x H => H) Habs)
    as (injected & Hall & Hext).
  exists mapping, injected. split; [done|]. split; [done|].
  by rewrite Hext.
Qed.

Lemma injection_copies_every_line_witness :
  exists mapping injected,
    dicts fix_bug_store !! 0 = Some mapping
    /\ Forall2 (injected_under (actions fix_bug_store) mapping)
         ["# Week 01"; "  - **Fix bug** x"; "end"] injected
    /\ ext_weekly_report
         (match (injection_pass ["# Week 01"; "  - **Fix bug** x"; "end"] 0
                   fix_bug_store).1 with
          | Ok vars => vars
          | Raise _ => inject_init
          end)
       = concat_strings
           (zip_with (fun line inj => line +:+ newline +:+ inj)
              ["# Week 01"; "  - **Fix bug** x"; "end"] injected).
Proof.
  apply (injection_copies_every_line
           ["# Week 01"; "  - **Fix bug** x"; "end"] 0 fix_bug_store
           (injection_pass ["# Week 01"; "  - **Fix bug** x"; "end"] 0
              fix_bug_store).2).
  vm_compute. reflexivity.
Defined.

(** ** Reports that carry no key of the mapping *)

Lemma abs_inject_no_key acts mapping lines ext warns :
  Forall (carries_no_key mapping) lines ->
  abs_inject acts lines
    (mapping, {| ext_weekly_report := ext; used_action_names := ∅ |}, warns)
  = Ok (mapping,
        {| ext_weekly_report := ext +:+ verbatim lines;
           used_action_names := ∅ |},
        warns).
Proof.
  intros Hall. revert ext.
  induction Hall as [|line lines Hline _ IH]; intros ext; cbn [abs_inject].
  - unfold verbatim. cbn. by rewrite string_app_nil_r.
  - assert (Hstep : abs_inject_line acts line
              (mapping,
               {| ext_weekly_report := ext; used_action_names := ∅ |}, warns)
            = Ok (mapping,
                  {| ext_weekly_report := ext +:+ (line +:+ newline);
                     used_action_names := ∅ |}, warns)).
    { unfold abs_inject_line, carries_no_key in *. cbn [ext_weekly_report
        used_action_names].
      destruct (bold_name line) as [n|]; [|done].
      rewrite bool_decide_eq_false_2 by apply not_elem_of_empty.
      by rewrite Hline. }
    rewrite Hstep, IH. unfold verbatim.
    cbn [fmap list_fmap concat_strings foldr].
    by rewrite !string_app_assoc.
Qed.

Lemma copied_store_inject σ mapping :
  inject_store (copied_store σ mapping) (length (dicts σ)) mapping []
  = copied_store σ mapping.
Proof.
  unfold inject_store, copied_store. simpl.
  rewrite app_nil_r, list_insert_id; [done|]. by apply list_lookup_middle.
Qed.

(** X8.  When no report line carries a key of the mapping, the injection
    pass copies the report as it is, uses no name, deletes nothing from
    its working copy and logs nothing. *)
Theorem injection_without_matches_is_verbatim (report_lines : list string)
    (d : dict_ref) (σ : Store) (mapping : pydict) :
  dicts σ !! d = Some mapping ->
  Forall (carries_no_key mapping) report_lines ->
  injection_pass report_lines d σ
  = (Ok {| ext_weekly_report := verbatim report_lines;
           used_action_names := ∅ |},
     copied_store σ mapping).
Proof.
  intros Hd Hall.
  pose proof (injection_pass_run σ d mapping report_lines Hd) as Hsim.
  unfold inject_init in Hsim.
  rewrite (abs_inject_no_key _ _ _ "" [] Hall) in Hsim.
  by rewrite copied_store_inject in Hsim.
Qed.

Lemma injection_without_matches_is_verbatim_witness :
  injection_pass ["# Week 01"; "- **Other**"; "- **Other**"] 0 fix_bug_store
  = (Ok {| ext_weekly_report :=
             verbatim ["# Week 01"; "- **Other**"; "- **Other**"];
           used_action_names := ∅ |},
     copied_store fix_bug_store [("Fix bug", 0)]).
Proof.
  apply (injection_without_matches_is_verbatim
           ["# Week 01"; "- **Other**"; "- **Other**"] 0 fix_bug_store
           [("Fix bug", 0)]).
  - reflexivity.
  - repeat constructor.
Defined.

(** ** A week that the Done log does not have *)

Lemma aggregate_empty_mapping (report_lines : list string) (d : dict_ref)
    (σ : Store) :
  dicts σ !! d = Some [] ->
  _aggregate_report report_lines d σ
  = (Ok (overview_header +:+ newline +:+ verbatim report_lines),
     copied_store σ []).
Proof.
  intros Hd.
  pose proof (aggregate_report_run σ d [] report_lines Hd) as Hsim.
  unfold abs_aggregate, inject_init in Hsim.
  rewrite (abs_inject_no_key _ [] _ "" []) in Hsim.
  2:{ apply Forall_forall. intros line _. unfold carries_no_key.
      by destruct (bold_name line). }
  cbn in Hsim. by rewrite copied_store_inject in Hsim.
Qed.

(** X9.  When no line of the Done log is the header of the week, the core
    returns the report as it is under an empty overview: the overview
    header, an empty line and the report lines; nothing is logged and no
    action is created. *)
Theorem missing_week_leaves_report (done_lines report_lines : list string)
    (week_number : Z) (σ0 : Store) :
  Forall (fun l => is_target_header week_number l = false) done_lines ->
  main_core done_lines report_lines week_number σ0
  = (Ok (overview_header +:+ newline +:+ verbatim report_lines),
     {| actions := actions σ0; dicts := dicts σ0 ++ [[]; []];
        warnings := warnings σ0 |}).
Proof.
  intros Hnone. unfold main_core, _extract_week_done_lines.
  rewrite extract_loop_no_target by done.
  rewrite bind_run.
  assert (Hparse : _week_done_lines_to_dict [] σ0
                   = (Ok (length (dicts σ0)), copied_store σ0 [])) by done.
  rewrite Hparse, aggregate_empty_mapping.
  - unfold copied_store. simpl. by rewrite <- app_assoc.
  - simpl. by apply list_lookup_middle.
Qed.

Lemma missing_week_leaves_report_witness :
  main_core ["### Week 02"; "- A"] ["- **A**"; "text"] 1 empty_store
  = (Ok (overview_header +:+ newline +:+ verbatim ["- **A**"; "text"]),
     {| actions := actions empty_store; dicts := dicts empty_store ++ [[]; []];
        warnings := warnings empty_store |}).
Proof.
  apply (missing_week_leaves_report ["### Week 02"; "- A"] ["- **A**"; "text"]
           1 empty_store).
  repeat constructor.
Defined.

(** ** When the aggregator returns *)

Lemma int_raises_ValueError (s : string) (e : exn) :
  PyInt.int s = Raise e -> e = ValueError.
Proof.
  assert (Hu : forall t e', PyInt.unsigned t = Raise e' -> e' = ValueError).
  { intros t e'. unfold PyInt.unsigned. destruct t as [|c t]; [congruence|].
    destruct (PyStr.isdigit c); [|congruence].
    destruct (PyInt.digits_go _ _ _) as [[v count] rest].
    destruct (_ && _); congruence. }
  unfold PyInt.int.
  destruct (PyStr.drop_while PyInt.isspace_int s) as [|c t] eqn:Hs.
  { apply Hu. }
  destruct (Ascii.eqb c "+") eqn:Hplus.
  { apply Ascii.eqb_eq in Hplus. subst c. apply Hu. }
  destruct (Ascii.eqb c "-") eqn:Hminus.
  { apply Ascii.eqb_eq in Hminus. subst c.
    destruct (PyInt.unsigned t) as [v|e'] eqn:Hut; [done|].
    intros [= <-]. by apply (Hu t). }
  intros H. apply (Hu (String c t)).
  destruct c as [[] [] [] [] [] [] [] []]; try exact H; try discriminate.
Qed.

Lemma list_getitem_raises_IndexError (l : list string) (i : Z) (e : exn) :
  list_getitem l i = Raise e -> e = IndexError.
Proof.
  unfold list_getitem. destruct (_ <? 0)%Z; [congruence|].
  destruct (l !! _); congruence.
Qed.

Lemma action_weekdays_raises (a : DoneAction) (e : exn) :
  action_weekdays a = Raise e -> e = ValueError \/ e = IndexError.
Proof.
  unfold action_weekdays, weekday_names.
  destruct (negb _); [|done].
  generalize (PyStr.split ", " (weekday_nums a)). intros parts.
  match goal with |- context [?f parts] => set (go := f) end.
  assert (Hgo : forall e', go parts = Raise e' ->
                           e' = ValueError \/ e' = IndexError).
  { induction parts as [|p parts IH]; intros e'; cbn [go]; [done|].
    destruct (PyInt.int p) as [i|e1] eqn:Hint.
    2:{ intros [= <-]. left. by eapply int_raises_ValueError. }
    destruct (list_getitem WEEKDAYS i) as [w|e2] eqn:Hget.
    2:{ intros [= <-]. right. by eapply list_getitem_raises_IndexError. }
    destruct (go parts) as [ws|e3]; [done|].
    intros [= <-]. by apply IH. }
  destruct (go parts) as [ws|e1]; [done|].
  intros [= <-]. by apply Hgo.
Qed.

(** An action whose days the overview can print. *)
Lemma abs_overview_outcome acts copy items ov :
  Forall (fun item : string * action_ref => is_Some (acts !! item.2)) items ->
  (Forall (fun item : string * action_ref =>
             exists a wd, acts !! item.2 = Some a
                          /\ action_weekdays a = Ok wd) items
   /\ exists out, abs_overview acts copy items ov = Ok out)
  \/ (~ Forall (fun item : string * action_ref =>
                  exists a wd, acts !! item.2 = Some a
                               /\ action_weekdays a = Ok wd) items
      /\ exists e, abs_overview acts copy items ov = Raise e
                   /\ (e = ValueError \/ e = IndexError)).
Proof.
  intros Hlive. revert ov.
  induction Hlive as [|item items [a Ha] _ IH]; intros ov; cbn [abs_overview].
  - left. split; [constructor|by eexists].
  - unfold abs_overview_entry. rewrite Ha.
    destruct (action_weekdays a) as [wd|e] eqn:Hwd.
    + destruct (IH (ov +:+ overview_text (tracked_tag copy a) a wd))
        as [[Hall Hout]|[Hall Hout]].
      * left. split; [|done]. constructor; [by exists a, wd|done].
      * right. split; [|done]. intros Hc. apply Hall.
        by apply Forall_cons in Hc as [_ ?].
    + right. split.
      * intros Hc. apply Forall_cons in Hc as [(a' & wd & Ha' & Hwd') _].
        congruence.
      * exists e. split; [done|]. by apply action_weekdays_raises in Hwd.
Qed.

Lemma abs_action_tuples_well_formed acts mapping :
  well_formed acts mapping ->
  exists tuples,
    abs_action_tuples acts (Dict.values mapping) = Ok tuples
    /\ Forall2 (fun (kv item : string * action_ref) =>
                  item.2 = kv.2
                  /\ exists a, acts !! kv.2 = Some a /\ item.1 = sort_key a)
         mapping tuples.
Proof.
  intros [_ Hlive]. unfold Dict.values.
  induction mapping as [|[k r] mapping IH]; cbn [fmap list_fmap snd
    abs_action_tuples].
  - exists []. split; [done|constructor].
  - destruct (Hlive k r) as (a & Ha & _); [apply elem_of_cons; by left|].
    rewrite Ha. destruct IH as (tuples & -> & Hall).
    { intros k' r' Hin. apply Hlive. apply elem_of_cons. by right. }
    eexists. split; [done|]. constructor; [|done]. split; [done|].
    by exists a.
Qed.

(** When [_aggregate_report] returns, shared by the statements below. *)
Lemma aggregate_report_outcome (report_lines : list string)
    (d : dict_ref) (σ : Store) (mapping : pydict) :
  dicts σ !! d = Some mapping ->
  well_formed (actions σ) mapping ->
  ((exists out σ', _aggregate_report report_lines d σ = (Ok out, σ'))
   <-> Forall (fun kv : string * action_ref =>
                 exists a wd, actions σ !! kv.2 = Some a
                              /\ action_weekdays a = Ok wd) mapping)
  /\ (forall e σ',
        _aggregate_report report_lines d σ = (Raise e, σ') ->
        e = ValueError \/ e = IndexError).
Proof.
  intros Hd Hwf.
  pose proof (aggregate_report_run σ d mapping report_lines Hd) as Hsim.
  unfold abs_aggregate in Hsim.
  destruct (abs_inject_inv _ _ Hwf [] report_lines mapping inject_init []
              (inject_inv_init _ _ Hwf))
    as (copy & vars & warns & Hinj & _).
  rewrite Hinj in Hsim.
  destruct (abs_action_tuples_well_formed _ _ Hwf) as (tuples & Ht & Hall).
  rewrite Ht in Hsim.
  set (P := fun item : string * action_ref =>
              exists a wd, actions σ !! item.2 = Some a
                           /\ action_weekdays a = Ok wd) in *.
  assert (Hperm : Forall P (sorted tuples) <-> Forall P mapping).
  { rewrite sorted_Permutation. clear -Hall.
    induction Hall as [|kv item mapping tuples [Hr _] _ IH].
    - split; constructor.
    - rewrite !Forall_cons, IH. unfold P. by rewrite Hr. }
  assert (Hlive : Forall (fun item : string * action_ref =>
                            is_Some (actions σ !! item.2)) (sorted tuples)).
  { rewrite sorted_Permutation. clear -Hall.
    induction Hall as [|kv item mapping tuples [Hr (a & Ha & _)] _ IH];
      constructor; [|done]. rewrite Hr. by eexists. }
  destruct (abs_overview_outcome (actions σ) copy (sorted tuples)
              overview_header Hlive)
    as [[Hok [out Hout]]|[Hbad (e & Hout & He)]]; rewrite Hout in Hsim.
  - split.
    + split; [intros _; by apply Hperm|intros _; by eexists _, _].
    + intros e σ' Hr. congruence.
  - destruct Hsim as [σ1 Hsim]. split.
    + split.
      * intros (out & σ' & Hr). congruence.
      * intros Hc. exfalso. by apply Hbad, Hperm.
    + intros e' σ' Hr. congruence.
Qed.

(** X10.  On a well-formed mapping [_aggregate_report] returns exactly when
    the overview can print the days of every action of the mapping (the
    report lines play no part in it); when it raises, it raises
    [ValueError] or [IndexError]. *)
Theorem aggregator_returns_iff_days_print (report_lines : list string)
    (d : dict_ref) (σ : Store) (mapping : pydict) :
  dicts σ !! d = Some mapping ->
  well_formed (actions σ) mapping ->
  ((exists out σ', _aggregate_report report_lines d σ = (Ok out, σ'))
   <-> Forall (fun kv : string * action_ref =>
                 exists a wd, actions σ !! kv.2 = Some a
                              /\ action_weekdays a = Ok wd) mapping)
  /\ (forall e σ',
        _aggregate_report report_lines d σ = (Raise e, σ') ->
        e = ValueError \/ e = IndexError).
Proof. apply aggregate_report_outcome. Qed.

Lemma aggregator_returns_iff_days_print_witness :
  ((exists out σ', _aggregate_report [] 0 fix_bug_store = (Ok out, σ'))
   <-> Forall (fun kv : string * action_ref =>
                 exists a wd, actions fix_bug_store !! kv.2 = Some a
                              /\ action_weekdays a = Ok wd)
         [("Fix bug", 0)])
  /\ (forall e σ',
        _aggregate_report [] 0 fix_bug_store = (Raise e, σ') ->
        e = ValueError \/ e = IndexError).
Proof.
  apply (aggregator_returns_iff_days_print [] 0 fix_bug_store
           [("Fix bug", 0)]).
  - reflexivity.
  - apply fix_bug_store_well_formed.
Defined.

(** ** The order of the overview *)








(** ** Splitting what was joined *)

Lemma string_rev_app_app (p q r : string) :
  String.rev_app (String.rev_app p q) r = String.rev_app q (p +:+ r).
Proof.
  revert q r. induction p as [|c p IH]; intros q r; [done|].
  change (String.rev_app (String.rev_app p (String c q)) r
          = String.rev_app q (String c (p +:+ r))).
  by rewrite IH.
Qed.

Lemma string_rev_rev_app (p : string) :
  String.rev (String.rev_app p "") = p.
Proof.
  unfold String.rev. rewrite string_rev_app_app. simpl.
  apply string_app_nil_r.
Qed.

(** A part without a comma is read to its end. *)
Lemma split_go_part (p cur s : string) :
  PyStr.mem_char "," p = false ->
  PyStr.split_go ", " cur 0 (p +:+ s)
  = PyStr.split_go ", " (String.rev_app p cur) 0 s.
Proof.
  revert cur. induction p as [|c p IH]; intros cur Hp; [done|].
  cbn [PyStr.mem_char] in Hp. apply orb_false_iff in Hp as [Hc Hp].
  change (String c p +:+ s) with (String c (p +:+ s)).
  cbn [PyStr.split_go PyStr.startswith]. rewrite Hc. cbn [andb].
  by rewrite IH.
Qed.

Lemma split_go_end (cur : string) :
  PyStr.split_go ", " cur 0 "" = [String.rev cur].
Proof. done. Qed.

Lemma split_go_sep (cur s : string) :
  PyStr.split_go ", " cur 0 (", " +:+ s)
  = String.rev cur :: PyStr.split_go ", " "" 0 s.
Proof.
  change (", " +:+ s) with (String "," (String " " s)).
  cbn [PyStr.split_go PyStr.startswith]. rewrite startswith_empty.
  reflexivity.
Qed.

Lemma split_join (parts : list string) :
  parts <> [] ->
  Forall (fun p => PyStr.mem_char "," p = false) parts ->
  PyStr.split ", " (PyStr.join ", " parts) = parts.
Proof.
  intros Hne Hall. unfold PyStr.split.
  induction Hall as [|p parts Hp Hall IH]; [done|].
  destruct parts as [|q parts].
  - cbn [PyStr.join]. rewrite <- (string_app_nil_r p) at 1.
    rewrite split_go_part, split_go_end by done.
    by rewrite string_rev_rev_app.
  - change (PyStr.join ", " (p :: q :: parts))
      with (p +:+ ", " +:+ PyStr.join ", " (q :: parts)).
    rewrite split_go_part, split_go_sep by done.
    rewrite string_rev_rev_app. f_equal. by apply IH.
Qed.

(** ** The days the overview prints *)

Lemma day_digit (n : nat) :
  n < 7 ->
  PyStr.mem_char "," (PyStr.str_of_nat n) = false
  /\ PyStr.is_empty (PyStr.str_of_nat n) = false
  /\ PyInt.int (PyStr.str_of_nat n) = Ok (Z.of_nat n)
  /\ list_getitem WEEKDAYS (Z.of_nat n) = Ok (weekday_name n).
Proof.
  intros Hn. do 7 (destruct n as [|n]; [by vm_compute|]). lia.
Qed.

Lemma weekday_nums_of_is_empty (ns : list nat) :
  Forall (fun n => n < 7) ns ->
  PyStr.is_empty (weekday_nums_of ns) = match ns with [] => true | _ => false end.
Proof.
  intros Hall. unfold weekday_nums_of.
  destruct Hall as [|n ns Hn Hall]; [done|].
  destruct (day_digit n Hn) as (_ & Hne & _). cbn [fmap list_fmap].
  destruct (PyStr.str_of_nat n) as [|c s]; [done|].
  by destruct (PyStr.str_of_nat <$> ns).
Qed.

Lemma weekday_names_of (ns : list nat) :
  ns <> [] -> Forall (fun n => n < 7) ns ->
  weekday_names (weekday_nums_of ns)
  = Ok (PyStr.join ", " (weekday_name <$> ns)).
Proof.
  intros Hne Hall. unfold weekday_names, weekday_nums_of.
  rewrite split_join.
  2:{ by destruct ns. }
  2:{ apply Forall_fmap. eapply Forall_impl; [exact Hall|].
      intros n Hn. simpl. by destruct (day_digit n Hn). }
  match goal with |- context [?f (PyStr.str_of_nat <$> ns)] =>
    set (go := f) end.
  assert (Hgo : go (PyStr.str_of_nat <$> ns) = Ok (weekday_name <$> ns)).
  { clear Hne. induction Hall as [|n ns Hn Hall IH]; [done|].
    cbn [fmap list_fmap go].
    destruct (day_digit n Hn) as (_ & _ & -> & ->).
    fold go. cbn [fmap list_fmap] in IH. by rewrite IH. }
  by rewrite Hgo.
Qed.

Lemma action_weekdays_of (a : DoneAction) (ns : list nat) :
  Forall (fun n => n < 7) ns ->
  weekday_nums a = weekday_nums_of ns ->
  action_weekdays a = Ok (weekdays_prefix ns).
Proof.
  intros Hall Hwn. unfold action_weekdays, weekdays_prefix.
  rewrite Hwn, weekday_nums_of_is_empty by done.
  destruct ns as [|n ns]; [done|]. cbn [negb].
  by rewrite weekday_names_of.
Qed.

(** X12.  For an action whose [weekday_nums] lists days of the week, one
    turn of the overview loop appends the overview line and the notes of
    the action, the line starting with the names of those days, in their
    order, joined by commas (and with no day part at all when the action
    has no day); the store is left as it is. *)
Theorem overview_prints_weekday_names
    (σ : Store) (c : dict_ref) (copy : pydict) (item : string * action_ref)
    (a : DoneAction) (ns : list nat) (overview_section : string) :
  dicts σ !! c = Some copy ->
  actions σ !! item.2 = Some a ->
  Forall (fun n => n < 7) ns ->
  weekday_nums a = weekday_nums_of ns ->
  overview_entry c item overview_section σ
  = (Ok (overview_section
         +:+ overview_text (tracked_tag copy a) a (weekdays_prefix ns)),
     σ).
Proof.
  intros Hc Ha Hall Hwn.
  rewrite (overview_entry_sim σ c copy) by done.
  unfold abs_overview_entry. rewrite Ha.
  by rewrite (action_weekdays_of a ns).
Qed.

Lemma overview_prints_weekday_names_witness :
  overview_entry 0 ("key", 0) "## Overview"
    {| actions := [ {| identation_width := 0; name := "A"; category := "";
                       weekday_nums := "0, 2, 6"; notes := ["  n"] |} ];
       dicts := [[("A", 0)]]; warnings := [] |}
  = (Ok ("## Overview"
         +:+ overview_text (tracked_tag [("A", 0)]
               {| identation_width := 0; name := "A"; category := "";
                  weekday_nums := "0, 2, 6"; notes := ["  n"] |})
               {| identation_width := 0; name := "A"; category := "";
                  weekday_nums := "0, 2, 6"; notes := ["  n"] |}
               "- Monday, Wednesday, Sunday "),
     {| actions := [ {| identation_width := 0; name := "A"; category := "";
                        weekday_nums := "0, 2, 6"; notes := ["  n"] |} ];
        dicts := [[("A", 0)]]; warnings := [] |}).
Proof.
  apply (overview_prints_weekday_names _ 0 [("A", 0)] ("key", 0) _ [0; 2; 6]).
  - reflexivity.
  - reflexivity.
  - repeat constructor.
  - reflexivity.
Defined.

(** ** A week whose action lines all stand under a day header *)










(** ** Decimal numerals *)

Lemma len_app (a b : string) : PyStr.len (a +:+ b) = PyStr.len a + PyStr.len b.
Proof.
  induction a as [|c a IH]; [done|].
  change (String c a +:+ b) with (String c (a +:+ b)).
  unfold PyStr.len in *. simpl. by rewrite IH.
Qed.

(** [str(n)] is the digit sequence of [n], never empty. *)
Lemma str_of_nat_digits (n : nat) :
  exists d : Decimal.uint,
    d <> Decimal.Nil
    /\ PyStr.str_of_nat n = NilEmpty.string_of_uint d
    /\ Nat.of_uint d = n.
Proof.
  unfold PyStr.str_of_nat. pose proof (Unsigned.of_to n) as Hn.
  destruct (Nat.to_uint n) as [|d|d|d|d|d|d|d|d|d|d] eqn:E;
    [exists (Decimal.D0 Decimal.Nil); by rewrite <- Hn|..];
    eexists; (split; [|split; [reflexivity|exact Hn]]); discriminate.
Qed.

Lemma str_of_nat_inj (a b : nat) :
  PyStr.str_of_nat a = PyStr.str_of_nat b -> a = b.
Proof.
  destruct (str_of_nat_digits a) as (da & _ & -> & <-).
  destruct (str_of_nat_digits b) as (db & _ & -> & <-).
  intros H. apply (f_equal NilEmpty.uint_of_string) in H.
  rewrite !NilEmpty.usu in H. congruence.
Qed.

(** A numeral holds digits only. *)
Lemma digits_only (d : Decimal.uint) (c : ascii) :
  PyStr.isdigit c = false ->
  PyStr.mem_char c (NilEmpty.string_of_uint d) = false.
Proof.
  intros Hc.
  induction d as [|d IH|d IH|d IH|d IH|d IH|d IH|d IH|d IH|d IH|d IH];
    [done|..]; cbn [NilEmpty.string_of_uint PyStr.mem_char]; rewrite IH;
    rewrite orb_false_r; apply Ascii.eqb_neq; intros ->; by vm_compute in Hc.
Qed.

Lemma digits_go_numeral (d : Decimal.uint) (acc count : nat) :
  PyInt.digits_go (NilEmpty.string_of_uint d) (Z.of_nat acc) count
  = (Z.of_nat (Nat.of_uint_acc d acc),
     count + PyStr.len (NilEmpty.string_of_uint d), "").
Proof.
  revert acc count.
  induction d as [|d IH|d IH|d IH|d IH|d IH|d IH|d IH|d IH|d IH|d IH];
    intros acc count;
    [cbn; do 2 f_equal; lia|..];
    cbn [NilEmpty.string_of_uint PyInt.digits_go Nat.of_uint_acc];
    match goal with |- context [PyStr.isdigit ?c] =>
      change (PyStr.isdigit c) with true;
      let v := eval vm_compute in (PyInt.digit_value c) in
      change (PyInt.digit_value c) with v
    end;
    cbv iota;
    match goal with
    | |- PyInt.digits_go _ ?z _ = (Z.of_nat (Nat.of_uint_acc _ ?a), _, _) =>
        replace z with (Z.of_nat a)
          by (rewrite ?Nat.tail_mul_spec; lia)
    end;
    rewrite IH; unfold PyStr.len; simpl; do 2 f_equal; lia.
Qed.

Lemma unsigned_numeral (d : Decimal.uint) :
  d <> Decimal.Nil ->
  PyStr.len (NilEmpty.string_of_uint d) <= PyInt.int_max_str_digits ->
  PyInt.unsigned (NilEmpty.string_of_uint d) = Ok (Z.of_nat (Nat.of_uint d)).
Proof.
  intros Hd Hlen. unfold PyInt.unsigned.
  pose proof (digits_go_numeral d 0 0) as Hgo.
  destruct (NilEmpty.string_of_uint d) as [|c s] eqn:Hs.
  { by destruct d. }
  assert (Hc : PyStr.isdigit c = true).
  { destruct (PyStr.isdigit c) eqn:E; [done|].
    pose proof (digits_only d c E) as Hm. rewrite Hs in Hm.
    cbn [PyStr.mem_char] in Hm. by rewrite Ascii.eqb_refl in Hm. }
  rewrite Hc. change (Z.of_nat 0) with 0%Z in Hgo. rewrite Hgo.
  cbn [PyStr.drop_while PyStr.is_empty andb Nat.add].
  apply Nat.leb_le in Hlen. unfold PyStr.is_empty. by rewrite Hlen.
Qed.

(** [int] reads back what [f"{n:02d}"] writes. *)
Lemma int_format_02d (n : Z) :
  PyStr.len (PyStr.format_02d n) <= PyInt.int_max_str_digits ->
  PyInt.int (PyStr.format_02d n) = Ok n.
Proof.
  unfold PyStr.format_02d.
  destruct (str_of_nat_digits (Z.abs_nat n)) as (d & Hd & Hs & Hv).
  rewrite Hs. destruct (Z.ltb_spec n 0); [|destruct (Z.ltb_spec n 10)].
  - change ("-" +:+ NilEmpty.string_of_uint d)
      with (String "-" (NilEmpty.string_of_uint d)).
    intros Hlen. unfold PyInt.int.
    cbn [PyStr.drop_while]. change (PyInt.isspace_int "-") with false.
    cbv iota. rewrite unsigned_numeral; [|done|].
    + rewrite Hv. f_equal. lia.
    + unfold PyStr.len in *. simpl in Hlen. lia.
  - change ("0" +:+ NilEmpty.string_of_uint d)
      with (NilEmpty.string_of_uint (Decimal.D0 d)).
    intros Hlen. unfold PyInt.int.
    cbn [NilEmpty.string_of_uint PyStr.drop_while].
    change (PyInt.isspace_int "0") with false. cbv iota.
    change (String "0" (NilEmpty.string_of_uint d))
      with (NilEmpty.string_of_uint (Decimal.D0 d)).
    change (match NilEmpty.string_of_uint (Decimal.D0 d) with
            | String "+" s' => PyInt.unsigned s'
            | String "-" s' =>
                match PyInt.unsigned s' with
                | Ok v => Ok (- v)%Z
                | Raise e => Raise e
                end
            | _ => PyInt.unsigned (NilEmpty.string_of_uint (Decimal.D0 d))
            end)
      with (PyInt.unsigned (NilEmpty.string_of_uint (Decimal.D0 d))).
    rewrite unsigned_numeral; [|done|done].
    change (Nat.of_uint (Decimal.D0 d)) with (Nat.of_uint d).
    rewrite Hv. f_equal. lia.
  - intros Hlen. unfold PyInt.int.
    destruct (NilEmpty.string_of_uint d) as [|c s] eqn:E.
    { by destruct d. }
    assert (Hc : PyStr.isdigit c = true).
    { destruct (PyStr.isdigit c) eqn:Ec; [done|].
      pose proof (digits_only d c Ec) as Hm. rewrite E in Hm.
      cbn [PyStr.mem_char] in Hm. by rewrite Ascii.eqb_refl in Hm. }
    assert (Hsp : PyInt.isspace_int c = false).
    { destruct (PyInt.isspace_int c) eqn:Ec; [|done].
      exfalso. revert Hc Ec. unfold PyStr.isdigit, PyInt.isspace_int.
      generalize (PyStr.code c). intros m.
      rewrite andb_true_iff, !orb_true_iff, andb_true_iff, !Nat.leb_le,
        !Nat.eqb_eq. lia. }
    cbn [PyStr.drop_while]. rewrite Hsp.
    assert (Hplus : c <> "+"%char) by (intros ->; by vm_compute in Hc).
    assert (Hminus : c <> "-"%char) by (intros ->; by vm_compute in Hc).
    transitivity (PyInt.unsigned (String c s)).
    { destruct c as [[] [] [] [] [] [] [] []]; try reflexivity;
        by (exfalso; (apply Hplus || apply Hminus)). }
    rewrite <- E. rewrite unsigned_numeral; [|done|by rewrite E].
    rewrite Hv. f_equal. lia.
Qed.

(** Different week numbers are written differently. *)
Lemma format_02d_inj (a b : Z) :
  PyStr.format_02d a = PyStr.format_02d b -> a = b.
Proof.
  unfold PyStr.format_02d.
  destruct (str_of_nat_digits (Z.abs_nat a)) as (da & Hda & Hsa & Hva).
  destruct (str_of_nat_digits (Z.abs_nat b)) as (db & Hdb & Hsb & Hvb).
  assert (Hminus : forall d s, String "-" s <> NilEmpty.string_of_uint d).
  { intros d s H. pose proof (digits_only d "-" eq_refl) as Hm.
    rewrite <- H in Hm. by cbn in Hm. }
  assert (Hzero : forall d d', "0" +:+ NilEmpty.string_of_uint d
                    = NilEmpty.string_of_uint d' ->
                    Nat.of_uint d = Nat.of_uint d').
  { intros d d' H.
    change ("0" +:+ NilEmpty.string_of_uint d)
      with (NilEmpty.string_of_uint (Decimal.D0 d)) in H.
    apply (f_equal NilEmpty.uint_of_string) in H.
    rewrite !NilEmpty.usu in H. by injection H as <-. }
  destruct (Z.ltb_spec a 0) as [Ha|Ha];
    [|destruct (Z.ltb_spec a 10) as [Ha'|Ha']];
    (destruct (Z.ltb_spec b 0) as [Hb|Hb];
     [|destruct (Z.ltb_spec b 10) as [Hb'|Hb']]);
    intros H.
  - injection H as H'. apply str_of_nat_inj in H'. lia.
  - discriminate H.
  - rewrite Hsb in H. by apply Hminus in H.
  - discriminate H.
  - injection H as H'. apply str_of_nat_inj in H'. lia.
  - rewrite Hsa, Hsb in H. apply Hzero in H. lia.
  - rewrite Hsa in H. symmetry in H. by apply Hminus in H.
  - rewrite Hsa, Hsb in H. symmetry in H. apply Hzero in H. lia.
  - apply str_of_nat_inj in H. lia.
Qed.

(** X14.  A line is the header of at most one week: the headers the
    extractor looks for under two week numbers are equal only when the
    numbers are. *)
Theorem week_header_names_one_week (line : string) (n m : Z) :
  is_target_header n line = true ->
  is_target_header m line = true ->
  n = m.
Proof.
  unfold is_target_header. rewrite !pystr_eqb_eq. intros -> H.
  unfold target_week_start in H. apply format_02d_inj.
  revert H. generalize (PyStr.format_02d n) (PyStr.format_02d m).
  intros s t H. by injection H.
Qed.

Lemma week_header_names_one_week_witness :
  is_target_header 1 "### Week 01  " = true /\ (1 = 1)%Z.
Proof.
  split; [reflexivity|].
  apply (week_header_names_one_week "### Week 01  " 1 1); reflexivity.
Defined.

(** ** The week number in the name of the report file *)

(** A word without the first character of the separator is read to its
    end. *)
Lemma split_go_word (c0 : ascii) (sep p cur s : string) :
  PyStr.mem_char c0 p = false ->
  PyStr.split_go (String c0 sep) cur 0 (p +:+ s)
  = PyStr.split_go (String c0 sep) (String.rev_app p cur) 0 s.
Proof.
  revert cur. induction p as [|c p IH]; intros cur Hp; [done|].
  cbn [PyStr.mem_char] in Hp. apply orb_false_iff in Hp as [Hc Hp].
  change (String c p +:+ s) with (String c (p +:+ s)).
  cbn [PyStr.split_go PyStr.startswith]. rewrite Hc. cbn [andb].
  by rewrite IH.
Qed.

Lemma split_space_last (stem word cur : string) :
  PyStr.mem_char " " word = false ->
  exists parts,
    PyStr.split_go " " cur 0 (stem +:+ " " +:+ word) = parts ++ [word].
Proof.
  intros Hword. revert cur. induction stem as [|c stem IH]; intros cur.
  - exists [String.rev cur].
    change ("" +:+ " " +:+ word) with (String " " word).
    cbn [PyStr.split_go PyStr.startswith Ascii.eqb Bool.eqb andb].
    rewrite startswith_empty. cbn [app]. f_equal.
    rewrite <- (string_app_nil_r word) at 1.
    rewrite split_go_word by done. cbn [PyStr.split_go].
    by rewrite string_rev_rev_app.
  - change (String c stem +:+ " " +:+ word)
      with (String c (stem +:+ " " +:+ word)).
    cbn [PyStr.split_go]. change (PyStr.len " " - 1) with 0.
    destruct (PyStr.startswith _ " ").
    + destruct (IH "") as [parts ->]. by exists (String.rev cur :: parts).
    + apply IH.
Qed.

Lemma split_go_nonempty (sep cur : string) (skip : nat) (s : string) :
  PyStr.split_go sep cur skip s <> [].
Proof.
  revert cur skip. induction s as [|c s IH]; intros cur skip; [done|].
  cbn [PyStr.split_go]. destruct skip; [|apply IH].
  destruct (PyStr.startswith _ _); [done|apply IH].
Qed.

Lemma list_getitem_last (parts : list string) (x : string) :
  list_getitem (parts ++ [x]) (-1) = Ok x.
Proof.
  unfold list_getitem. rewrite length_app. cbn [length].
  change (-1 <? 0)%Z with true. cbv iota.
  replace (-1 + Z.of_nat (length parts + 1))%Z
    with (Z.of_nat (length parts)) by lia.
  destruct (Z.ltb_spec (Z.of_nat (length parts)) 0); [lia|].
  rewrite Nat2Z.id, list_lookup_middle; done.
Qed.

(** The last occurrence of [".md"], after a word without a dot, is
    replaced. *)
Lemma replace_extension (new word : string) :
  PyStr.mem_char "." word = false ->
  str_replace ".md" new (word +:+ ".md") = word +:+ new.
Proof.
  intros Hword. unfold str_replace. cbn [PyStr.is_empty].
  change (PyStr.is_empty ".md") with false. cbv iota.
  induction word as [|c word IH].
  - change ("" +:+ ".md") with ".md". cbn. by rewrite string_app_nil_r.
  - cbn [PyStr.mem_char] in Hword. apply orb_false_iff in Hword as [Hc Hw].
    change (String c word +:+ ".md") with (String c (word +:+ ".md")).
    cbn [replace_go PyStr.startswith]. rewrite Hc. cbn [andb].
    rewrite IH by done. reflexivity.
Qed.

Lemma format_02d_chars (n : Z) (c : ascii) :
  PyStr.isdigit c = false -> c <> "-"%char ->
  PyStr.mem_char c (PyStr.format_02d n) = false.
Proof.
  intros Hc Hminus. unfold PyStr.format_02d.
  destruct (str_of_nat_digits (Z.abs_nat n)) as (d & _ & -> & _).
  pose proof (digits_only d c Hc) as Hd.
  destruct (_ <? _)%Z; [|destruct (_ <? _)%Z]; [| |done].
  - change (PyStr.mem_char c (String "-" (NilEmpty.string_of_uint d)) = false).
    cbn [PyStr.mem_char]. rewrite Hd, orb_false_r. by apply Ascii.eqb_neq.
  - change (PyStr.mem_char c (String "0" (NilEmpty.string_of_uint d)) = false).
    cbn [PyStr.mem_char]. rewrite Hd, orb_false_r.
    apply Ascii.eqb_neq. intros ->. by vm_compute in Hc.
Qed.

(** X15.  The week number read off a report file named ["<stem> NN.md"]
    is the number [NN] stands for, whatever the stem: the name is split at
    its spaces, the last word loses its [".md"] and [int] reads the rest.
    The numeral is to have at most 4300 characters, the most [int]
    converts. *)
Theorem week_number_of_report_file_name (stem : string) (week_number : Z) :
  PyStr.len (PyStr.format_02d week_number) <= PyInt.int_max_str_digits ->
  report_week_number (report_file_name stem week_number) = Ok week_number.
Proof.
  intros Hlen. unfold report_week_number, report_file_name, PyStr.split.
  assert (Hword : PyStr.mem_char " " (PyStr.format_02d week_number +:+ ".md")
                  = false).
  { rewrite mem_char_app, format_02d_chars; done. }
  destruct (split_space_last stem _ "" Hword) as [parts Hparts].
  rewrite Hparts, list_getitem_last.
  rewrite replace_extension by (by apply format_02d_chars).
  rewrite string_app_nil_r. by apply int_format_02d.
Qed.

Lemma week_number_of_report_file_name_witness :
  report_week_number "2021 Week 01.md" = Ok 1%Z.
Proof.
  apply (week_number_of_report_file_name "2021 Week" 1).
  vm_compute. lia.
Defined.

(** X16.  Reading the week number off the name of the report file raises
    nothing but [ValueError]: [split] always returns a last word, so the
    index [-1] is never out of range. *)
Theorem report_week_number_raises_ValueError (report_file : string)
    (e : exn) :
  report_week_number report_file = Raise e -> e = ValueError.
Proof.
  unfold report_week_number, PyStr.split.
  pose proof (split_go_nonempty " " "" 0 report_file) as Hne.
  destruct (PyStr.split_go " " "" 0 report_file) as [|p parts _]
    using rev_ind; [done|].
  rewrite list_getitem_last. apply int_raises_ValueError.
Qed.

Lemma report_week_number_raises_ValueError_witness :
  report_week_number "2021 Week one.md" = Raise ValueError
  /\ ValueError = ValueError.
Proof.
  split; [reflexivity|].
  apply (report_week_number_raises_ValueError "2021 Week one.md").
  reflexivity.
Defined.

(** ** The name of the output file *)

Lemma replace_go_absent (old new s : string) :
  PyStr.contains old s = false -> replace_go old new 0 s = s.
Proof.
  induction s as [|c s IH]; [done|].
  cbn [PyStr.contains replace_go]. intros H.
  apply orb_false_iff in H as [-> H]. by rewrite IH.
Qed.

Lemma startswith_md_len (s : string) :
  PyStr.startswith s ".md" = true -> 3 <= PyStr.len s.
Proof.
  destruct s as [|c0 [|c1 [|c2 s]]]; cbn [PyStr.startswith];
    rewrite ?andb_false_r; try discriminate.
  intros _. unfold PyStr.len. simpl. lia.
Qed.

(** Replacing [".md"] by ["_done.md"] shortens nothing, and lengthens a
    string in which [".md"] occurs. *)
Lemma replace_go_done_len (s : string) (k : nat) :
  k <= PyStr.len s ->
  PyStr.len s <= PyStr.len (replace_go ".md" "_done.md" k s) + k
  /\ (PyStr.contains ".md" (PyStr.slice_from k s) = true ->
      PyStr.len s < PyStr.len (replace_go ".md" "_done.md" k s) + k).
Proof.
  revert k. induction s as [|c s IH]; intros k Hk.
  - unfold PyStr.len in Hk. simpl in Hk. assert (k = 0) as -> by lia.
    split; [done|]. by vm_compute.
  - destruct k as [|k].
    + cbn [replace_go PyStr.slice_from PyStr.contains].
      change (PyStr.len ".md" - 1) with 2.
      destruct (PyStr.startswith (String c s) ".md") eqn:E.
      * apply startswith_md_len in E.
        assert (H2 : 2 <= PyStr.len s)
          by (unfold PyStr.len in *; simpl in E; lia).
        destruct (IH 2 H2) as [Hle _]. rewrite len_app.
        change (PyStr.len "_done.md") with 8.
        unfold PyStr.len in *. simpl. split; [lia|intros _; lia].
      * destruct (IH 0 ltac:(lia)) as [Hle Hlt].
        cbn [orb PyStr.slice_from] in *.
        unfold PyStr.len in *. simpl. split; [lia|].
        intros H. apply Hlt in H. lia.
    + cbn [replace_go PyStr.slice_from].
      assert (Hk' : k <= PyStr.len s)
        by (unfold PyStr.len in *; simpl in Hk; lia).
      destruct (IH k Hk') as [Hle Hlt].
      unfold PyStr.len in *. simpl. split; [lia|].
      intros H. apply Hlt in H. lia.
Qed.

(** X17.  The output file has the name of the report file exactly when
    [".md"] does not occur in that name: a report file without the
    extension is the file the result is written to. *)
Theorem output_file_is_report_file_iff (report_file : string) :
  output_file report_file = report_file
  <-> PyStr.contains ".md" report_file = false.
Proof.
  unfold output_file, str_replace.
  change (PyStr.is_empty ".md") with false. cbv iota. split.
  - intros Hsame. destruct (PyStr.contains ".md" report_file) eqn:E; [|done].
    destruct (replace_go_done_len report_file 0 ltac:(lia)) as [_ Hlt].
    cbn [PyStr.slice_from] in Hlt. apply Hlt in E. rewrite Hsame in E. lia.
  - apply replace_go_absent.
Qed.

(** X18.  For a report file [stem ++ ".md"] whose stem holds no [".md"],
    the output file is [stem ++ "_done.md"]. *)
Theorem output_file_of_md_report (stem : string) :
  PyStr.contains ".md" stem = false ->
  output_file (stem +:+ ".md") = stem +:+ "_done.md".
Proof.
  unfold output_file, str_replace.
  change (PyStr.is_empty ".md") with false. cbv iota.
  induction stem as [|c stem IH]; [by intros _|].
  cbn [PyStr.contains]. intros H. apply orb_false_iff in H as [Hc Hstem].
  change (String c stem +:+ ".md") with (String c (stem +:+ ".md")).
  change (String c stem +:+ "_done.md")
    with (String c (stem +:+ "_done.md")).
  cbn [replace_go].
  assert (Hhere : PyStr.startswith (String c (stem +:+ ".md")) ".md" = false).
  { destruct stem as [|c1 [|c2 stem]].
    - change ("" +:+ ".md") with ".md". cbn [PyStr.startswith].
      by destruct (Ascii.eqb "." c).
    - change (String c1 "" +:+ ".md") with (String c1 ".md").
      cbn [PyStr.startswith].
      by destruct (Ascii.eqb "." c), (Ascii.eqb "m" c1).
    - change (String c1 (String c2 stem) +:+ ".md")
        with (String c1 (String c2 (stem +:+ ".md"))).
      cbn [PyStr.startswith] in *. by rewrite startswith_empty in *. }
  rewrite Hhere. by rewrite IH.
Qed.

Lemma output_file_of_md_report_witness :
  output_file "2021 Week 01.md" = "2021 Week 01_done.md".
Proof.
  apply (output_file_of_md_report "2021 Week 01"). reflexivity.
Defined.
